(** * Denormalisation, sanitisation and batch sync of the ticket data lake

    A shallow embedding of the Python sources
    [src/document_utils.py], [src/utils.py], [src/ticket_sync.py],
    [src/data_sync.py], [src/es_connector.py], [src/db_connector.py] and of
    the older top-level [ticket_sync.py] / [data_lake_sync.py], followed by
    the properties the specification states about them. *)

From Stdlib Require Import List String Ascii ZArith Bool Arith Lia.
From Stdlib Require Import Permutation Sorted.
Import ListNotations.

Local Open Scope string_scope.
Local Open Scope list_scope.

(** ** Exceptions and fallible computations *)

(** The exception classes the modelled code can meet. *)
Inductive exn : Type :=
| ValueError
| TypeError
| KeyError (key : string)
| JSONDecodeError
| TransportError
| OtherError (msg : string).

(** A Python call either returns or raises. *)
Inductive result (A : Type) : Type :=
| Ok (a : A)
| Raise (e : exn).

Arguments Ok {A} a.
Arguments Raise {A} e.

Definition bind {A B : Type} (m : result A) (f : A -> result B) : result B :=
  match m with
  | Ok a => f a
  | Raise e => Raise e
  end.

Notation "x <- m ;; k" := (bind m (fun x => k))
  (at level 61, m at next level, right associativity).

(** A list comprehension whose element expression may raise. *)
Fixpoint map_result {A B : Type} (f : A -> result B) (l : list A)
  : result (list B) :=
  match l with
  | [] => Ok []
  | x :: rest =>
      y <- f x ;;
      ys <- map_result f rest ;;
      Ok (y :: ys)
  end.

(** ** Python values *)

(** A Python float, by its IEEE-754 binary64 bit pattern. *)
Definition float_is_nan (f : Z) : bool :=
  Z.eqb (Z.land (Z.shiftr f 52) 2047) 2047
  && negb (Z.eqb (Z.land f (2 ^ 52 - 1)) 0).

(** [np.ndarray] versus [pd.Series]: both are sized and iterable and have
    [.item()] and [.dtype]; they differ in their truth value. *)
Inductive array_kind : Type := NdArray | Series.

(** The element types [np.issubdtype] tells apart in the sanitizer. *)
Inductive dtype : Type := DInt | DFloat | DBool | DObject.

(** The values a row, a document or a parsed JSON payload can hold.
    A [uuid.UUID] is given by its canonical text (what [str(v)] returns), a
    [pd.Timestamp] by its ISO-8601 text (what [v.isoformat()] returns) and a
    [bytes] object together with the text of
    [v.decode('utf-8', errors='ignore')].  [VNpInt], [VNpFloat] and
    [VNpBool] are the numpy scalars ([np.int64], [np.float64], [np.bool_]).
    [VArray] is a one-dimensional array or Series; its elements are listed
    as iteration over an [np.ndarray] yields them (numpy scalars for the
    numeric dtypes, any value for [DObject]).  [VObject] is an object of
    any other class, given by the name of the class: not a scalar for
    pandas, without [dtype] or [item], not a datetime.  It is either a
    [pd.DataFrame] (class [DataFrame]), which pandas maps element by
    element, or an object pandas does not take for array-like.  A
    [pd.Index] or an extension array, which has a [dtype], is not a
    [VObject]. *)
#[warnings="-register-all"]
Inductive value : Type :=
| VNone
| VNaT
| VNA
| VBool (b : bool)
| VInt (n : Z)
| VFloat (f : Z)
| VStr (s : string)
| VNpInt (n : Z)
| VNpFloat (f : Z)
| VNpBool (b : bool)
| VUuid (canon : string)
| VTimestamp (iso : string)
| VBytes (raw : list Byte.byte) (text : string)
| VDict (fields : list (string * value))
| VList (items : list value)
| VArray (kind : array_kind) (dt : dtype) (elems : list value)
| VObject (name : string).

(** Induction over values that also reaches dict fields, list items and
    array elements. *)
Section ValueInduction.
Variable P : value -> Prop.
Hypothesis HNone : P VNone.
Hypothesis HNaT : P VNaT.
Hypothesis HNA : P VNA.
Hypothesis HBool : forall b, P (VBool b).
Hypothesis HInt : forall n, P (VInt n).
Hypothesis HFloat : forall f, P (VFloat f).
Hypothesis HStr : forall s, P (VStr s).
Hypothesis HNpInt : forall n, P (VNpInt n).
Hypothesis HNpFloat : forall f, P (VNpFloat f).
Hypothesis HNpBool : forall b, P (VNpBool b).
Hypothesis HUuid : forall c, P (VUuid c).
Hypothesis HTimestamp : forall i, P (VTimestamp i).
Hypothesis HBytes : forall r t, P (VBytes r t).
Hypothesis HDict :
  forall fields, Forall (fun kv => P (snd kv)) fields -> P (VDict fields).
Hypothesis HList : forall items, Forall P items -> P (VList items).
Hypothesis HArray :
  forall kind dt elems, Forall P elems -> P (VArray kind dt elems).
Hypothesis HObject : forall n, P (VObject n).

Fixpoint value_nested_ind (v : value) : P v :=
  match v with
  | VNone => HNone
  | VNaT => HNaT
  | VNA => HNA
  | VBool b => HBool b
  | VInt n => HInt n
  | VFloat f => HFloat f
  | VStr s => HStr s
  | VNpInt n => HNpInt n
  | VNpFloat f => HNpFloat f
  | VNpBool b => HNpBool b
  | VUuid c => HUuid c
  | VTimestamp i => HTimestamp i
  | VBytes r t => HBytes r t
  | VDict fields =>
      HDict fields
        ((fix go (l : list (string * value))
            : Forall (fun kv => P (snd kv)) l :=
            match l with
            | [] => Forall_nil _
            | kv :: rest =>
                Forall_cons kv (value_nested_ind (snd kv)) (go rest)
            end) fields)
  | VList items =>
      HList items
        ((fix go (l : list value) : Forall P l :=
            match l with
            | [] => Forall_nil _
            | x :: rest => Forall_cons x (value_nested_ind x) (go rest)
            end) items)
  | VArray kind dt elems =>
      HArray kind dt elems
        ((fix go (l : list value) : Forall P l :=
            match l with
            | [] => Forall_nil _
            | x :: rest => Forall_cons x (value_nested_ind x) (go rest)
            end) elems)
  | VObject n => HObject n
  end.
End ValueInduction.

(** ** Python dicts with string keys, in insertion order *)

Definition dict : Type := list (string * value).

Definition keys (d : dict) : list string := map fst d.

(** [d.get(k)] / [k in d]. *)
Fixpoint dict_get (d : dict) (k : string) : option value :=
  match d with
  | [] => None
  | (k', v) :: rest => if String.eqb k' k then Some v else dict_get rest k
  end.

(** [d[k] = v]: overwrite in place when the key exists, append otherwise. *)
Fixpoint dict_set (d : dict) (k : string) (v : value) : dict :=
  match d with
  | [] => [(k, v)]
  | (k', v') :: rest =>
      if String.eqb k' k then (k', v) :: rest
      else (k', v') :: dict_set rest k v
  end.

(** ** pandas and numpy primitives used by the sanitizers *)

(** [pd.isna] of a single scalar or object. *)
Definition checknull (v : value) : bool :=
  match v with
  | VNone | VNaT | VNA => true
  | VFloat f | VNpFloat f => float_is_nan f
  | _ => false
  end.

(** [pd.api.types.is_scalar]. *)
Definition is_scalar (v : value) : bool :=
  match v with
  | VNone | VNaT | VNA | VBool _ | VInt _ | VFloat _ | VStr _
  | VNpInt _ | VNpFloat _ | VNpBool _ | VTimestamp _ | VBytes _ _ => true
  | _ => false
  end.

Definition is_none (v : value) : bool :=
  match v with
  | VNone => true
  | _ => false
  end.

Fixpoint common_prefix (a b : list nat) : list nat :=
  match a, b with
  | x :: a', y :: b' => if Nat.eqb x y then x :: common_prefix a' b' else []
  | _, _ => []
  end.

Definition common_shape (shapes : list (list nat)) : list nat :=
  match shapes with
  | [] => []
  | s :: rest => fold_left common_prefix rest s
  end.

(** Shape of [np.asarray(v, dtype=object)], the array [pd.isna] builds from
    a list: nesting is followed as deep as the sub-lists stay rectangular;
    an array inside the list contributes its own single dimension. *)
Fixpoint np_shape (v : value) : list nat :=
  match v with
  | VList items => List.length items :: common_shape (map np_shape items)
  | VArray _ _ elems => [List.length elems]
  | _ => []
  end.

Definition np_size (v : value) : nat := fold_right Nat.mul 1 (np_shape v).

(** The only element of [np.asarray(v, dtype=object)] when its size is 1. *)
Fixpoint np_leaf (v : value) : value :=
  match v with
  | VList [x] => np_leaf x
  | VArray _ _ [x] => x
  | _ => v
  end.

(** [bool(a)] of an empty array: false (with a deprecation warning) in the
    NumPy releases before 2.2. *)
Definition empty_array_truth : result bool := Ok false.

(** [isinstance(v, pd.DataFrame)]. *)
Definition is_frame (v : value) : bool :=
  match v with
  | VObject name => String.eqb name "DataFrame"
  | _ => false
  end.

(** The truth value of [pd.isna(v)], as an [if] or an [or] takes it: a
    plain boolean for scalars and for objects that are not array-like, the
    truth value of the element-wise array for lists and arrays (ambiguous,
    hence [ValueError], from two elements on), always [ValueError] for a
    Series and for a DataFrame, whose [isna] is a Series or a frame. *)
Definition isna_truth (v : value) : result bool :=
  match v with
  | VList _ =>
      match np_size v with
      | 0 => empty_array_truth
      | 1 => Ok (checknull (np_leaf v))
      | _ => Raise ValueError
      end
  | VArray Series _ _ => Raise ValueError
  | VArray NdArray _ elems =>
      match elems with
      | [] => empty_array_truth
      | [x] => Ok (checknull x)
      | _ => Raise ValueError
      end
  | VObject _ => if is_frame v then Raise ValueError else Ok false
  | _ => Ok (checknull v)
  end.

(** A numpy scalar as the Python scalar [x.item()] returns. *)
Definition unbox (v : value) : value :=
  match v with
  | VNpInt n => VInt n
  | VNpFloat f => VFloat f
  | VNpBool b => VBool b
  | _ => v
  end.

(** [v.item()] of an array: its only element, as a Python scalar for the
    numeric dtypes and as the stored object for [DObject]. *)
Definition array_item (dt : dtype) (elems : list value) : result value :=
  match elems with
  | [x] => Ok (match dt with DObject => x | _ => unbox x end)
  | _ => Raise ValueError
  end.

(** [hasattr(x, 'item')]. *)
Definition has_item (x : value) : bool :=
  match x with
  | VNpInt _ | VNpFloat _ | VNpBool _ | VArray _ _ _ => true
  | _ => false
  end.

(** [x.item()]. *)
Definition item (x : value) : result value :=
  match x with
  | VArray _ dt elems => array_item dt elems
  | _ => Ok (unbox x)
  end.

(** ** The Value Sanitizer *)

(** The [try] around the conversion of one field: the [except] logs the
    error and takes [None] as the value of the field. *)
Definition field_or_none (coerce : value -> result value) (v : value)
  : value :=
  match coerce v with
  | Ok x => x
  | Raise _ => VNone
  end.

(** The [for k, v in doc.items()] loop shared by every copy of the
    sanitizer, [sanitized[k] = ...] for each field in turn. *)
Fixpoint sanitize_fields (coerce : value -> result value)
    (fields : dict) (sanitized : dict) : dict :=
  match fields with
  | [] => sanitized
  | (k, v) :: rest =>
      sanitize_fields coerce rest
        (dict_set sanitized k (field_or_none coerce v))
  end.

Module DocumentUtils.

(** One element of a multi-element array, lines 36-40 of
    [src/document_utils.py]. *)
Definition array_element (x : value) : result value :=
  missing <- isna_truth x ;;
  if missing then Ok VNone
  else if has_item x then item x
  else Ok x.

(** The body of the [try] of [sanitize_document]: the [if]/[elif] chain
    over one field value; [rec] is [sanitize_document] itself. *)
Definition coerce_field (rec : value -> result value) (v : value)
  : result value :=
  match v with
  | VArray _ dt elems =>
      match elems with
      | [] => Ok (VList [])
      | [_] =>
          single_val <- array_item dt elems ;;
          missing <- isna_truth single_val ;;
          Ok (if missing then VNone else single_val)
      | _ =>
          xs <- map_result array_element elems ;;
          Ok (VList xs)
      end
  | _ =>
      if is_none v || (is_scalar v && checknull v) then Ok VNone
      else
        match v with
        | VNpInt n => Ok (VInt n)
        | VNpFloat f => Ok (if float_is_nan f then VNone else VFloat f)
        | VNpBool b => Ok (VBool b)
        | VUuid canon => Ok (VStr canon)
        | VTimestamp iso => Ok (VStr iso)
        | VBytes _ text => Ok (VStr text)
        | VDict _ => rec v
        | VList items =>
            xs <- map_result rec items ;;
            Ok (VList xs)
        | _ => Ok v
        end
  end.

(** [sanitize_document] of [src/document_utils.py]. *)
Fixpoint sanitize_document (doc : value) : result value :=
  match doc with
  | VDict fields =>
      Ok (VDict (sanitize_fields (coerce_field sanitize_document) fields []))
  | _ => Ok doc
  end.

End DocumentUtils.

Module Utils.

(** [int(v)], [float(v)], [bool(v)] of an array: defined for exactly one
    element ([bool] of an empty array is its truth value). *)
Definition array_int (elems : list value) : result value :=
  match elems with
  | [VNpInt n] => Ok (VInt n)
  | _ => Raise TypeError
  end.

Definition array_float (elems : list value) : result value :=
  match elems with
  | [] =>
      nan <- empty_array_truth ;;
      if nan then Ok VNone else Raise TypeError
  | [VNpFloat f] => Ok (if float_is_nan f then VNone else VFloat f)
  | [_] => Raise TypeError
  | _ => Raise ValueError
  end.

Definition array_bool (elems : list value) : result value :=
  match elems with
  | [] =>
      b <- empty_array_truth ;;
      Ok (VBool b)
  | [VNpBool b] => Ok (VBool b)
  | [_] => Raise TypeError
  | _ => Raise ValueError
  end.

(** The body of the [try] of [sanitize_document] in [src/utils.py]: the
    first test is [v is None or pd.isna(v)], with no [is_scalar] guard and
    no array branch before it. *)
Definition coerce_field (rec : value -> result value) (v : value)
  : result value :=
  missing <- (if is_none v then Ok true else isna_truth v) ;;
  if missing then Ok VNone
  else
    match v with
    | VNpInt n => Ok (VInt n)
    | VArray _ DInt elems => array_int elems
    | VNpFloat f => Ok (if float_is_nan f then VNone else VFloat f)
    | VArray _ DFloat elems => array_float elems
    | VNpBool b => Ok (VBool b)
    | VArray _ DBool elems => array_bool elems
    | VUuid canon => Ok (VStr canon)
    | VTimestamp iso => Ok (VStr iso)
    | VBytes _ text => Ok (VStr text)
    | VDict _ => rec v
    | VList items =>
        xs <- map_result rec items ;;
        Ok (VList xs)
    | _ => Ok v
    end.

(** [sanitize_document] of [src/utils.py]. *)
Fixpoint sanitize_document (doc : value) : result value :=
  match doc with
  | VDict fields =>
      Ok (VDict (sanitize_fields (coerce_field sanitize_document) fields []))
  | _ => Ok doc
  end.

End Utils.

(** ** Rows, frames and the label grouping *)

(** A pandas row: column name to cell. *)
Record DataFrame : Type := mkFrame {
  columns : list string;
  rows : list dict
}.

(** [row[col]]. *)
Definition row_getitem (row : dict) (col : string) : result value :=
  match dict_get row col with
  | Some v => Ok v
  | None => Raise (KeyError col)
  end.

(** [row.get(col)]. *)
Definition row_get (row : dict) (col : string) : value :=
  match dict_get row col with
  | Some v => v
  | None => VNone
  end.

(** [if isinstance(x, uuid.UUID): x = str(x)]. *)
Definition normalize_id (x : value) : value :=
  match x with
  | VUuid canon => VStr canon
  | _ => x
  end.

(** The truth value of [pd.notna(v)]. *)
Definition notna_truth (v : value) : result bool :=
  match v with
  | VList _ =>
      match np_size v with
      | 0 => empty_array_truth
      | 1 => Ok (negb (checknull (np_leaf v)))
      | _ => Raise ValueError
      end
  | VArray Series _ _ => Raise ValueError
  | VArray NdArray _ elems =>
      match elems with
      | [] => empty_array_truth
      | [x] => Ok (negb (checknull x))
      | _ => Raise ValueError
      end
  | VObject _ => if is_frame v then Raise ValueError else Ok true
  | _ => Ok (negb (checknull v))
  end.

(** Equality of values is decidable.  The keys of the label grouping are
    compared with it: ids of one type on both sides, as the two queries of
    one database return them. *)
Definition value_eq_dec : forall a b : value, {a = b} + {a <> b}.
Proof.
  fix IH 1.
  decide equality;
    try apply String.string_dec; try apply Z.eq_dec; try apply Bool.bool_dec;
    try (apply list_eq_dec; exact IH);
    try (apply list_eq_dec; exact Byte.byte_eq_dec).
  - apply list_eq_dec. intros [k1 v1] [k2 v2].
    destruct (String.string_dec k1 k2) as [->|Hk]; [|right; congruence].
    destruct (IH v1 v2) as [->|Hv]; [left; reflexivity|right; congruence].
  - decide equality.
  - decide equality.
Defined.

Definition value_eqb (a b : value) : bool :=
  if value_eq_dec a b then true else false.

(** Only immutable values can be dict keys. *)
Definition hashable (v : value) : bool :=
  match v with
  | VDict _ | VList _ | VArray _ _ _ => false
  | _ => true
  end.

(** [labels_by_ticket]: ticket id to the list of its label documents. *)
Definition label_groups : Type := list (value * list value).

Fixpoint group_get (g : label_groups) (k : value) : option (list value) :=
  match g with
  | [] => None
  | (k', ls) :: rest => if value_eqb k' k then Some ls else group_get rest k
  end.

(** [if k not in g: g[k] = []] followed by [g[k].append(x)]. *)
Fixpoint group_append (g : label_groups) (k : value) (x : value)
  : label_groups :=
  match g with
  | [] => [(k, [x])]
  | (k', ls) :: rest =>
      if value_eqb k' k then (k', ls ++ [x]) :: rest
      else (k', ls) :: group_append rest k x
  end.

(** One iteration of the loop of [process_ticket_labels]. *)
Definition add_label_row (g : label_groups) (row : dict)
  : result label_groups :=
  raw_ticket <- row_getitem row "ticketId" ;;
  let ticket_id := normalize_id raw_ticket in
  if negb (hashable ticket_id) then Raise TypeError
  else
    raw_label <- row_getitem row "label_id" ;;
    let label_id := normalize_id raw_label in
    name <- row_getitem row "label_name" ;;
    color <- row_getitem row "color" ;;
    present <- notna_truth color ;;
    Ok (group_append g ticket_id
          (VDict [("id", label_id); ("name", name);
                  ("color", if present then color else VNone)])).

Fixpoint add_label_rows (g : label_groups) (label_rows : list dict)
  : result label_groups :=
  match label_rows with
  | [] => Ok g
  | row :: rest =>
      g' <- add_label_row g row ;;
      add_label_rows g' rest
  end.

(** [process_ticket_labels] of [src/document_utils.py]. *)
Definition process_ticket_labels (df_labels : DataFrame)
  : result label_groups :=
  add_label_rows [] (rows df_labels).

(** ** Bulk actions and the serialisation check *)

(** One entry of the list handed to the bulk helper. *)
Record action : Type := mkAction {
  op_type : string;
  a_index : string;
  a_id : string;
  a_source : value
}.

(** Whether [json.dumps(doc, cls=CustomJSONEncoder)] succeeds: the JSON
    types (a [np.float64] is a [float]), plus what
    [CustomJSONEncoder.default] converts: UUIDs, Timestamps and other
    datetimes ([pd.NaT] is one). *)
Fixpoint json_encodable (v : value) : bool :=
  match v with
  | VNone | VBool _ | VInt _ | VFloat _ | VStr _ | VNpFloat _ => true
  | VUuid _ | VTimestamp _ | VNaT => true
  | VDict fields => forallb (fun kv => json_encodable (snd kv)) fields
  | VList items => forallb json_encodable items
  | _ => false
  end.

(** The Batch Sync Controller, over what it takes from its collaborators:
    the JSON parser, [str()] of a non-text object, the truth value of a
    cell, and the index store with its bulk helper. *)
Section BatchSync.

Variable json_loads : string -> result value.
Variable str_of : value -> result string.
Variable truthy : value -> result bool.

Variable es_state : Type.
Variable es_create_index : es_state -> string -> es_state * result unit.
Variable es_bulk :
  es_state -> list action -> bool -> es_state * result (nat * list value).

(** [str(x)], and [x] formatted into an f-string. *)
Definition py_str (x : value) : result string :=
  match x with
  | VStr s => Ok s
  | VUuid canon => Ok canon
  | _ => str_of x
  end.

(** [json.loads(json.dumps(doc, default=str))]. *)
Fixpoint json_roundtrip_default_str (v : value) : result value :=
  match v with
  | VNone | VBool _ | VInt _ | VFloat _ | VStr _ => Ok v
  | VNpFloat f => Ok (VFloat f)
  | VDict fields =>
      fs <- map_result
              (fun kv =>
                 x <- json_roundtrip_default_str (snd kv) ;;
                 Ok (fst kv, x))
              fields ;;
      Ok (VDict fs)
  | VList items =>
      xs <- map_result json_roundtrip_default_str items ;;
      Ok (VList xs)
  | _ =>
      s <- py_str v ;;
      Ok (VStr s)
  end.

(** Lines 144-171 of [src/ticket_sync.py] (the same text in every pass of
    [src/data_sync.py]): the document is queued when it serialises, queued
    in its re-parsed form when only the [default=str] pass serialises, and
    dropped ([None]) otherwise. *)
Definition make_action (index_name document_id : string)
    (sanitized_doc : value) : option action :=
  if json_encodable sanitized_doc then
    Some (mkAction "index" index_name document_id sanitized_doc)
  else
    match json_roundtrip_default_str sanitized_doc with
    | Ok reparsed => Some (mkAction "index" index_name document_id reparsed)
    | Raise _ => None
    end.

(** *** The ticket document, [src/ticket_sync.py] lines 101-142 *)

(** Lines 108-119: one cell copied into the document. *)
Definition column_value (val : value) : result value :=
  match val with
  | VUuid canon => Ok (VStr canon)
  | VTimestamp iso => Ok (VStr iso)
  | _ =>
      missing <- isna_truth val ;;
      Ok (if missing then VNone else val)
  end.

Fixpoint copy_columns (cols : list string) (row : dict) (doc : dict)
  : result dict :=
  match cols with
  | [] => Ok doc
  | col :: rest =>
      val <- row_getitem row col ;;
      x <- column_value val ;;
      copy_columns rest row (dict_set doc col x)
  end.

(** Lines 121-128: a textual [ticket_data] is parsed and the parsed value
    sanitized; text that is not JSON is kept. *)
Definition parse_ticket_data (doc : dict) : result dict :=
  match dict_get doc "ticket_data" with
  | Some (VStr s) =>
      match json_loads s with
      | Ok parsed_data =>
          x <- DocumentUtils.sanitize_document parsed_data ;;
          Ok (dict_set doc "ticket_data" x)
      | Raise JSONDecodeError => Ok doc
      | Raise e => Raise e
      end
  | _ => Ok doc
  end.

(** [labels_by_ticket.get(ticket_id, [])]. *)
Definition labels_of (labels_by_ticket : label_groups) (ticket_id : value)
  : result value :=
  if negb (hashable ticket_id) then Raise TypeError
  else
    Ok (VList (match group_get labels_by_ticket ticket_id with
               | Some ls => ls
               | None => []
               end)).

(** The body of the outer [try] for one ticket row.  [Raise] is the outer
    [except]; [Ok None] is the inner [continue]; both count one failed
    document. *)
Definition ticket_action (index_name : string) (cols : list string)
    (labels_by_ticket : label_groups) (index_timestamp : string)
    (row : dict) : result (option action) :=
  raw_id <- row_getitem row "ticket_id" ;;
  let ticket_id := normalize_id raw_id in
  doc <- copy_columns cols row [] ;;
  doc <- parse_ticket_data doc ;;
  labels <- labels_of labels_by_ticket ticket_id ;;
  let doc := dict_set doc "labels" labels in
  let doc := dict_set doc "indexed_at" (VStr index_timestamp) in
  id_text <- py_str ticket_id ;;
  let document_id := (id_text ++ "_" ++ index_timestamp)%string in
  let doc := dict_set doc "document_id" (VStr document_id) in
  sanitized_doc <- DocumentUtils.sanitize_document (VDict doc) ;;
  Ok (make_action index_name document_id sanitized_doc).

(** *** The data-source document, [src/data_sync.py] lines 86-118 *)

(** [str(row.get(col)) if row.get(col) else None]. *)
Definition str_if_truthy (row : dict) (col : string) : result value :=
  t <- truthy (row_get row col) ;;
  if t then
    s <- py_str (row_get row col) ;;
    Ok (VStr s)
  else Ok VNone.

Definition data_source_action (index_name : string)
    (index_timestamp : string) (row : dict) : result (option action) :=
  raw_id <- row_getitem row "id" ;;
  let data_source_id := normalize_id raw_id in
  id_text <- py_str data_source_id ;;
  let doc := dict_set [] "data_source_id" (VStr id_text) in
  let doc := dict_set doc "data_source_name" (row_get row "name") in
  let doc :=
    dict_set doc "data_source_description" (row_get row "description") in
  let doc := dict_set doc "data_source_dataMap" (row_get row "dataMap") in
  let doc :=
    dict_set doc "data_source_entityName" (row_get row "entityName") in
  let doc :=
    dict_set doc "data_source_coverVisibleData"
      (row_get row "coverVisibleData") in
  let doc :=
    dict_set doc "data_source_gatewayType" (row_get row "gatewayType") in
  let doc := dict_set doc "data_source_gatewayId" (row_get row "gatewayId") in
  module_id <- str_if_truthy row "moduleId" ;;
  let doc := dict_set doc "data_source_moduleId" module_id in
  status_id <- str_if_truthy row "statusId" ;;
  let doc := dict_set doc "data_source_statusId" status_id in
  void_status_id <- str_if_truthy row "voidStatusId" ;;
  let doc := dict_set doc "data_source_voidStatusId" void_status_id in
  let doc :=
    dict_set doc "data_source_dailyLimit" (row_get row "dailyLimit") in
  let doc :=
    dict_set doc "data_source_wipEnabled" (row_get row "wipEnabled") in
  let doc := dict_set doc "data_source_wipValue" (row_get row "wipValue") in
  let doc :=
    dict_set doc "data_source_createdAt" (row_get row "createdAt") in
  let doc :=
    dict_set doc "data_source_updatedAt" (row_get row "updatedAt") in
  let doc := dict_set doc "indexed_at" (VStr index_timestamp) in
  let document_id := (id_text ++ "_" ++ index_timestamp)%string in
  let doc := dict_set doc "document_id" (VStr document_id) in
  sanitized_doc <- DocumentUtils.sanitize_document (VDict doc) ;;
  Ok (make_action index_name document_id sanitized_doc).

(** *** The batch loop *)

(** [ElasticsearchConnector.bulk_index]: whatever the bulk helper raises is
    logged and reported as zero successes and no failed items. *)
Definition bulk_index (st : es_state) (actions : list action)
    (refresh : bool) : es_state * (nat * list value) :=
  let (st', outcome) := es_bulk st actions refresh in
  (st',
   match outcome with
   | Ok (success, failed) => (success, failed)
   | Raise _ => (0, [])
   end).

(** One call of [bulk_index], with the bounds of the batch it served. *)
Record bulk_call : Type := mkCall {
  c_start : nat;
  c_end : nat;
  c_actions : list action;
  c_refresh : bool
}.

(** The counters of a pass, the connection it writes through, and the
    bulk calls made so far, oldest first. *)
Record pass_state : Type := mkPass {
  es : es_state;
  successful_docs : nat;
  failed_docs : nat;
  bulk_calls : list bulk_call
}.

(** The [for idx, row in batch_df.iterrows()] loop: queued actions in
    order, and the number of rows that failed. *)
Fixpoint map_rows (build : dict -> result (option action))
    (batch_df : list dict) : list action * nat :=
  match batch_df with
  | [] => ([], 0)
  | row :: rest =>
      let (bulk_actions, failed) := map_rows build rest in
      match build row with
      | Ok (Some a) => (a :: bulk_actions, failed)
      | Ok None | Raise _ => (bulk_actions, S failed)
      end
  end.

(** The body of [for batch_start in range(0, total_count, batch_size)].
    The progress bar and the document-count query, which only log, are
    left out. *)
Definition process_batch (build : dict -> result (option action))
    (all_rows : list dict) (batch_size : nat) (s : pass_state)
    (batch_start : nat) : pass_state :=
  let total_count := List.length all_rows in
  let batch_end := Nat.min (batch_start + batch_size) total_count in
  let batch_df := firstn (batch_end - batch_start) (skipn batch_start all_rows) in
  let (bulk_actions, row_failures) := map_rows build batch_df in
  let failed := failed_docs s + row_failures in
  match bulk_actions with
  | [] => mkPass (es s) (successful_docs s) failed (bulk_calls s)
  | _ =>
      let refresh := Nat.eqb batch_end total_count in
      let '(st', (success_count, failed_items)) :=
        bulk_index (es s) bulk_actions refresh in
      mkPass st' (successful_docs s + success_count)
        (failed + List.length failed_items)
        (bulk_calls s ++ [mkCall batch_start batch_end bulk_actions refresh])
  end.

(** [range(start, stop, step)] for a positive step. *)
Fixpoint range_from (fuel start stop step : nat) : list nat :=
  match fuel with
  | 0 => []
  | S fuel' =>
      if Nat.ltb start stop
      then start :: range_from fuel' (start + step) stop step
      else []
  end.

(** [range(0, total_count, batch_size)]: [ValueError] for a zero step,
    empty for a negative one. *)
Definition batch_starts (total_count : nat) (batch_size : Z)
  : result (list nat) :=
  if Z.eqb batch_size 0 then Raise ValueError
  else if Z.ltb batch_size 0 then Ok []
  else Ok (range_from total_count 0 total_count (Z.to_nat batch_size)).

(** [min(config.SYNC_CONFIG.get('batch_size', 100), 50)]. *)
Definition effective_batch_size (configured : option Z) : Z :=
  Z.min (match configured with Some b => b | None => 100 end) 50.

(** The batching part of a pass, from the counters at zero to the end of
    the loop. *)
Definition run_batches (build : dict -> result (option action))
    (all_rows : list dict) (configured : option Z) (st : es_state)
  : result pass_state :=
  let batch_size := effective_batch_size configured in
  starts <- batch_starts (List.length all_rows) batch_size ;;
  Ok (fold_left (process_batch build all_rows (Z.to_nat batch_size))
        starts (mkPass st 0 0 [])).

(** What a pass reads from its surroundings: the frames the database
    connector returned ([None] after a query error), the configured batch
    size, the index prefix and the clock. *)
Record pass_input : Type := mkInput {
  df_main : option DataFrame;
  df_labels : option DataFrame;
  configured_batch_size : option Z;
  index_prefix : string;
  utcnow_isoformat : string
}.

(** [process_ticket_labels(df_labels) if df_labels is not None else {}]. *)
Definition pass_labels (inp : pass_input) : result label_groups :=
  match df_labels inp with
  | Some df => process_ticket_labels df
  | None => Ok []
  end.

(** [DataLakeSync.sync_denormalized_tickets] of [src/ticket_sync.py].
    [Ok None] is the early [return] on an empty rowset. *)
Definition sync_denormalized_tickets (inp : pass_input) (st : es_state)
  : result (option pass_state) :=
  let index_name := (index_prefix inp ++ "denormalized_tickets")%string in
  let (st, created) := es_create_index st index_name in
  _ <- created ;;
  match df_main inp with
  | None => Ok None
  | Some df_tickets =>
      match rows df_tickets with
      | [] => Ok None
      | _ =>
          labels_by_ticket <- pass_labels inp ;;
          let index_timestamp := utcnow_isoformat inp in
          s <- run_batches
                 (ticket_action index_name (columns df_tickets)
                    labels_by_ticket index_timestamp)
                 (rows df_tickets) (configured_batch_size inp) st ;;
          Ok (Some s)
      end
  end.

(** [DataLakeSync.sync_data_sources] of [src/data_sync.py]. *)
Definition sync_data_sources (inp : pass_input) (st : es_state)
  : result (option pass_state) :=
  let index_name := (index_prefix inp ++ "data_sources")%string in
  let (st, created) := es_create_index st index_name in
  _ <- created ;;
  match df_main inp with
  | None => Ok None
  | Some df_data_sources =>
      match rows df_data_sources with
      | [] => Ok None
      | _ =>
          let index_timestamp := utcnow_isoformat inp in
          s <- run_batches (data_source_action index_name index_timestamp)
                 (rows df_data_sources) (configured_batch_size inp) st ;;
          Ok (Some s)
      end
  end.

(** *** The dispatch of the older top-level [ticket_sync.py], lines 499-536 *)

Variable es_refresh : es_state -> es_state * result unit.
Variable es_index : es_state -> action -> es_state * result string.

(** [helpers.bulk(self.es_client, actions, ...)] at line 503.  The module
    imports [bulk] from [elasticsearch.helpers] and binds no name
    [helpers]: evaluating the call raises [NameError] before the store is
    reached. *)
Definition helpers_bulk (st : es_state) (actions : list action)
  : es_state * result (nat * nat) :=
  (st, Raise (OtherError "NameError")).

(** The fallback loop: each action indexed on its own and counted as a
    success when the store answers [created] or [updated], as a failure
    otherwise or when the call raises. *)
Fixpoint index_one_by_one (st : es_state) (actions : list action)
    (successful failed : nat) : es_state * nat * nat :=
  match actions with
  | [] => (st, successful, failed)
  | a :: rest =>
      let (st', outcome) := es_index st a in
      match outcome with
      | Ok answer =>
          if String.eqb answer "created" || String.eqb answer "updated"
          then index_one_by_one st' rest (S successful) failed
          else index_one_by_one st' rest successful (S failed)
      | Raise _ => index_one_by_one st' rest successful (S failed)
      end
  end.

(** [if actions:] and what follows it. *)
Definition legacy_dispatch (st : es_state) (actions : list action)
    (successful failed : nat) : es_state * nat * nat :=
  match actions with
  | [] => (st, successful, failed)
  | _ =>
      let (st1, outcome) := helpers_bulk st actions in
      match outcome with
      | Ok (success, failures) =>
          let (st2, refreshed) := es_refresh st1 in
          match refreshed with
          | Ok _ => (st2, successful + success, failed + failures)
          | Raise _ =>
              index_one_by_one st2 actions (successful + success)
                (failed + failures)
          end
      | Raise _ => index_one_by_one st1 actions successful failed
      end
  end.

End BatchSync.

Arguments mkPass {es_state} es successful_docs failed_docs bulk_calls.
Arguments es {es_state} p.
Arguments successful_docs {es_state} p.
Arguments failed_docs {es_state} p.
Arguments bulk_calls {es_state} p.
Arguments bulk_index {es_state} es_bulk st actions refresh.
Arguments process_batch {es_state} es_bulk build all_rows batch_size s
  batch_start.
Arguments run_batches {es_state} es_bulk build all_rows configured st.
Arguments sync_denormalized_tickets json_loads str_of {es_state}
  es_create_index es_bulk inp st.
Arguments sync_data_sources str_of truthy {es_state} es_create_index es_bulk
  inp st.
Arguments index_one_by_one {es_state} es_index st actions successful failed.
Arguments helpers_bulk {es_state} st actions.
Arguments legacy_dispatch {es_state} es_refresh es_index st
  actions successful failed.

(** ** The Sync Orchestrator *)

Inductive entity_kind : Type :=
| DataSources | Users | Modules | Statuses | Labels.

Inductive log_line : Type :=
| LogInfo (msg : string)
| LogError (msg : string) (e : exn).

Section Orchestrator.

(** Everything a pass can change: the index store, the logs it writes. *)
Variable world : Type.

(** The five passes of [src/data_sync.py]: each returns or raises. *)
Variable run_pass : entity_kind -> world -> world * result unit.

(** The state of one orchestrator run: the world, the passes entered so
    far (oldest first) and the orchestrator's own log. *)
Record run_state : Type := mkRun {
  run_world : world;
  attempted : list entity_kind;
  run_log : list log_line
}.

Definition step : Type := run_state -> run_state * result unit.

(** Statement sequencing inside a [try]: a raise skips what follows. *)
Definition and_then (first next : step) : step :=
  fun s =>
    let (s1, outcome) := first s in
    match outcome with
    | Ok _ => next s1
    | Raise e => (s1, Raise e)
    end.

(** A call [self.sync_<kind>()]. *)
Definition call_pass (k : entity_kind) : step :=
  fun s =>
    let (w, outcome) := run_pass k (run_world s) in
    (mkRun w (attempted s ++ [k]) (run_log s), outcome).

Definition log_info (msg : string) : step :=
  fun s => (mkRun (run_world s) (attempted s) (run_log s ++ [LogInfo msg]), Ok tt).

(** [DataLakeSync.sync_all_tables] of [src/data_sync.py]: one [try] around
    the five calls. *)
Definition sync_all_tables (w : world) : run_state :=
  let (s0, _) := log_info "Starting data sync" (mkRun w [] []) in
  let (s1, outcome) :=
    and_then (call_pass DataSources)
      (and_then (call_pass Users)
         (and_then (call_pass Modules)
            (and_then (call_pass Statuses)
               (and_then (call_pass Labels)
                  (log_info "Completed data sync"))))) s0 in
  match outcome with
  | Ok _ => s1
  | Raise e =>
      mkRun (run_world s1) (attempted s1)
        (run_log s1 ++ [LogError "Error during data sync" e])
  end.

(** The per-table sync of the top-level [data_lake_sync.py]. *)
Variable sync_table_to_elasticsearch : string -> world -> world * result unit.

(** The state of that older loop: the world, the tables entered so far
    and the log. *)
Record table_run : Type := mkTableRun {
  t_world : world;
  t_attempted : list string;
  t_log : list log_line
}.

(** The body of [for table in tables]: a [try] of its own. *)
Definition sync_one_table (s : table_run) (table : string) : table_run :=
  let (w, outcome) := sync_table_to_elasticsearch table (t_world s) in
  mkTableRun w (t_attempted s ++ [table])
    (t_log s ++
       LogInfo "Starting sync for table" ::
       match outcome with
       | Ok _ => [LogInfo "Completed sync for table"]
       | Raise e => [LogError "Error syncing table" e]
       end).

(** [DataLakeSync.sync_all_tables] of the top-level [data_lake_sync.py]. *)
Definition legacy_sync_all_tables (tables : list string) (w : world)
  : table_run :=
  fold_left sync_one_table tables (mkTableRun w [] [LogInfo "Found tables to sync"]).

End Orchestrator.

Arguments mkRun {world} run_world attempted run_log.
Arguments run_world {world} r.
Arguments attempted {world} r.
Arguments run_log {world} r.
Arguments sync_all_tables {world} run_pass w.
Arguments mkTableRun {world} t_world t_attempted t_log.
Arguments t_world {world} t.
Arguments t_attempted {world} t.
Arguments t_log {world} t.
Arguments legacy_sync_all_tables {world} sync_table_to_elasticsearch tables w.

(** ** Latest status per ticket: the [latest_status] query *)

(** A row of [TicketStatus]; ids as the integers behind the keys,
    timestamps as microseconds. *)
Record TicketStatus : Type := mkTicketStatus {
  ts_ticketId : Z;
  ts_statusId : Z;
  ts_createdAt : Z;
  ts_deletedAt : option Z
}.

Record Status : Type := mkStatus {
  s_id : Z;
  s_name : string;
  s_isFinalStatus : bool
}.

(** A row of the [latest_status] common table expression. *)
Record LatestStatus : Type := mkLatest {
  ls_ticketId : Z;
  ls_statusId : Z;
  ls_status_name : string;
  ls_isFinalStatus : bool;
  ls_status_created_at : Z
}.

(** [FROM TicketStatus ts JOIN Status s ON ts.statusId = s.id
     WHERE ts.deletedAt IS NULL]. *)
Definition joined_history (history : list TicketStatus)
    (statuses : list Status) : list LatestStatus :=
  flat_map
    (fun ts =>
       match ts_deletedAt ts with
       | Some _ => []
       | None =>
           map (fun s =>
                  mkLatest (ts_ticketId ts) (ts_statusId ts) (s_name s)
                    (s_isFinalStatus s) (ts_createdAt ts))
             (filter (fun s => Z.eqb (ts_statusId ts) (s_id s)) statuses)
       end)
    history.

(** [ORDER BY ts.ticketId, ts.createdAt DESC]: does [a] sort no later
    than [b]. *)
Definition order_leb (a b : LatestStatus) : bool :=
  Z.ltb (ls_ticketId a) (ls_ticketId b)
  || (Z.eqb (ls_ticketId a) (ls_ticketId b)
      && Z.leb (ls_status_created_at b) (ls_status_created_at a)).

Fixpoint insert_row (r : LatestStatus) (sorted : list LatestStatus)
  : list LatestStatus :=
  match sorted with
  | [] => [r]
  | x :: rest =>
      if order_leb r x then r :: sorted else x :: insert_row r rest
  end.

Fixpoint order_by (l : list LatestStatus) : list LatestStatus :=
  match l with
  | [] => []
  | r :: rest => insert_row r (order_by rest)
  end.

(** [SELECT DISTINCT ON (ts.ticketId)]: of each run of rows with one
    ticket id, the first. *)
Fixpoint distinct_on_ticket (prev : option Z) (l : list LatestStatus)
  : list LatestStatus :=
  match l with
  | [] => []
  | r :: rest =>
      match prev with
      | Some t =>
          if Z.eqb t (ls_ticketId r) then distinct_on_ticket prev rest
          else r :: distinct_on_ticket (Some (ls_ticketId r)) rest
      | None => r :: distinct_on_ticket (Some (ls_ticketId r)) rest
      end
  end.

(** The [latest_status] table of [get_tickets_and_labels]. *)
Definition latest_status (history : list TicketStatus)
    (statuses : list Status) : list LatestStatus :=
  distinct_on_ticket None (order_by (joined_history history statuses)).

(** [LEFT JOIN latest_status ls ON t.id = ls.ticketId], for one ticket:
    one output row for each row of [latest_status] with the id of the
    ticket, and a single row without a status when there is none. *)
Definition status_of_ticket (history : list TicketStatus)
    (statuses : list Status) (ticket : Z) : list (option LatestStatus) :=
  match filter (fun ls => Z.eqb (ls_ticketId ls) ticket)
          (latest_status history statuses) with
  | [] => [None]
  | matching => map Some matching
  end.

(** ** Vocabulary of the properties *)

(** A field of a document. *)
Definition doc_field (doc : value) (k : string) : option value :=
  match doc with
  | VDict d => dict_get d k
  | _ => None
  end.

(** Values built without numpy arrays and pandas Series: missing-value
    markers, Python and numpy scalars, UUIDs, timestamps, binary data,
    other objects, and dicts and lists of such values. *)
Fixpoint no_arrays (v : value) : bool :=
  match v with
  | VArray _ _ _ => false
  | VDict fields => forallb (fun kv => no_arrays (snd kv)) fields
  | VList items => forallb no_arrays items
  | _ => true
  end.

(** Documents no field of which, at any depth of nested dicts, holds a
    list, an array, a Series or a DataFrame. *)
Fixpoint scalar_fields (doc : value) : bool :=
  match doc with
  | VDict fields =>
      forallb
        (fun kv =>
           match snd kv with
           | VList _ | VArray _ _ _ => false
           | VObject name => negb (String.eqb name "DataFrame")
           | _ => scalar_fields (snd kv)
           end)
        fields
  | _ => true
  end.

(** No row of the label frame belongs to the ticket: the frame is missing,
    or none of its [ticketId] cells is the ticket id. *)
Definition no_label_rows (inp : pass_input) (ticket_id : value) : Prop :=
  match df_labels inp with
  | None => True
  | Some df =>
      Forall
        (fun label_row =>
           forall raw,
             dict_get label_row "ticketId" = Some raw ->
             normalize_id raw <> ticket_id)
        (rows df)
  end.

(** The rows of the batch that starts at [batch_start]. *)
Definition batch_rows (all_rows : list dict) (batch_size batch_start : nat)
  : list dict :=
  firstn
    (Nat.min (batch_start + batch_size) (List.length all_rows) - batch_start)
    (skipn batch_start all_rows).

(** The actions that batch queues. *)
Definition queued (build : dict -> result (option action))
    (all_rows : list dict) (batch_size batch_start : nat) : list action :=
  fst (map_rows build (batch_rows all_rows batch_size batch_start)).

(** The bulk call that batch makes: none when it queued nothing. *)
Definition dispatch_of (build : dict -> result (option action))
    (all_rows : list dict) (batch_size batch_start : nat) : list bulk_call :=
  match queued build all_rows batch_size batch_start with
  | [] => []
  | bulk_actions =>
      let batch_end :=
        Nat.min (batch_start + batch_size) (List.length all_rows) in
      [mkCall batch_start batch_end bulk_actions
         (Nat.eqb batch_end (List.length all_rows))]
  end.

(** The two historical-tracking fields of a queued document. *)
Definition historical_identity (index_timestamp : string) (a : action)
  : Prop :=
  doc_field (a_source a) "indexed_at" = Some (VStr index_timestamp) /\
  doc_field (a_source a) "document_id" = Some (VStr (a_id a)).

(** What [sanitize_document] returns: a new dict for a dict, the argument
    itself for anything else. *)
Definition sanitized (doc : value) : value :=
  match doc with
  | VDict fields =>
      VDict (sanitize_fields
               (DocumentUtils.coerce_field DocumentUtils.sanitize_document)
               fields [])
  | _ => doc
  end.

(** Values the [default=str] round trip gives back as they are. *)
Definition json_stable (str_of : value -> result string) (x : value) : Prop :=
  json_roundtrip_default_str str_of x = Ok x.

(** The sort order of [latest_status], as a relation. *)
Definition before (a b : LatestStatus) : Prop := order_leb a b = true.

(** A queued document carries the two tracking fields, and its id is the
    text of the natural id of one of the rows, an underscore and the clock
    reading. *)
Definition identity_from (str_of : value -> result string)
    (id_column : string) (all_rows : list dict) (index_timestamp : string)
    (a : action) : Prop :=
  historical_identity index_timestamp a /\
  exists row raw id_text,
    In row all_rows /\
    dict_get row id_column = Some raw /\
    py_str str_of (normalize_id raw) = Ok id_text /\
    a_id a = (id_text ++ "_" ++ index_timestamp)%string.

(** ** Sample collaborators and data

    Stand-ins for the collaborators, and small frames, on which the
    properties below are also run. *)

Definition sample_json_loads (s : string) : result value :=
  if String.eqb s "[1]" then Ok (VList [VInt 1]) else Raise JSONDecodeError.

Definition sample_str_of (v : value) : result string :=
  match v with
  | VNone => Ok "None"
  | VBool true => Ok "True"
  | VBool false => Ok "False"
  | VUuid canon => Ok canon
  | _ => Raise (OtherError "str")
  end.

Definition sample_truthy (v : value) : result bool :=
  match v with
  | VNone => Ok false
  | VBool b => Ok b
  | VInt n => Ok (negb (Z.eqb n 0))
  | VStr s => Ok (negb (String.eqb s ""))
  | VNA => Raise TypeError
  | _ => Ok true
  end.

(** An index store that creates every index and accepts every action. *)
Definition sample_create_index (st : unit) (index_name : string)
  : unit * result unit :=
  (st, Ok tt).

Definition accepting_bulk (st : unit) (actions : list action) (refresh : bool)
  : unit * result (nat * list value) :=
  (st, Ok (List.length actions, [])).

(** A bulk helper whose transport fails on every call. *)
Definition failing_bulk (st : unit) (actions : list action) (refresh : bool)
  : unit * result (nat * list value) :=
  (st, Raise TransportError).

(** Three tickets: A with two labels, B and C with none. *)
Definition sample_tickets : DataFrame :=
  mkFrame ["ticket_id"; "ticket_number"; "ticket_data"; "status_id"]
    [[("ticket_id", VStr "A"); ("ticket_number", VNpInt 1001);
      ("ticket_data", VStr "[1]"); ("status_id", VStr "S1")];
     [("ticket_id", VStr "B"); ("ticket_number", VNpInt 1002);
      ("ticket_data", VStr "free text"); ("status_id", VNone)];
     [("ticket_id", VUuid "0e37df36-f698-11e6-8dd4-cb9ced3df976");
      ("ticket_number", VNpInt 1003);
      ("ticket_data", VNone); ("status_id", VNone)]].

Definition sample_labels : DataFrame :=
  mkFrame ["ticketId"; "label_id"; "label_name"; "color"]
    [[("ticketId", VStr "A"); ("label_id", VStr "L1");
      ("label_name", VStr "Bug"); ("color", VStr "red")];
     [("ticketId", VStr "A"); ("label_id", VStr "L2");
      ("label_name", VStr "Urgent"); ("color", VStr "yellow")]].

Definition sample_ticket_input : pass_input :=
  mkInput (Some sample_tickets) (Some sample_labels) (Some 2%Z)
    "data_lake_" "2024-05-01T10:00:00".

Definition sample_data_sources : DataFrame :=
  mkFrame ["id"; "name"]
    [[("id", VStr "ds1"); ("name", VStr "Source 1")];
     [("id", VStr "ds2"); ("name", VStr "Source 2")]].

Definition sample_data_source_input : pass_input :=
  mkInput (Some sample_data_sources) None (Some 50%Z)
    "data_lake_" "2024-05-01T10:00:00".

(** The state a pass returned, or the empty state when it did not run its
    batches. *)
Definition pass_result (r : result (option (pass_state unit)))
  : pass_state unit :=
  match r with
  | Ok (Some s) => s
  | _ => mkPass tt 0 0 []
  end.

Definition sample_label_groups : label_groups :=
  Eval vm_compute in
    match pass_labels sample_ticket_input with
    | Ok g => g
    | Raise _ => []
    end.

(** The per-row step of the ticket pass on the sample input. *)
Definition sample_ticket_build : dict -> result (option action) :=
  ticket_action sample_json_loads sample_str_of
    "data_lake_denormalized_tickets" (columns sample_tickets)
    sample_label_groups "2024-05-01T10:00:00".

(** Ticket B of the sample frame, which no label row mentions, and the
    action the pass queues for it. *)
Definition sample_row_B : dict :=
  [("ticket_id", VStr "B"); ("ticket_number", VNpInt 1002);
   ("ticket_data", VStr "free text"); ("status_id", VNone)].

Definition sample_action_B : action :=
  Eval vm_compute in
    match sample_ticket_build sample_row_B with
    | Ok (Some a) => a
    | _ => mkAction "" "" "" VNone
    end.

(** A record with a missing marker, a NaN, boxed numbers, an identifier, a
    timestamp, binary data and nested containers. *)
Definition sample_record : value :=
  VDict
    [("id", VUuid "123e4567-e89b-12d3-a456-426614174000");
     ("deleted", VNaT);
     ("ratio", VNpFloat 9221120237041090560);
     ("count", VNpInt 3);
     ("flag", VNpBool true);
     ("created", VTimestamp "2024-05-01T10:00:00");
     ("blob", VBytes [Byte.x68; Byte.x69] "hi");
     ("data", VDict [("owner", VUuid "0e37df36-f698-11e6-8dd4-cb9ced3df976");
                     ("tags", VList [VStr "a"; VDict [("n", VNpInt 1)]])]);
     ("labels", VList [])].

(** A document whose field [dataMap] cannot be converted by either copy:
    an object array whose single element is a two-element list makes
    [pd.isna(single_val)] ambiguous in [src/document_utils.py]; the
    two-element list [tags] makes [pd.isna(v)] ambiguous in
    [src/utils.py]. *)
Definition ragged_fields : dict :=
  [("name", VStr "billing");
   ("dataMap", VArray NdArray DObject [VList [VInt 1; VInt 2]]);
   ("tags", VList [VStr "a"; VStr "b"]);
   ("dailyLimit", VNpInt 7)].

(** A status history: ticket 7 with three rows, ticket 9 with one; and the
    statuses they refer to. *)
Definition sample_statuses : list Status :=
  [mkStatus 1 "Open" false; mkStatus 2 "In progress" false;
   mkStatus 3 "Closed" true].

Definition history_T1 : TicketStatus := mkTicketStatus 7 1 100 None.
Definition history_T2 : TicketStatus := mkTicketStatus 7 2 200 None.
Definition history_T3 : TicketStatus := mkTicketStatus 7 3 300 None.
Definition history_other : TicketStatus := mkTicketStatus 9 1 400 None.

(** Five passes of which the first meets an unreachable index store. *)
Definition first_pass_fails (k : entity_kind) (w : unit)
  : unit * result unit :=
  match k with
  | DataSources => (w, Raise TransportError)
  | _ => (w, Ok tt)
  end.

Definition sample_ticket_pass : pass_state unit :=
  Eval vm_compute in
    pass_result
      (sync_denormalized_tickets sample_json_loads sample_str_of
         sample_create_index accepting_bulk sample_ticket_input tt).

Definition sample_data_source_pass : pass_state unit :=
  Eval vm_compute in
    pass_result
      (sync_data_sources sample_str_of sample_truthy sample_create_index
         accepting_bulk sample_data_source_input tt).



(** * Further models *)

(** ** Further vocabulary *)

(** A bulk helper that answers every request and accounts for each of its
    actions, as a success or as a failed item. *)
Definition answers_every_action {es_state : Type}
    (es_bulk :
       es_state -> list action -> bool -> es_state * result (nat * list value))
  : Prop :=
  forall st actions refresh,
  exists st' success failed_items,
    es_bulk st actions refresh = (st', Ok (success, failed_items)) /\
    success + List.length failed_items = List.length actions.

(** Values made of Python's own scalars, dicts and lists only: what
    [json.dumps] writes without help. *)
Fixpoint python_native (v : value) : bool :=
  match v with
  | VNone | VBool _ | VInt _ | VFloat _ | VStr _ => true
  | VDict fields => forallb (fun kv => python_native (snd kv)) fields
  | VList items => forallb python_native items
  | _ => false
  end.

Definition np_scalar (v : value) : bool :=
  match v with
  | VNpInt _ | VNpFloat _ | VNpBool _ => true
  | _ => false
  end.

Definition numeric_dtype (dt : dtype) : bool :=
  match dt with
  | DObject => false
  | _ => true
  end.

(** Field values the sanitizer knows how to convert: the scalars of
    Python, numpy and pandas, UUIDs, timestamps, binary data, numeric
    arrays, dicts of such values, and lists whose items are dicts of such
    values or already Python-native. *)
Fixpoint convertible (v : value) : bool :=
  match v with
  | VNone | VNaT | VNA | VBool _ | VInt _ | VFloat _ | VStr _
  | VNpInt _ | VNpFloat _ | VNpBool _
  | VUuid _ | VTimestamp _ | VBytes _ _ => true
  | VDict fields => forallb (fun kv => convertible (snd kv)) fields
  | VList items =>
      forallb
        (fun x =>
           match x with
           | VDict _ => convertible x
           | _ => python_native x
           end)
        items
  | VArray _ dt elems => numeric_dtype dt && forallb np_scalar elems
  | VObject _ => false
  end.

(** One element of a numeric array as the sanitizer stores it. *)
Definition to_python (x : value) : value :=
  if checknull x then VNone else unbox x.

Fixpoint distinct_strings (l : list string) : bool :=
  match l with
  | [] => true
  | s :: rest =>
      negb (existsb (String.eqb s) rest) && distinct_strings rest
  end.

(** What [json.loads] can return, without a NaN: [None], booleans,
    integers, floats, text, and dicts (with distinct keys) and lists of
    such values. *)
Fixpoint clean_json (v : value) : bool :=
  match v with
  | VNone | VBool _ | VInt _ | VStr _ => true
  | VFloat f => negb (float_is_nan f)
  | VDict fields =>
      distinct_strings (map fst fields)
      && forallb (fun kv => clean_json (snd kv)) fields
  | VList items => forallb clean_json items
  | _ => false
  end.

(** The label document that [process_ticket_labels] appends for one label
    row. *)
Definition label_document (row : dict) : result value :=
  raw_label <- row_getitem row "label_id" ;;
  name <- row_getitem row "label_name" ;;
  color <- row_getitem row "color" ;;
  present <- notna_truth color ;;
  Ok (VDict [("id", normalize_id raw_label); ("name", name);
             ("color", if present then color else VNone)]).

(** Whether a label row belongs to the ticket with this (text) id. *)
Definition label_row_of (ticket_id : value) (row : dict) : bool :=
  match dict_get row "ticketId" with
  | Some raw => value_eqb (normalize_id raw) ticket_id
  | None => false
  end.

(** The label rows a pass was given. *)
Definition label_rows_of (inp : pass_input) : list dict :=
  match df_labels inp with
  | Some df => rows df
  | None => []
  end.

(** Ticket A of the sample frame, which two label rows mention, and the
    action the pass queues for it. *)
Definition sample_row_A : dict :=
  [("ticket_id", VStr "A"); ("ticket_number", VNpInt 1001);
   ("ticket_data", VStr "[1]"); ("status_id", VStr "S1")].

Definition sample_action_A : action :=
  Eval vm_compute in
    match sample_ticket_build sample_row_A with
    | Ok (Some a) => a
    | _ => mkAction "" "" "" VNone
    end.

(** The fixed order of the passes of [sync_all_tables]. *)
Definition pass_order : list entity_kind :=
  [DataSources; Users; Modules; Statuses; Labels].

(** Sample collaborators of the older ticket pass: a refresh that raises
    and a store that answers [created]. *)
Definition raising_refresh (st : unit) : unit * result unit :=
  (st, Raise TransportError).

Definition creating_index (st : unit) (a : action) : unit * result string :=
  (st, Ok "created"%string).

(** * The entity preparation of [src/utils.py] and the ticket routes *)

(** [get_index_name]: the configured prefix followed by the index type. *)
Definition get_index_name (index_prefix index_type : string) : string :=
  (index_prefix ++ index_type)%string.

(** [needle in hay] for two texts. *)
Fixpoint substringb (needle hay : string) : bool :=
  if String.prefix needle hay then true
  else
    match hay with
    | EmptyString => false
    | String _ rest => substringb needle rest
    end.

(** [k in d] for a dict. *)
Definition has_key (d : dict) (k : string) : bool :=
  match dict_get d k with
  | Some _ => true
  | None => false
  end.

(** [k in x] for a text [k]: key membership for a dict, element membership
    for a list, substring for a text; a [TypeError] for what is not
    iterable. *)
Definition py_contains (x : value) (k : string) : result bool :=
  match x with
  | VDict d => Ok (has_key d k)
  | VList items => Ok (existsb (value_eqb (VStr k)) items)
  | VStr s => Ok (substringb k s)
  | _ => Raise TypeError
  end.

(** [[field for field in fields if field not in x]]. *)
Fixpoint fields_not_in (x : value) (fields : list string)
  : result (list string) :=
  match fields with
  | [] => Ok []
  | field :: rest =>
      present <- py_contains x field ;;
      others <- fields_not_in x rest ;;
      Ok (if present then others else field :: others)
  end.

(** The table [required_fields] of [prepare_entity_data]. *)
Definition required_fields : list (string * list string) :=
  [("ticket", ["ticket_number"]);
   ("datasource", ["name"]);
   ("status", ["name"]);
   ("module", ["name"]);
   ("label", ["name"]);
   ("user", ["email"])]%string.

(** [required_fields.get(entity_type, [])]. *)
Definition entity_required_fields (entity_type : string) : list string :=
  match find (fun entry => String.eqb (fst entry) entity_type) required_fields
  with
  | Some entry => snd entry
  | None => []
  end.

(** [if k not in d: d[k] = v]. *)
Definition set_if_absent (d : dict) (k : string) (v : value) : dict :=
  match dict_get d k with
  | Some _ => d
  | None => dict_set d k v
  end.

Section EntityPreparation.

Variable json_loads : string -> result value.

(** What [str(uuid.uuid4())] and [datetime.now().isoformat()] give during
    the call. *)
Variable new_uuid : string.
Variable current_time : string.

(** The last two statements of [prepare_entity_data]. *)
Definition sanitized_entity (d : dict)
  : value * result (option value * list string) :=
  (VDict d,
   sanitized_doc <- Utils.sanitize_document (VDict d) ;;
   Ok (Some sanitized_doc, [])).

(** Lines 98-125 on a dict: the defaults, the parsing of the data field,
    the sanitizing. *)
Definition complete_entity (d : dict) (entity_type : string)
  : value * result (option value * list string) :=
  let d := set_if_absent d (entity_type ++ "_id") (VStr new_uuid) in
  let d := set_if_absent d (entity_type ++ "_createdAt") (VStr current_time) in
  let d := set_if_absent d (entity_type ++ "_updatedAt") (VStr current_time) in
  let data_field := (entity_type ++ "_data")%string in
  match dict_get d data_field with
  | Some (VStr text) =>
      match json_loads text with
      | Ok parsed_data =>
          match Utils.sanitize_document parsed_data with
          | Ok x => sanitized_entity (dict_set d data_field x)
          | Raise e => (VDict d, Raise e)
          end
      | Raise JSONDecodeError => sanitized_entity d
      | Raise e => (VDict d, Raise e)
      end
  | _ => sanitized_entity d
  end.

(** The same lines on what is not a dict: the first default to be set
    raises a [TypeError] (no item assignment); with the three keys all
    found, [entity_data.get] raises an [AttributeError]. *)
Definition complete_non_dict (x : value) (entity_type : string)
  : result (option value * list string) :=
  has_id <- py_contains x (entity_type ++ "_id") ;;
  if negb has_id then Raise TypeError
  else
    has_created <- py_contains x (entity_type ++ "_createdAt") ;;
    if negb has_created then Raise TypeError
    else
      has_updated <- py_contains x (entity_type ++ "_updatedAt") ;;
      if negb has_updated then Raise TypeError
      else Raise (OtherError "AttributeError").

(** [prepare_entity_data] of [src/utils.py].  The function changes
    [entity_data] in place: the first component is [entity_data] as the
    caller sees it afterwards, the second what the call returns or
    raises. *)
Definition prepare_entity_data (entity_data : value) (entity_type : string)
  : value * result (option value * list string) :=
  match fields_not_in entity_data (entity_required_fields entity_type) with
  | Raise e => (entity_data, Raise e)
  | Ok (field :: others) => (entity_data, Ok (None, field :: others))
  | Ok [] =>
      match entity_data with
      | VDict d => complete_entity d entity_type
      | _ => (entity_data, complete_non_dict entity_data entity_type)
      end
  end.

End EntityPreparation.

(** What the sanitizer of [src/utils.py] stores for a field value. *)
Definition utils_field_value (v : value) : value :=
  field_or_none (Utils.coerce_field Utils.sanitize_document) v.

(** The three fields [prepare_entity_data] fills in when they are absent. *)
Definition default_fields (entity_type : string) : list string :=
  [(entity_type ++ "_id")%string; (entity_type ++ "_createdAt")%string;
   (entity_type ++ "_updatedAt")%string].

(** The data field is not text, or [json.loads] of it returns or raises
    [JSONDecodeError]. *)
Definition data_field_parses (json_loads : string -> result value)
    (d : dict) (entity_type : string) : Prop :=
  match dict_get d (entity_type ++ "_data") with
  | Some (VStr text) =>
      match json_loads text with
      | Ok _ => True
      | Raise e => e = JSONDecodeError
      end
  | _ => True
  end.

(** A response of a route: the status code and the body given to
    [jsonify] (the bodies are built from the parsed JSON of the request
    and from text, which [jsonify] accepts). *)
Record response : Type := mkResponse {
  status_code : nat;
  body : value
}.

(** The truth value of what [request.json] returns: [None], [False],
    zero, the empty text, the empty list and the empty dict are false. *)
Definition json_truth (v : value) : bool :=
  match v with
  | VNone => false
  | VBool b => b
  | VInt n => negb (Z.eqb n 0)
  | VFloat f => negb (Z.eqb (Z.land f (Z.ones 63)) 0)
  | VStr s => negb (String.eqb s "")
  | VList items => negb (Nat.eqb (List.length items) 0)
  | VDict d => negb (Nat.eqb (List.length d) 0)
  | _ => true
  end.

Definition is_list (v : value) : bool :=
  match v with
  | VList _ => true
  | _ => false
  end.

(** The elements of a list value. *)
Definition list_items (v : value) : list value :=
  match v with
  | VList items => items
  | _ => []
  end.

Definition is_dict (v : value) : bool :=
  match v with
  | VDict _ => true
  | _ => false
  end.

(** [x[k]] for a text key. *)
Definition py_getitem (x : value) (k : string) : result value :=
  match x with
  | VDict d => row_getitem d k
  | _ => Raise TypeError
  end.

(** [str(l)] of a list of plain field names. *)
Definition str_of_names (l : list string) : string :=
  ("[" ++ String.concat ", " (map (fun s => "'" ++ s ++ "'") l) ++ "]")%string.

Section TicketRoutes.

Variable json_loads : string -> result value.

(** The UUID and the time drawn while the entry at a position of the
    batch is prepared. *)
Variable uuid4 : nat -> string.
Variable now_isoformat : nat -> string.

Variable str_of_exn : exn -> string.
Variable index_prefix : string.

Variable es_state : Type.
(** [es_client.index(index, id, body, refresh=True)]. *)
Variable es_index :
  es_state -> string -> value -> value -> es_state * result value.
(** [es_client.indices.refresh(index)]. *)
Variable es_refresh : es_state -> string -> es_state * result unit.

(** The two [except] clauses that end each route. *)
Definition error_response (e : exn) : response :=
  match e with
  | JSONDecodeError =>
      mkResponse 400 (VDict [("error", VStr "Invalid JSON in request body")])
  | _ => mkResponse 500 (VDict [("error", VStr (str_of_exn e))])
  end.

(** The error entry of the batch results;
    [ticket_data.get("ticket_id", "unknown")] needs a dict. *)
Definition error_entry (ticket_data : value) (message : string)
  : result value :=
  match ticket_data with
  | VDict d =>
      Ok (VDict [("ticket_id", match dict_get d "ticket_id" with
                               | Some v => v
                               | None => VStr "unknown"
                               end);
                 ("status", VStr "error");
                 ("error", VStr message)])
  | _ => Raise (OtherError "AttributeError")
  end.

(** The body of the loop of [add_tickets_batch] with its [try]: [Ok] with
    whether the ticket was stored and the entry appended to [results];
    [Raise] when the [except] clause itself raises. *)
Definition batch_entry (position : nat) (st : es_state) (ticket_data : value)
  : es_state * result (bool * value) :=
  let (entity_data, prepared) :=
    prepare_entity_data json_loads (uuid4 position) (now_isoformat position)
      ticket_data "ticket" in
  let failed_with (st' : es_state) (message : string) :=
    (st', entry <- error_entry entity_data message ;; Ok (false, entry)) in
  match prepared with
  | Ok (_, field :: others) =>
      failed_with st
        ("Missing required fields: " ++ str_of_names (field :: others))%string
  | Ok (Some sanitized_doc, []) =>
      match py_getitem sanitized_doc "ticket_id" with
      | Ok ticket_id =>
          let (st', answer) :=
            es_index st (get_index_name index_prefix "denormalized_tickets")
              ticket_id sanitized_doc in
          match answer with
          | Ok _ =>
              (st', Ok (true, VDict [("ticket_id", ticket_id);
                                     ("status", VStr "success")]))
          | Raise e => failed_with st' (str_of_exn e)
          end
      | Raise e => failed_with st (str_of_exn e)
      end
  | Ok (None, []) => failed_with st (str_of_exn TypeError)
  | Raise e => failed_with st (str_of_exn e)
  end.

(** [for ticket_data in batch_data]. *)
Fixpoint batch_loop (items : list value) (position : nat) (st : es_state)
    (successful failed : nat) (results : list value)
  : es_state * result (nat * nat * list value) :=
  match items with
  | [] => (st, Ok (successful, failed, results))
  | ticket_data :: rest =>
      let (st', outcome) := batch_entry position st ticket_data in
      match outcome with
      | Ok (true, entry) =>
          batch_loop rest (S position) st' (S successful) failed
            (results ++ [entry])
      | Ok (false, entry) =>
          batch_loop rest (S position) st' successful (S failed)
            (results ++ [entry])
      | Raise e => (st', Raise e)
      end
  end.

(** [add_tickets_batch] of [src/routes/ticket_routes.py], from the parsed
    body of the request. *)
Definition add_tickets_batch (batch_data : value) (st : es_state)
  : es_state * response :=
  if negb (json_truth batch_data) || negb (is_list batch_data) then
    (st, mkResponse 400
           (VDict [("error",
                    VStr "Invalid batch format - must be a list of ticket objects")]))
  else if Nat.eqb (List.length (list_items batch_data)) 0 then
    (st, mkResponse 200
           (VDict [("status", VStr "success"); ("count", VInt 0)]))
  else
    let (st1, outcome) := batch_loop (list_items batch_data) 0 st 0 0 [] in
    match outcome with
    | Ok (successful, failed, results) =>
        let (st2, refreshed) :=
          es_refresh st1
            (get_index_name index_prefix "denormalized_tickets") in
        match refreshed with
        | Ok _ =>
            (st2,
             mkResponse (if Nat.eqb failed 0 then 200 else 207)
               (VDict [("status", VStr "completed");
                       ("successful", VInt (Z.of_nat successful));
                       ("failed", VInt (Z.of_nat failed));
                       ("results", VList results)]))
        | Raise e => (st2, error_response e)
        end
    | Raise e => (st1, error_response e)
    end.

(** [add_ticket] of [src/routes/ticket_routes.py], from the parsed body of
    the request. *)
Definition add_ticket (ticket_data : value) (st : es_state)
  : es_state * response :=
  if negb (json_truth ticket_data) then
    (st, mkResponse 400 (VDict [("error", VStr "No data provided")]))
  else
    let (entity_data, prepared) :=
      prepare_entity_data json_loads (uuid4 0) (now_isoformat 0)
        ticket_data "ticket" in
    match prepared with
    | Ok (_, field :: others) =>
        (st, mkResponse 400
               (VDict [("error",
                        VStr ("Missing required fields: "
                              ++ str_of_names (field :: others)))]))
    | Ok (Some sanitized_doc, []) =>
        match py_getitem sanitized_doc "ticket_id" with
        | Ok ticket_id =>
            let (st', answer) :=
              es_index st (get_index_name index_prefix "denormalized_tickets")
                ticket_id sanitized_doc in
            match answer with
            | Ok result =>
                (st', mkResponse 201
                        (VDict [("status", VStr "success");
                                ("ticket_id", ticket_id);
                                ("result", result)]))
            | Raise e => (st', error_response e)
            end
        | Raise e => (st, error_response e)
        end
    | Ok (None, []) => (st, error_response TypeError)
    | Raise e => (st, error_response e)
    end.

End TicketRoutes.

Arguments batch_entry json_loads uuid4 now_isoformat str_of_exn index_prefix
  {es_state} es_index position st ticket_data.
Arguments batch_loop json_loads uuid4 now_isoformat str_of_exn index_prefix
  {es_state} es_index items position st successful failed results.
Arguments add_tickets_batch json_loads uuid4 now_isoformat str_of_exn
  index_prefix {es_state} es_index es_refresh batch_data st.
Arguments add_ticket json_loads uuid4 now_isoformat str_of_exn index_prefix
  {es_state} es_index ticket_data st.

(** Sample collaborators of the routes: a store that answers [created], a
    refresh that returns, and the text of an exception. *)
Definition sample_uuid4 (position : nat) : string :=
  match position with
  | 0 => "11111111-1111-4111-8111-111111111111"
  | _ => "22222222-2222-4222-8222-222222222222"
  end.

Definition sample_now (position : nat) : string := "2024-05-01T10:00:00".

Definition sample_str_of_exn (e : exn) : string :=
  match e with
  | ValueError => "ValueError"
  | TypeError => "TypeError"
  | KeyError k => k
  | JSONDecodeError => "JSONDecodeError"
  | TransportError => "TransportError"
  | OtherError msg => msg
  end.

Definition sample_es_index (st : unit) (index_name : string)
    (document_id body : value) : unit * result value :=
  (st, Ok (VDict [("result", VStr "created")])).

Definition sample_es_refresh (st : unit) (index_name : string)
  : unit * result unit :=
  (st, Ok tt).

(** A payload with its number and without an id, and one without its
    number. *)
Definition sample_payload : dict :=
  [("ticket_number", VInt 1001); ("ticket_data", VStr "[1]")].

Definition sample_payload_without_number : dict :=
  [("ticket_id", VStr "T-7"); ("title", VStr "No number")].

(** The answers of the two routes on the sample payloads. *)
Definition sample_add_ticket_response : response :=
  Eval vm_compute in
    snd (add_ticket sample_json_loads sample_uuid4 sample_now
           sample_str_of_exn "data_lake_" sample_es_index
           (VDict sample_payload) tt).

Definition sample_batch : list value :=
  [VDict sample_payload; VDict sample_payload_without_number].

(** * The other passes of [src/data_sync.py] *)

Section EntityPasses.

Variable str_of : value -> result string.
Variable truthy : value -> result bool.

Variable es_state : Type.
Variable es_create_index : es_state -> string -> es_state * result unit.
Variable es_bulk :
  es_state -> list action -> bool -> es_state * result (nat * list value).

(** [df[df['id'] == x]]: the rows of a frame that pandas selects by
    comparing the [id] column with [x]. *)
Variable select_by_id : list dict -> value -> result (list dict).

(** The end of every document builder: the two tracking fields, the
    sanitizer, the serialisation check. *)
Definition finish_document (index_name index_timestamp id_text : string)
    (doc : dict) : result (option action) :=
  let doc := dict_set doc "indexed_at" (VStr index_timestamp) in
  let document_id := (id_text ++ "_" ++ index_timestamp)%string in
  let doc := dict_set doc "document_id" (VStr document_id) in
  sanitized_doc <- DocumentUtils.sanitize_document (VDict doc) ;;
  Ok (make_action str_of index_name document_id sanitized_doc).

(** The user document, lines 252-275. *)
Definition user_action (index_name index_timestamp : string) (row : dict)
  : result (option action) :=
  raw_id <- row_getitem row "id" ;;
  let user_id := normalize_id raw_id in
  id_text <- py_str str_of user_id ;;
  let doc := dict_set [] "user_id" (VStr id_text) in
  let doc := dict_set doc "user_name" (row_get row "name") in
  let doc := dict_set doc "user_username" (row_get row "username") in
  let doc := dict_set doc "user_email" (row_get row "email") in
  let doc := dict_set doc "user_preferences" (row_get row "preferences") in
  let doc := dict_set doc "user_createdAt" (row_get row "createdAt") in
  let doc := dict_set doc "user_updatedAt" (row_get row "updatedAt") in
  finish_document index_name index_timestamp id_text doc.

(** The status document, lines 659-683. *)
Definition status_action (index_name index_timestamp : string) (row : dict)
  : result (option action) :=
  raw_id <- row_getitem row "id" ;;
  let status_id := normalize_id raw_id in
  id_text <- py_str str_of status_id ;;
  let doc := dict_set [] "status_id" (VStr id_text) in
  let doc := dict_set doc "status_name" (row_get row "name") in
  let doc :=
    dict_set doc "status_isFinalStatus" (row_get row "isFinalStatus") in
  let doc := dict_set doc "status_description" (row_get row "description") in
  module_id <- str_if_truthy str_of truthy row "moduleId" ;;
  let doc := dict_set doc "status_moduleId" module_id in
  let doc := dict_set doc "status_isVisible" (row_get row "isVisible") in
  let doc := dict_set doc "status_createdAt" (row_get row "createdAt") in
  let doc := dict_set doc "status_updatedAt" (row_get row "updatedAt") in
  finish_document index_name index_timestamp id_text doc.

(** The label document, lines 820-846. *)
Definition label_action (index_name index_timestamp : string) (row : dict)
  : result (option action) :=
  raw_id <- row_getitem row "id" ;;
  let label_id := normalize_id raw_id in
  id_text <- py_str str_of label_id ;;
  let doc := dict_set [] "label_id" (VStr id_text) in
  let doc := dict_set doc "label_name" (row_get row "name") in
  let doc := dict_set doc "label_description" (row_get row "description") in
  module_id <- str_if_truthy str_of truthy row "moduleId" ;;
  let doc := dict_set doc "label_moduleId" module_id in
  let doc := dict_set doc "label_color" (row_get row "color") in
  let doc := dict_set doc "label_icon" (row_get row "icon") in
  let doc := dict_set doc "label_type" (row_get row "type") in
  let doc := dict_set doc "label_isVisible" (row_get row "isVisible") in
  let doc := dict_set doc "label_createdAt" (row_get row "createdAt") in
  let doc := dict_set doc "label_updatedAt" (row_get row "updatedAt") in
  finish_document index_name index_timestamp id_text doc.

(** One iteration of the three grouping loops of [sync_modules], lines
    436-461: a row with a truthy [moduleId] is appended, as a dict, to the
    list kept under that [moduleId] as the row holds it. *)
Definition add_related_row (g : label_groups) (row : dict)
  : result label_groups :=
  let module_id := row_get row "moduleId" in
  t <- truthy module_id ;;
  if t then
    if negb (hashable module_id) then Raise TypeError
    else Ok (group_append g module_id (VDict row))
  else Ok g.

Fixpoint add_related_rows (g : label_groups) (related : list dict)
  : result label_groups :=
  match related with
  | [] => Ok g
  | row :: rest =>
      g' <- add_related_row g row ;;
      add_related_rows g' rest
  end.

Definition related_by_module (df : option DataFrame) : result label_groups :=
  match df with
  | Some df => add_related_rows [] (rows df)
  | None => Ok []
  end.

(** Lines 509-514: the parent fields, added when the row has a truthy
    [parentId] that selects a module. *)
Definition add_parent_module (modules : list dict) (row : dict) (doc : dict)
  : result dict :=
  let parent_id := row_get row "parentId" in
  t <- truthy parent_id ;;
  if t then
    parent_module <- select_by_id modules parent_id ;;
    match parent_module with
    | [] => Ok doc
    | parent :: _ =>
        parent_text <- py_str str_of parent_id ;;
        let doc := dict_set doc "parent_module_id" (VStr parent_text) in
        parent_name <- row_getitem parent "name" ;;
        Ok (dict_set doc "parent_module_name" parent_name)
    end
  else Ok doc.

(** The module document, lines 487-524. *)
Definition module_action (modules : list dict)
    (statuses_by_module labels_by_module data_sources_by_module : label_groups)
    (index_name index_timestamp : string) (row : dict)
  : result (option action) :=
  raw_id <- row_getitem row "id" ;;
  let module_id := normalize_id raw_id in
  id_text <- py_str str_of module_id ;;
  let doc := dict_set [] "module_id" (VStr id_text) in
  let doc := dict_set doc "module_name" (row_get row "name") in
  let doc := dict_set doc "module_description" (row_get row "description") in
  let doc := dict_set doc "module_type" (row_get row "type") in
  let doc := dict_set doc "module_icon" (row_get row "icon") in
  let doc := dict_set doc "module_logo" (row_get row "logo") in
  let doc := dict_set doc "module_createdAt" (row_get row "createdAt") in
  let doc := dict_set doc "module_updatedAt" (row_get row "updatedAt") in
  statuses <- labels_of statuses_by_module module_id ;;
  let doc := dict_set doc "statuses" statuses in
  labels <- labels_of labels_by_module module_id ;;
  let doc := dict_set doc "labels" labels in
  data_sources <- labels_of data_sources_by_module module_id ;;
  let doc := dict_set doc "data_sources" data_sources in
  doc <- add_parent_module modules row doc ;;
  finish_document index_name index_timestamp id_text doc.

(** The frame of a pass, the loop and its counters: what [sync_users],
    [sync_statuses] and [sync_labels] share word for word. *)
Definition entity_pass (suffix : string)
    (build : string -> string -> dict -> result (option action))
    (inp : pass_input) (st : es_state)
  : result (option (pass_state es_state)) :=
  let index_name := (index_prefix inp ++ suffix)%string in
  let (st, created) := es_create_index st index_name in
  _ <- created ;;
  match df_main inp with
  | None => Ok None
  | Some df =>
      match rows df with
      | [] => Ok None
      | _ =>
          let index_timestamp := utcnow_isoformat inp in
          s <- run_batches es_bulk (build index_name index_timestamp)
                 (rows df) (configured_batch_size inp) st ;;
          Ok (Some s)
      end
  end.

(** [DataLakeSync.sync_users], [sync_statuses] and [sync_labels]. *)
Definition sync_users : pass_input -> es_state
                        -> result (option (pass_state es_state)) :=
  entity_pass "users" user_action.

Definition sync_statuses : pass_input -> es_state
                           -> result (option (pass_state es_state)) :=
  entity_pass "statuses" status_action.

Definition sync_labels : pass_input -> es_state
                         -> result (option (pass_state es_state)) :=
  entity_pass "labels" label_action.

(** [DataLakeSync.sync_modules]: [df_main] holds the modules and
    [df_labels] the labels; the statuses and the data sources come
    beside. *)
Definition sync_modules (inp : pass_input)
    (df_statuses df_data_sources : option DataFrame) (st : es_state)
  : result (option (pass_state es_state)) :=
  let index_name := (index_prefix inp ++ "modules")%string in
  let (st, created) := es_create_index st index_name in
  _ <- created ;;
  match df_main inp with
  | None => Ok None
  | Some df_modules =>
      match rows df_modules with
      | [] => Ok None
      | _ =>
          statuses_by_module <- related_by_module df_statuses ;;
          labels_by_module <- related_by_module (df_labels inp) ;;
          data_sources_by_module <- related_by_module df_data_sources ;;
          let index_timestamp := utcnow_isoformat inp in
          s <- run_batches es_bulk
                 (module_action (rows df_modules) statuses_by_module
                    labels_by_module data_sources_by_module index_name
                    index_timestamp)
                 (rows df_modules) (configured_batch_size inp) st ;;
          Ok (Some s)
      end
  end.

End EntityPasses.

Arguments entity_pass {es_state} es_create_index es_bulk suffix build inp st.
Arguments sync_users str_of {es_state} es_create_index es_bulk inp st.
Arguments sync_statuses str_of truthy {es_state} es_create_index es_bulk inp st.
Arguments sync_labels str_of truthy {es_state} es_create_index es_bulk inp st.
Arguments sync_modules str_of truthy {es_state} es_create_index es_bulk
  select_by_id inp df_statuses df_data_sources st.

(** Whether a related row goes into the group of this key. *)
Definition related_row_of (truthy : value -> result bool) (key : value)
    (row : dict) : bool :=
  match truthy (row_get row "moduleId") with
  | Ok true => value_eqb (row_get row "moduleId") key
  | _ => false
  end.

(** Sample frames of the other passes; the ids are UUID objects, as the
    database driver returns them. *)
Definition sample_users : DataFrame :=
  mkFrame ["id"; "name"; "email"]
    [[("id", VUuid "0e37df36-f698-11e6-8dd4-cb9ced3df976");
      ("name", VStr "Ada"); ("email", VStr "ada@example.org")]].

Definition sample_modules : DataFrame :=
  mkFrame ["id"; "name"; "parentId"]
    [[("id", VUuid "aaaaaaaa-0000-4000-8000-000000000001");
      ("name", VStr "Support"); ("parentId", VNone)]].

Definition sample_module_statuses : DataFrame :=
  mkFrame ["id"; "name"; "moduleId"]
    [[("id", VUuid "bbbbbbbb-0000-4000-8000-000000000001");
      ("name", VStr "Open");
      ("moduleId", VUuid "aaaaaaaa-0000-4000-8000-000000000001")];
     [("id", VUuid "bbbbbbbb-0000-4000-8000-000000000002");
      ("name", VStr "Closed");
      ("moduleId", VUuid "aaaaaaaa-0000-4000-8000-000000000001")]].

Definition sample_select_by_id (frame : list dict) (x : value)
  : result (list dict) :=
  Ok (filter (fun row => value_eqb (row_get row "id") x) frame).

Definition sample_users_input : pass_input :=
  mkInput (Some sample_users) None (Some 50%Z)
    "data_lake_" "2024-05-01T10:00:00".

Definition sample_statuses_input : pass_input :=
  mkInput (Some sample_module_statuses) None (Some 50%Z)
    "data_lake_" "2024-05-01T10:00:00".

Definition sample_modules_input : pass_input :=
  mkInput (Some sample_modules) None (Some 50%Z)
    "data_lake_" "2024-05-01T10:00:00".

Definition sample_users_pass : pass_state unit :=
  Eval vm_compute in
    pass_result
      (sync_users sample_str_of sample_create_index accepting_bulk
         sample_users_input tt).

Definition sample_statuses_pass : pass_state unit :=
  Eval vm_compute in
    pass_result
      (sync_statuses sample_str_of sample_truthy sample_create_index
         accepting_bulk sample_statuses_input tt).

Definition sample_labels_pass : pass_state unit :=
  Eval vm_compute in
    pass_result
      (sync_labels sample_str_of sample_truthy sample_create_index
         accepting_bulk sample_statuses_input tt).

Definition sample_modules_pass : pass_state unit :=
  Eval vm_compute in
    pass_result
      (sync_modules sample_str_of sample_truthy sample_create_index
         accepting_bulk sample_select_by_id sample_modules_input
         (Some sample_module_statuses) None tt).

(** The rows of a frame that may be missing. *)
Definition frame_rows (df : option DataFrame) : list dict :=
  match df with
  | Some df => rows df
  | None => []
  end.

(** Whether a cell holds a UUID object. *)
Definition is_uuid (v : value) : bool :=
  match v with
  | VUuid _ => true
  | _ => false
  end.

Definition sample_module_row : dict :=
  [("id", VUuid "aaaaaaaa-0000-4000-8000-000000000001");
   ("name", VStr "Support"); ("parentId", VNone)].

(** The same with text ids, as a driver that does not build UUID objects
    returns them: module [m1] with two of the three statuses and the one
    label. *)
Definition sample_text_module_row : dict :=
  [("id", VStr "m1"); ("name", VStr "Support"); ("parentId", VNone)].

Definition sample_text_statuses : DataFrame :=
  mkFrame ["id"; "name"; "moduleId"]
    [[("id", VStr "s1"); ("name", VStr "Open"); ("moduleId", VStr "m1")];
     [("id", VStr "s2"); ("name", VStr "Parked"); ("moduleId", VStr "m2")];
     [("id", VStr "s3"); ("name", VStr "Closed"); ("moduleId", VStr "m1")]].

Definition sample_text_labels : DataFrame :=
  mkFrame ["id"; "name"; "moduleId"]
    [[("id", VStr "l1"); ("name", VStr "Bug"); ("moduleId", VStr "m1")];
     [("id", VStr "l2"); ("name", VStr "Loose"); ("moduleId", VNone)]].

Definition sample_module_groups : label_groups :=
  Eval vm_compute in
    match related_by_module sample_truthy (Some sample_module_statuses) with
    | Ok g => g
    | Raise _ => []
    end.

Definition sample_text_status_groups : label_groups :=
  Eval vm_compute in
    match related_by_module sample_truthy (Some sample_text_statuses) with
    | Ok g => g
    | Raise _ => []
    end.

Definition sample_text_label_groups : label_groups :=
  Eval vm_compute in
    match related_by_module sample_truthy (Some sample_text_labels) with
    | Ok g => g
    | Raise _ => []
    end.

Definition sample_text_module_action : action :=
  Eval vm_compute in
    match module_action sample_str_of sample_truthy sample_select_by_id
            [sample_text_module_row] sample_text_status_groups
            sample_text_label_groups [] "data_lake_modules"
            "2024-05-01T10:00:00" sample_text_module_row
    with
    | Ok (Some a) => a
    | _ => mkAction "" "" "" VNone
    end.

Definition sample_module_action : action :=
  Eval vm_compute in
    match module_action sample_str_of sample_truthy sample_select_by_id
            (rows sample_modules) sample_module_groups [] []
            "data_lake_modules" "2024-05-01T10:00:00" sample_module_row
    with
    | Ok (Some a) => a
    | _ => mkAction "" "" "" VNone
    end.

(** * The sync route of the tickets and the user route *)

(** A store that records each [index] call (index name, id, body) and
    answers with a given function. *)
Definition index_call : Type := (string * value * value)%type.

Definition recording_index (answer : string -> value -> value -> result value)
    (calls : list index_call) (index_name : string) (document_id body : value)
  : list index_call * result value :=
  (calls ++ [(index_name, document_id, body)],
   answer index_name document_id body).

(** The label entry built by [process_ticket_data], lines 63-67. *)
Definition route_label (label_row : dict) : result value :=
  raw_label <- row_getitem label_row "label_id" ;;
  name <- row_getitem label_row "label_name" ;;
  color <- row_getitem label_row "color" ;;
  Ok (VDict [("id", normalize_id raw_label); ("name", name);
             ("color", color)]).

(** [df.empty]: no rows or no columns. *)
Definition frame_empty (df : DataFrame) : bool :=
  match rows df, columns df with
  | [], _ | _, [] => true
  | _, _ => false
  end.

Section SyncRoutes.

Variable json_loads : string -> result value.
Variable str_of : value -> result string.
Variable str_of_exn : exn -> string.
Variable index_prefix : string.

(** [db_connector.get_tickets_and_labels(ticket_id)]. *)
Variable get_tickets_and_labels :
  value -> result (option DataFrame * option DataFrame).

Variable es_state : Type.
Variable es_index :
  es_state -> string -> value -> value -> es_state * result value.

(** [process_ticket_data] of [src/routes/ticket_routes.py]; a missing
    label frame has no [empty] attribute. *)
Definition process_ticket_data (df_tickets : DataFrame)
    (df_labels : option DataFrame) : result value :=
  match rows df_tickets with
  | [] => Raise (OtherError "IndexError")
  | row :: _ =>
      doc <- copy_columns (columns df_tickets) row [] ;;
      doc <- parse_ticket_data json_loads doc ;;
      labels <- match df_labels with
                | None => Raise (OtherError "AttributeError")
                | Some df =>
                    if frame_empty df then Ok []
                    else map_result route_label (rows df)
                end ;;
      DocumentUtils.sanitize_document
        (VDict (dict_set doc "labels" (VList labels)))
  end.

(** [result and (result.get('result') == 'created' or
    result.get('result') == 'updated')]. *)
Definition stored (es_result : value) : result bool :=
  if negb (json_truth es_result) then Ok false
  else
    match es_result with
    | VDict d =>
        Ok (value_eqb (row_get d "result") (VStr "created")
            || value_eqb (row_get d "result") (VStr "updated"))
    | _ => Raise (OtherError "AttributeError")
    end.

(** The body of the [try] of [sync_db_ticket]. *)
Definition sync_db_ticket_body (data : value) (st : es_state)
  : es_state * result response :=
  let required :=
    mkResponse 400 (VDict [("error", VStr "ticket_id is required")]) in
  if negb (json_truth data) then (st, Ok required)
  else
    match py_contains data "ticket_id" with
    | Raise e => (st, Raise e)
    | Ok false => (st, Ok required)
    | Ok true =>
        match (ticket_id <- py_getitem data "ticket_id" ;;
               ticket_text <- py_str str_of ticket_id ;;
               frames <- get_tickets_and_labels ticket_id ;;
               Ok (ticket_id, ticket_text, frames)) with
        | Raise e => (st, Raise e)
        | Ok (ticket_id, ticket_text, (None, _)) =>
            (st,
             Ok (mkResponse 404
                   (VDict [("error",
                            VStr ("Ticket " ++ ticket_text
                                  ++ " not found or database error occurred"))])))
        | Ok (ticket_id, ticket_text, (Some df_tickets, df_labels)) =>
            match process_ticket_data df_tickets df_labels with
            | Raise e => (st, Raise e)
            | Ok processed_doc =>
                let (st', answer) :=
                  es_index st
                    (get_index_name index_prefix "denormalized_tickets")
                    ticket_id processed_doc in
                match answer with
                | Raise e => (st', Raise e)
                | Ok result =>
                    match stored result with
                    | Raise e => (st', Raise e)
                    | Ok true =>
                        (st',
                         Ok (mkResponse 200
                               (VDict [("status", VStr "success");
                                       ("ticket_id", ticket_id);
                                       ("message",
                                        VStr "Ticket successfully synced to data lake")])))
                    | Ok false =>
                        (st',
                         Ok (mkResponse 200
                               (VDict [("status", VStr "warning");
                                       ("ticket_id", ticket_id);
                                       ("message",
                                        VStr "Ticket sync completed with warnings");
                                       ("result", result)])))
                    end
                end
            end
        end
    end.

(** [sync_db_ticket] of [src/routes/ticket_routes.py]: one [except]
    clause, which answers 500. *)
Definition sync_db_ticket (data : value) (st : es_state)
  : es_state * response :=
  let (st', outcome) := sync_db_ticket_body data st in
  match outcome with
  | Ok answer => (st', answer)
  | Raise e =>
      (st', mkResponse 500 (VDict [("error", VStr (str_of_exn e))]))
  end.

(** [add_user] of [src/routes/user_routes.py]; the index name is
    [f"{get_index_name()}users"]. *)
Definition add_user (user_data : value) (st : es_state)
  : es_state * response :=
  if negb (json_truth user_data) then
    (st, mkResponse 400 (VDict [("error", VStr "No data provided")]))
  else
    match (sanitized_doc <- DocumentUtils.sanitize_document user_data ;;
           user_id <- py_getitem sanitized_doc "id" ;;
           Ok (sanitized_doc, user_id)) with
    | Raise e => (st, error_response str_of_exn e)
    | Ok (sanitized_doc, user_id) =>
        let (st', answer) :=
          es_index st
            (get_index_name index_prefix "denormalized_tickets" ++ "users")
            user_id sanitized_doc in
        match answer with
        | Raise e => (st', error_response str_of_exn e)
        | Ok result =>
            (st', mkResponse 201
                    (VDict [("status", VStr "success");
                            ("user_id", user_id);
                            ("result", result)]))
        end
    end.

End SyncRoutes.

Arguments sync_db_ticket json_loads str_of str_of_exn index_prefix
  get_tickets_and_labels {es_state} es_index data st.
Arguments sync_db_ticket_body json_loads str_of index_prefix
  get_tickets_and_labels {es_state} es_index data st.
Arguments add_user str_of_exn index_prefix {es_state} es_index user_data st.

(** Sample collaborators of the sync route: the database holds ticket A
    with its two labels. *)
Definition sample_get_tickets_and_labels (ticket_id : value)
  : result (option DataFrame * option DataFrame) :=
  if value_eqb ticket_id (VStr "A") then
    Ok (Some (mkFrame (columns sample_tickets) [sample_row_A]),
        Some sample_labels)
  else Ok (None, None).

Definition sample_answer (index_name : string) (document_id body : value)
  : result value :=
  Ok (VDict [("result", VStr "created")]).

Definition sample_sync_request : value := VDict [("ticket_id", VStr "A")].

Definition sample_sync_outcome : list index_call * response :=
  Eval vm_compute in
    sync_db_ticket sample_json_loads sample_str_of sample_str_of_exn
      "data_lake_" sample_get_tickets_and_labels
      (recording_index sample_answer) sample_sync_request [].

Definition sample_user_payload : value :=
  VDict [("id", VStr "u1"); ("name", VStr "Ada")].

Definition sample_add_user_outcome : list index_call * response :=
  Eval vm_compute in
    add_user sample_str_of_exn "data_lake_" (recording_index sample_answer)
      sample_user_payload [].

(** * The index mappings of [src/utils.py] *)

Definition typed (es_type : string) : value := VDict [("type", VStr es_type)].

(** The table [entity_mappings] of [create_index_mapping]. *)
Definition entity_mappings : list (string * dict) :=
  [("ticket",
    [("ticket_id", typed "keyword");
     ("ticket_number", typed "long");
     ("ticket_scheduleDate", typed "date");
     ("ticket_scheduleDateEnd", typed "date");
     ("ticket_data", typed "object");
     ("ticket_createdAt", typed "date");
     ("ticket_updatedAt", typed "date");
     ("status_id", typed "keyword");
     ("status_name", typed "keyword");
     ("status_isFinalStatus", typed "boolean");
     ("labels",
      VDict [("type", VStr "nested");
             ("properties",
              VDict [("id", typed "keyword");
                     ("name", typed "keyword");
                     ("color", typed "keyword")])]);
     ("module_id", typed "keyword");
     ("module_name", typed "keyword");
     ("datasource_id", typed "keyword");
     ("datasource_name", typed "keyword");
     ("user_id", typed "keyword");
     ("user_name", typed "keyword");
     ("user_email", typed "keyword")]);
   ("datasource",
    [("datasource_id", typed "keyword");
     ("name", typed "keyword");
     ("description", typed "text");
     ("datasource_data", typed "object");
     ("datasource_createdAt", typed "date");
     ("datasource_updatedAt", typed "date")]);
   ("status",
    [("status_id", typed "keyword");
     ("name", typed "keyword");
     ("description", typed "text");
     ("isFinalStatus", typed "boolean");
     ("status_data", typed "object");
     ("status_createdAt", typed "date");
     ("status_updatedAt", typed "date")]);
   ("module",
    [("module_id", typed "keyword");
     ("name", typed "keyword");
     ("description", typed "text");
     ("module_data", typed "object");
     ("module_createdAt", typed "date");
     ("module_updatedAt", typed "date")]);
   ("label",
    [("label_id", typed "keyword");
     ("name", typed "keyword");
     ("color", typed "keyword");
     ("description", typed "text");
     ("label_data", typed "object");
     ("label_createdAt", typed "date");
     ("label_updatedAt", typed "date")]);
   ("user",
    [("user_id", typed "keyword");
     ("name", typed "keyword");
     ("email", typed "keyword");
     ("user_data", typed "object");
     ("user_createdAt", typed "date");
     ("user_updatedAt", typed "date")])]%string.

(** [create_index_mapping] of [src/utils.py]; [refresh_interval] is the
    configured value. *)
Definition create_index_mapping (refresh_interval : value)
    (entity_type : string) : value :=
  let entity_mapping :=
    match find (fun entry => String.eqb (fst entry) entity_type)
            entity_mappings with
    | Some entry => snd entry
    | None => []
    end in
  VDict [("settings", VDict [("refresh_interval", refresh_interval)]);
         ("mappings", VDict [("properties", VDict entity_mapping)])].

(** The type a mapping declares for a field. *)
Definition mapped_type (mapping : value) (field : string) : option string :=
  match doc_field mapping "mappings" with
  | Some mappings =>
      match doc_field mappings "properties" with
      | Some properties =>
          match doc_field properties field with
          | Some declared =>
              match doc_field declared "type" with
              | Some (VStr es_type) => Some es_type
              | _ => None
              end
          | None => None
          end
      | None => None
      end
  | None => None
  end.

(** * Properties *)

(** ** Dict facts *)

Lemma dict_get_set (d : dict) (k k' : string) (v : value) :
  dict_get (dict_set d k v) k' =
  if String.eqb k k' then Some v else dict_get d k'.
Proof.
  induction d as [|[k0 v0] d IH]; simpl.
  - reflexivity.
  - destruct (String.eqb k0 k) eqn:E0; simpl.
    + apply String.eqb_eq in E0. subst k0.
      destruct (String.eqb k k'); reflexivity.
    + rewrite IH. destruct (String.eqb k0 k') eqn:E1; [|reflexivity].
      apply String.eqb_eq in E1. subst k0.
      rewrite String.eqb_sym, E0. reflexivity.
Qed.

Lemma dict_get_set_same (d : dict) (k : string) (v : value) :
  dict_get (dict_set d k v) k = Some v.
Proof. rewrite dict_get_set, String.eqb_refl. reflexivity. Qed.

Lemma dict_get_set_other (d : dict) (k k' : string) (v : value) :
  k <> k' -> dict_get (dict_set d k v) k' = dict_get d k'.
Proof.
  intros Hne. rewrite dict_get_set.
  destruct (String.eqb k k') eqn:E; [|reflexivity].
  apply String.eqb_eq in E. contradiction.
Qed.

Lemma dict_get_In (d : dict) (k : string) (v : value) :
  dict_get d k = Some v -> In (k, v) d.
Proof.
  induction d as [|[k0 v0] d IH]; simpl; [discriminate|].
  destruct (String.eqb k0 k) eqn:E.
  - apply String.eqb_eq in E. intros [= ->]. left. congruence.
  - intros H. right. auto.
Qed.

Lemma dict_get_notin (d : dict) (k : string) :
  ~ In k (keys d) -> dict_get d k = None.
Proof.
  induction d as [|[k0 v0] d IH]; simpl; [reflexivity|].
  intros Hn. destruct (String.eqb k0 k) eqn:E.
  - apply String.eqb_eq in E. tauto.
  - apply IH. tauto.
Qed.

Lemma In_dict_get (d : dict) (k : string) (v : value) :
  NoDup (keys d) -> In (k, v) d -> dict_get d k = Some v.
Proof.
  induction d as [|[k0 v0] d IH]; simpl; [tauto|].
  intros Hnd [Heq|Hin].
  - injection Heq as -> ->. rewrite String.eqb_refl. reflexivity.
  - inversion Hnd as [|? ? Hnotin Hnd']; subst.
    destruct (String.eqb k0 k) eqn:E.
    + apply String.eqb_eq in E. subst k0. exfalso. apply Hnotin.
      change k with (fst (k, v)). apply in_map. exact Hin.
    + auto.
Qed.

Lemma keys_dict_set (d : dict) (k : string) (v : value) :
  keys (dict_set d k v) = if in_dec String.string_dec k (keys d)
                          then keys d else keys d ++ [k].
Proof.
  unfold keys.
  induction d as [|[k0 v0] d IH]; simpl; [reflexivity|].
  destruct (String.eqb k0 k) eqn:E; simpl.
  - apply String.eqb_eq in E. subst k0.
    destruct (String.string_dec k k); [reflexivity|contradiction].
  - apply String.eqb_neq in E.
    destruct (String.string_dec k0 k); [contradiction|].
    rewrite IH.
    destruct (in_dec String.string_dec k (map fst d)); reflexivity.
Qed.

Lemma dict_set_fresh (d : dict) (k : string) (v : value) :
  ~ In k (keys d) -> dict_set d k v = d ++ [(k, v)].
Proof.
  induction d as [|[k0 v0] d IH]; simpl; [reflexivity|].
  intros Hn. destruct (String.eqb k0 k) eqn:E.
  - apply String.eqb_eq in E. tauto.
  - rewrite IH by tauto. reflexivity.
Qed.

Lemma NoDup_keys_dict_set (d : dict) (k : string) (v : value) :
  NoDup (keys d) -> NoDup (keys (dict_set d k v)).
Proof.
  intros Hnd. rewrite keys_dict_set.
  destruct (in_dec String.string_dec k (keys d)) as [|Hn]; [exact Hnd|].
  apply NoDup_rev in Hnd. rewrite <- (rev_involutive (keys d ++ [k])).
  apply NoDup_rev. rewrite rev_app_distr. simpl. constructor; [|exact Hnd].
  rewrite <- in_rev. exact Hn.
Qed.

Lemma In_dict_set (d : dict) (k k' : string) (v x : value) :
  In (k', x) (dict_set d k v) -> (k' = k /\ x = v) \/ In (k', x) d.
Proof.
  induction d as [|[k0 v0] d IH]; simpl.
  - intros [[= <- <-]|[]]. left. split; reflexivity.
  - destruct (String.eqb k0 k) eqn:E; simpl.
    + apply String.eqb_eq in E. subst k0.
      intros [[= <- <-]|Hin]; [left; split; reflexivity | right; right; exact Hin].
    + intros [Heq|Hin]; [right; left; exact Heq|].
      destruct (IH Hin) as [Hl|Hr]; [left; exact Hl | right; right; exact Hr].
Qed.

(** ** The field loop of the sanitizer *)

Section FieldLoop.

Variable coerce : value -> result value.

Lemma sanitize_fields_keys_NoDup (fields acc : dict) :
  NoDup (keys acc) -> NoDup (keys (sanitize_fields coerce fields acc)).
Proof.
  revert acc. induction fields as [|[k v] fields IH]; simpl; intros acc Hnd.
  - exact Hnd.
  - apply IH. apply NoDup_keys_dict_set. exact Hnd.
Qed.

Lemma sanitize_fields_get_notin (fields acc : dict) (k : string) :
  ~ In k (keys fields) ->
  dict_get (sanitize_fields coerce fields acc) k = dict_get acc k.
Proof.
  revert acc. induction fields as [|[k0 v0] fields IH]; simpl; intros acc Hn.
  - reflexivity.
  - rewrite IH by tauto. apply dict_get_set_other. tauto.
Qed.

(** With distinct keys, each key ends up holding the outcome of its own
    field and of no other. *)
Lemma sanitize_fields_get (fields acc : dict) (k : string) (v : value) :
  NoDup (keys fields) -> In (k, v) fields ->
  dict_get (sanitize_fields coerce fields acc) k
  = Some (field_or_none coerce v).
Proof.
  revert acc. induction fields as [|[k0 v0] fields IH]; simpl; intros acc Hnd Hin.
  - contradiction.
  - inversion Hnd as [|? ? Hnotin Hnd']; subst.
    destruct Hin as [[= -> ->]|Hin].
    + rewrite sanitize_fields_get_notin by exact Hnotin.
      apply dict_get_set_same.
    + apply IH; assumption.
Qed.

Lemma sanitize_fields_In (fields acc : dict) (k : string) (x : value) :
  In (k, x) (sanitize_fields coerce fields acc) ->
  In (k, x) acc \/ exists v, In (k, v) fields /\ x = field_or_none coerce v.
Proof.
  revert acc. induction fields as [|[k0 v0] fields IH]; simpl; intros acc Hin.
  - left. exact Hin.
  - destruct (IH _ Hin) as [Hacc|(v & Hv & Hx)].
    + destruct (In_dict_set _ _ _ _ _ Hacc) as [[-> ->]|Hold].
      * right. exists v0. split; [left; reflexivity | reflexivity].
      * left. exact Hold.
    + right. exists v. split; [right; exact Hv | exact Hx].
Qed.

Lemma sanitize_fields_fresh (fields acc : dict) :
  NoDup (keys acc ++ keys fields) ->
  sanitize_fields coerce fields acc
  = acc ++ map (fun kv => (fst kv, field_or_none coerce (snd kv))) fields.
Proof.
  revert acc. induction fields as [|[k v] fields IH]; simpl; intros acc Hnd.
  - rewrite app_nil_r. reflexivity.
  - assert (Hk : ~ In k (keys acc)).
    { intros Hin. apply NoDup_remove_2 in Hnd. apply Hnd.
      apply in_or_app. left. exact Hin. }
    rewrite dict_set_fresh by exact Hk.
    rewrite IH.
    + rewrite <- app_assoc. reflexivity.
    + unfold keys in *. rewrite map_app. simpl. rewrite <- app_assoc. exact Hnd.
Qed.

End FieldLoop.

Lemma sanitize_fields_ext (c1 c2 : value -> result value) (fields acc : dict) :
  Forall (fun kv => field_or_none c1 (snd kv) = field_or_none c2 (snd kv))
    fields ->
  sanitize_fields c1 fields acc = sanitize_fields c2 fields acc.
Proof.
  intros H. revert acc. induction H as [|[k v] fields Hv _ IH]; simpl; intros acc.
  - reflexivity.
  - simpl in Hv. rewrite Hv. apply IH.
Qed.

(** ** The sanitizer of [src/document_utils.py] *)

(** The bit test of [float_is_nan] is only evaluated on concrete floats. *)
Opaque float_is_nan.

Lemma map_result_total {A B : Type} (f : A -> result B) (g : A -> B)
    (l : list A) :
  (forall x, In x l -> f x = Ok (g x)) -> map_result f l = Ok (map g l).
Proof.
  induction l as [|x l IH]; simpl; intros H.
  - reflexivity.
  - rewrite (H x (or_introl eq_refl)). simpl.
    rewrite IH by (intros y Hy; apply H; right; exact Hy). reflexivity.
Qed.

Lemma sanitize_document_returns (doc : value) :
  DocumentUtils.sanitize_document doc = Ok (sanitized doc).
Proof. destruct doc; reflexivity. Qed.

Lemma coerce_dict_field (fields : dict) :
  field_or_none (DocumentUtils.coerce_field DocumentUtils.sanitize_document)
    (VDict fields)
  = sanitized (VDict fields).
Proof. reflexivity. Qed.

Lemma coerce_list_field (items : list value) :
  field_or_none (DocumentUtils.coerce_field DocumentUtils.sanitize_document)
    (VList items)
  = VList (map sanitized items).
Proof.
  unfold field_or_none, DocumentUtils.coerce_field. simpl.
  rewrite (map_result_total _ sanitized)
    by (intros; apply sanitize_document_returns).
  reflexivity.
Qed.

Lemma map_fixed {A : Type} (f : A -> A) (l : list A) :
  (forall x, In x l -> f x = x) -> map f l = l.
Proof.
  intros H. rewrite <- (map_id l) at 2. apply map_ext_in. exact H.
Qed.

(** A field value free of arrays is a fixed point after one conversion. *)
Lemma field_conversion_idempotent (v : value) :
  no_arrays v = true ->
  field_or_none (DocumentUtils.coerce_field DocumentUtils.sanitize_document)
    (field_or_none
       (DocumentUtils.coerce_field DocumentUtils.sanitize_document) v)
  = field_or_none
      (DocumentUtils.coerce_field DocumentUtils.sanitize_document) v.
Proof.
  induction v using value_nested_ind; intros Hfree;
    try reflexivity; try discriminate.
  - (* Python float *)
    unfold field_or_none, DocumentUtils.coerce_field. simpl.
    destruct (float_is_nan f) eqn:E; simpl; [reflexivity|].
    rewrite E. reflexivity.
  - (* numpy float *)
    unfold field_or_none, DocumentUtils.coerce_field. simpl.
    destruct (float_is_nan f) eqn:E; simpl; [reflexivity|].
    rewrite E. reflexivity.
  - (* dict *)
    rewrite coerce_dict_field. simpl sanitized. rewrite coerce_dict_field.
    simpl sanitized. f_equal.
    set (c := DocumentUtils.coerce_field DocumentUtils.sanitize_document).
    rewrite (sanitize_fields_fresh c (sanitize_fields c fields []) [])
      by (simpl; apply sanitize_fields_keys_NoDup; constructor).
    simpl. apply map_fixed. intros [k x] Hin. simpl. f_equal.
    apply sanitize_fields_In in Hin. destruct Hin as [[]|(v & Hv & ->)].
    rewrite Forall_forall in H. apply (H (k, v) Hv).
    simpl in Hfree. rewrite forallb_forall in Hfree. apply (Hfree (k, v) Hv).
  - (* list *)
    rewrite coerce_list_field, coerce_list_field. f_equal.
    rewrite map_map. apply map_ext_in. intros x Hx.
    rewrite Forall_forall in H. specialize (H x Hx).
    simpl in Hfree. rewrite forallb_forall in Hfree. specialize (Hfree x Hx).
    destruct x; try reflexivity.
    exact (H Hfree).
Qed.

Lemma sanitized_idempotent (x : value) :
  no_arrays x = true -> sanitized (sanitized x) = sanitized x.
Proof.
  intros Hfree. destruct x; try reflexivity.
  exact (field_conversion_idempotent (VDict fields) Hfree).
Qed.

(** C4. The Value Sanitizer is idempotent on every value built from
    missing-value markers, Python and numpy scalars, UUIDs, timestamps,
    binary data and nested dicts and lists: [sanitize_document] returns
    some [y] for [x], and returns [y] again for [y]. *)
Theorem sanitize_document_idempotent (x : value) :
  no_arrays x = true ->
  exists y,
    DocumentUtils.sanitize_document x = Ok y /\
    DocumentUtils.sanitize_document y = Ok y.
Proof.
  intros Hfree. exists (sanitized x). split.
  - apply sanitize_document_returns.
  - rewrite sanitize_document_returns. f_equal.
    apply sanitized_idempotent. exact Hfree.
Qed.

(** The sample record is a fixed point after one pass. *)
Lemma sanitize_document_idempotent_sample :
  exists y,
    DocumentUtils.sanitize_document sample_record = Ok y /\
    DocumentUtils.sanitize_document y = Ok y.
Proof.
  apply sanitize_document_idempotent. reflexivity.
Defined.

(** ** Totality and per-field isolation, for both copies *)

Ltac distinct_keys :=
  repeat (constructor; [simpl; intuition discriminate|]); constructor.




(** ** The two copies compared *)

(** C10 fails on [src/utils.py]: on a dict whose field holds a two-element
    list, [src/document_utils.py] returns the list and [src/utils.py]
    returns [None] for the field.  The copy of [src/utils.py] tests
    [pd.isna(v)] without the [is_scalar] guard of its sibling; the test
    has no truth value on such a list, the [except] takes over, and the
    list branch further down is not reached. *)
Theorem sanitizers_differ_on_list_field :
  DocumentUtils.sanitize_document (VDict [("labels", VList [VInt 1; VInt 2])])
  = Ok (VDict [("labels", VList [VInt 1; VInt 2])]) /\
  Utils.sanitize_document (VDict [("labels", VList [VInt 1; VInt 2])])
  = Ok (VDict [("labels", VNone)]) /\
  DocumentUtils.sanitize_document (VDict [("labels", VList [VInt 1; VInt 2])])
  <> Utils.sanitize_document (VDict [("labels", VList [VInt 1; VInt 2])]).
Proof.
  split; [reflexivity|]. split; [reflexivity|]. discriminate.
Qed.

Lemma coerce_agree_off_containers (v : value) :
  match v with
  | VList _ | VArray _ _ _ | VDict _ => False
  | VObject _ => is_frame v = false
  | _ => True
  end ->
  forall rec1 rec2,
    DocumentUtils.coerce_field rec1 v = Utils.coerce_field rec2 v.
Proof.
  destruct v; intros Hv rec1 rec2; try contradiction; try reflexivity.
  unfold Utils.coerce_field, isna_truth. rewrite Hv. reflexivity.
Qed.

(** Off those fields the guard makes no difference: the two copies return
    the same result for every input none of whose dict fields, at any
    depth of nested dicts, holds a list, a numpy array, a pandas Series or
    a DataFrame. *)
Lemma sanitizers_agree_on_scalar_fields (doc : value) :
  scalar_fields doc = true ->
  DocumentUtils.sanitize_document doc = Utils.sanitize_document doc.
Proof.
  induction doc using value_nested_ind; intros Hdom; try reflexivity.
  simpl. do 2 f_equal. apply sanitize_fields_ext.
  simpl in Hdom. rewrite forallb_forall in Hdom.
  rewrite Forall_forall in H |- *. intros [k v] Hin. simpl.
  specialize (H (k, v) Hin). specialize (Hdom (k, v) Hin). simpl in H, Hdom.
  destruct v as [ | | | | | | | | | | | | | sub | | | name ];
    try discriminate;
    try (unfold field_or_none;
         match goal with
         | |- context [DocumentUtils.coerce_field _ ?x] =>
             rewrite (coerce_agree_off_containers x I
                        DocumentUtils.sanitize_document
                        Utils.sanitize_document)
         end;
         reflexivity).
  2:{ unfold field_or_none.
      rewrite (coerce_agree_off_containers (VObject name)
                 (proj1 (negb_true_iff _) Hdom)
                 DocumentUtils.sanitize_document Utils.sanitize_document).
      reflexivity. }
  unfold field_or_none, DocumentUtils.coerce_field, Utils.coerce_field.
  cbn [is_none is_scalar checknull isna_truth orb andb bind].
  rewrite (H Hdom). reflexivity.
Qed.

(** The two copies agree on a user document without lists. *)
Lemma sanitizers_agree_sample :
  DocumentUtils.sanitize_document
    (VDict [("id", VUuid "0e37df36-f698-11e6-8dd4-cb9ced3df976");
            ("n", VNpInt 4);
            ("prefs", VDict [("seen", VNaT); ("theme", VStr "dark")])])
  = Utils.sanitize_document
      (VDict [("id", VUuid "0e37df36-f698-11e6-8dd4-cb9ced3df976");
              ("n", VNpInt 4);
              ("prefs", VDict [("seen", VNaT); ("theme", VStr "dark")])]).
Proof.
  apply sanitizers_agree_on_scalar_fields. reflexivity.
Defined.

(** ** Text that encodes JSON *)

(** C1, as stated, fails: the text [[1]] encodes the JSON array holding 1,
    yet [sanitize_document] returns the text itself, at top level and under
    a dict key, not the array. *)
Lemma sanitize_document_keeps_json_text_opaque :
  DocumentUtils.sanitize_document (VStr "[1]") = Ok (VStr "[1]") /\
  DocumentUtils.sanitize_document (VStr "[1]")
  <> DocumentUtils.sanitize_document (VList [VInt 1]) /\
  DocumentUtils.sanitize_document (VDict [("data", VStr "[1]")])
  = Ok (VDict [("data", VStr "[1]")]) /\
  DocumentUtils.sanitize_document (VDict [("data", VStr "[1]")])
  <> DocumentUtils.sanitize_document (VDict [("data", VList [VInt 1])]).
Proof.
  split; [reflexivity|]. split; [discriminate|].
  split; [reflexivity|]. discriminate.
Qed.

(** C1, amended. [sanitize_document] returns every text value unchanged,
    at top level and as a dict field, whether or not it encodes JSON; a
    stringified JSON column becomes a structured sub-document where the
    caller parses it first: [sync_denormalized_tickets] replaces a textual
    [ticket_data] that [json.loads] accepts by the sanitized parsed
    value. *)
Theorem sanitize_document_keeps_text
    (json_loads : string -> result value) (s : string) :
  DocumentUtils.sanitize_document (VStr s) = Ok (VStr s) /\
  (forall fields k,
      NoDup (keys fields) -> In (k, VStr s) fields ->
      exists out,
        DocumentUtils.sanitize_document (VDict fields) = Ok (VDict out) /\
        dict_get out k = Some (VStr s)) /\
  (forall doc parsed_data,
      dict_get doc "ticket_data" = Some (VStr s) ->
      json_loads s = Ok parsed_data ->
      exists x,
        DocumentUtils.sanitize_document parsed_data = Ok x /\
        parse_ticket_data json_loads doc = Ok (dict_set doc "ticket_data" x)).
Proof.
  split; [reflexivity|]. split.
  - intros fields k Hnd Hin. eexists. split; [reflexivity|].
    rewrite (sanitize_fields_get _ fields [] k (VStr s) Hnd Hin). reflexivity.
  - intros doc parsed_data Hget Hparse. exists (sanitized parsed_data).
    split; [apply sanitize_document_returns|].
    unfold parse_ticket_data. rewrite Hget, Hparse.
    rewrite sanitize_document_returns. reflexivity.
Qed.

(** A ticket row whose [ticket_data] is the text of a JSON array. *)
Lemma sanitize_document_keeps_text_sample :
  (exists out,
      DocumentUtils.sanitize_document
        (VDict [("ticket_id", VStr "A"); ("ticket_data", VStr "[1]")])
      = Ok (VDict out) /\
      dict_get out "ticket_data" = Some (VStr "[1]")) /\
  (exists x,
      DocumentUtils.sanitize_document (VList [VInt 1]) = Ok x /\
      parse_ticket_data (fun _ => Ok (VList [VInt 1]))
        [("ticket_id", VStr "A"); ("ticket_data", VStr "[1]")]
      = Ok (dict_set [("ticket_id", VStr "A"); ("ticket_data", VStr "[1]")]
              "ticket_data" x)).
Proof.
  destruct (sanitize_document_keeps_text (fun _ => Ok (VList [VInt 1])) "[1]")
    as (_ & Hfield & Hcaller).
  split.
  - apply Hfield; [distinct_keys | simpl; tauto].
  - apply Hcaller; reflexivity.
Defined.

(** ** The documents a pass queues *)

Lemma bind_Ok_inv {A B : Type} (m : result A) (f : A -> result B) (b : B) :
  bind m f = Ok b -> exists a, m = Ok a /\ f a = Ok b.
Proof.
  destruct m as [a|e]; simpl; [|discriminate].
  intros H. exists a. split; [reflexivity | exact H].
Qed.

Lemma Ok_inj {A : Type} (a b : A) : Ok a = Ok b -> a = b.
Proof. intros [= ->]. reflexivity. Qed.

(** Peels the first call off a sequence of fallible calls that returned,
    without unfolding anything else. *)
Ltac bind_ok H x E :=
  cbv beta zeta in H;
  apply bind_Ok_inv in H;
  destruct H as (x & E & H);
  cbv beta zeta in H.

Lemma row_getitem_Ok (row : dict) (col : string) (v : value) :
  row_getitem row col = Ok v -> dict_get row col = Some v.
Proof.
  unfold row_getitem. destruct (dict_get row col); [|discriminate].
  intros [= ->]. reflexivity.
Qed.

Lemma map_result_fields_get (f : value -> result value) (d d' : dict)
    (k : string) (x : value) :
  map_result (fun kv => y <- f (snd kv) ;; Ok (fst kv, y)) d = Ok d' ->
  dict_get d k = Some x ->
  exists y, f x = Ok y /\ dict_get d' k = Some y.
Proof.
  revert d'. induction d as [|[k0 v0] d IH]; simpl; intros d' Hmap Hget.
  - discriminate.
  - destruct (f v0) as [y0|] eqn:Ef; simpl in Hmap; [|discriminate].
    destruct (map_result (fun kv => y <- f (snd kv) ;; Ok (fst kv, y)) d)
      as [ys|] eqn:E; simpl in Hmap; [|discriminate].
    injection Hmap as <-. simpl.
    destruct (String.eqb k0 k).
    + injection Hget as <-. exists y0. split; [exact Ef | reflexivity].
    + apply IH; [reflexivity | exact Hget].
Qed.

Section ActionFacts.

Variable json_loads : string -> result value.
Variable str_of : value -> result string.
Variable truthy : value -> result bool.

Lemma json_stable_text (s : string) : json_stable str_of (VStr s).
Proof. reflexivity. Qed.

Lemma json_stable_empty_list : json_stable str_of (VList []).
Proof. reflexivity. Qed.

Lemma make_action_spec (index_name document_id : string) (doc : value)
    (a : action) :
  make_action str_of index_name document_id doc = Some a ->
  a_index a = index_name /\ a_id a = document_id /\
  (a_source a = doc \/ json_roundtrip_default_str str_of doc = Ok (a_source a)).
Proof.
  unfold make_action. destruct (json_encodable doc).
  - intros [= <-]. simpl. auto.
  - destruct (json_roundtrip_default_str str_of doc) eqn:E; [|discriminate].
    intros [= <-]. simpl. auto.
Qed.

(** A stable field of the sanitized document is found in the queued
    source, on the direct path and on the [default=str] path alike. *)
Lemma make_action_field (index_name document_id : string) (d : dict)
    (a : action) (k : string) (x : value) :
  make_action str_of index_name document_id (VDict d) = Some a ->
  dict_get d k = Some x -> json_stable str_of x ->
  doc_field (a_source a) k = Some x.
Proof.
  intros Hmake Hget Hstable.
  destruct (make_action_spec _ _ _ _ Hmake) as (_ & _ & [Hsrc|Hsrc]).
  - rewrite Hsrc. exact Hget.
  - simpl in Hsrc. bind_ok Hsrc fs E. apply Ok_inj in Hsrc.
    rewrite <- Hsrc. simpl.
    destruct (map_result_fields_get _ _ _ _ _ E Hget) as (y & Hy & Hget').
    unfold json_stable in Hstable. rewrite Hstable in Hy.
    injection Hy as <-. exact Hget'.
Qed.

(** A field the sanitizer leaves alone is found in the sanitized
    document. *)
Lemma sanitized_field (d : dict) (k : string) (x : value) :
  NoDup (keys d) -> dict_get d k = Some x ->
  field_or_none (DocumentUtils.coerce_field DocumentUtils.sanitize_document) x
  = x ->
  exists out, sanitized (VDict d) = VDict out /\ dict_get out k = Some x.
Proof.
  intros Hnd Hget Hkeep. eexists. split; [reflexivity|].
  rewrite (sanitize_fields_get _ d [] k x Hnd (dict_get_In _ _ _ Hget)).
  rewrite Hkeep. reflexivity.
Qed.

Lemma copy_columns_NoDup (cols : list string) (row doc out : dict) :
  NoDup (keys doc) -> copy_columns cols row doc = Ok out -> NoDup (keys out).
Proof.
  revert doc. induction cols as [|col cols IH]; simpl; intros doc Hnd Hcopy.
  - injection Hcopy as <-. exact Hnd.
  - bind_ok Hcopy val Eval. bind_ok Hcopy x Ex.
    apply (IH _ (NoDup_keys_dict_set _ _ _ Hnd) Hcopy).
Qed.

Lemma parse_ticket_data_NoDup (doc out : dict) :
  NoDup (keys doc) -> parse_ticket_data json_loads doc = Ok out ->
  NoDup (keys out).
Proof.
  unfold parse_ticket_data. intros Hnd.
  destruct (dict_get doc "ticket_data") as [[]|];
    try (intros [= <-]; exact Hnd).
  destruct (json_loads s) as [parsed|[]]; try discriminate.
  - rewrite sanitize_document_returns. simpl. intros [= <-].
    apply NoDup_keys_dict_set. exact Hnd.
  - intros [= <-]. exact Hnd.
Qed.

(** What a queued ticket document carries. *)
Lemma ticket_action_spec (index_name : string) (cols : list string)
    (labels_by_ticket : label_groups) (index_timestamp : string)
    (row : dict) (a : action) :
  ticket_action json_loads str_of index_name cols labels_by_ticket
    index_timestamp row = Ok (Some a) ->
  exists raw id_text,
    dict_get row "ticket_id" = Some raw /\
    py_str str_of (normalize_id raw) = Ok id_text /\
    a_id a = (id_text ++ "_" ++ index_timestamp)%string /\
    a_index a = index_name /\
    doc_field (a_source a) "indexed_at" = Some (VStr index_timestamp) /\
    doc_field (a_source a) "document_id" = Some (VStr (a_id a)) /\
    (group_get labels_by_ticket (normalize_id raw) = None ->
     doc_field (a_source a) "labels" = Some (VList [])).
Proof.
  unfold ticket_action. intros H.
  bind_ok H raw Hraw. bind_ok H doc0 Hcopy. bind_ok H doc1 Hparse.
  bind_ok H labels Hlabels. bind_ok H id_text Hid.
  bind_ok H sanitized_doc Hsan.
  rewrite sanitize_document_returns in Hsan.
  apply Ok_inj in Hsan. apply Ok_inj in H. rename H into Hmake.
  subst sanitized_doc.
  pose (document_id := (id_text ++ "_" ++ index_timestamp)%string).
  pose (doc :=
          dict_set
            (dict_set (dict_set doc1 "labels" labels) "indexed_at"
               (VStr index_timestamp))
            "document_id" (VStr document_id)).
  change (make_action str_of index_name document_id (sanitized (VDict doc))
          = Some a) in Hmake.
  assert (Hnd : NoDup (keys doc)).
  { unfold doc. repeat apply NoDup_keys_dict_set.
    apply (parse_ticket_data_NoDup doc0); [|exact Hparse].
    apply (copy_columns_NoDup cols row []); [constructor | exact Hcopy]. }
  destruct (make_action_spec _ _ _ _ Hmake) as (Hidx & Haid & _).
  exists raw, id_text.
  split; [apply row_getitem_Ok; exact Hraw|].
  split; [exact Hid|]. split; [exact Haid|]. split; [exact Hidx|].
  assert (Hfield : forall k x,
             dict_get doc k = Some x -> json_stable str_of x ->
             field_or_none
               (DocumentUtils.coerce_field DocumentUtils.sanitize_document) x
             = x ->
             doc_field (a_source a) k = Some x).
  { intros k x Hget Hstable Hkeep.
    destruct (sanitized_field doc k x Hnd Hget Hkeep) as (out & Hout & Hget').
    rewrite Hout in Hmake.
    apply (make_action_field _ _ _ _ _ _ Hmake Hget' Hstable). }
  split; [|split].
  - apply Hfield; [|apply json_stable_text|reflexivity].
    unfold doc. rewrite dict_get_set_other by discriminate.
    apply dict_get_set_same.
  - rewrite Haid. apply Hfield; [|apply json_stable_text|reflexivity].
    unfold doc. apply dict_get_set_same.
  - intros Hnone. unfold labels_of in Hlabels.
    destruct (negb (hashable (normalize_id raw))); [discriminate|].
    rewrite Hnone in Hlabels. injection Hlabels as <-.
    apply Hfield; [|apply json_stable_empty_list|reflexivity].
    unfold doc. rewrite !dict_get_set_other by discriminate.
    apply dict_get_set_same.
Qed.

(** The two historical-tracking fields, written last, reach the queued
    source whatever the document held before. *)
Lemma queued_identity_fields (index_name document_id index_timestamp : string)
    (d0 : dict) (a : action) :
  NoDup (keys d0) ->
  make_action str_of index_name document_id
    (sanitized
       (VDict (dict_set (dict_set d0 "indexed_at" (VStr index_timestamp))
                 "document_id" (VStr document_id))))
  = Some a ->
  a_id a = document_id /\ a_index a = index_name /\
  doc_field (a_source a) "indexed_at" = Some (VStr index_timestamp) /\
  doc_field (a_source a) "document_id" = Some (VStr (a_id a)).
Proof.
  intros Hnd Hmake.
  set (doc := dict_set (dict_set d0 "indexed_at" (VStr index_timestamp))
                "document_id" (VStr document_id)) in *.
  assert (Hnd' : NoDup (keys doc))
    by (unfold doc; repeat apply NoDup_keys_dict_set; exact Hnd).
  destruct (make_action_spec _ _ _ _ Hmake) as (Hidx & Haid & _).
  split; [exact Haid|]. split; [exact Hidx|].
  assert (Hfield : forall k s,
             dict_get doc k = Some (VStr s) ->
             doc_field (a_source a) k = Some (VStr s)).
  { intros k s Hget.
    destruct (sanitized_field doc k (VStr s) Hnd' Hget eq_refl)
      as (out & Hout & Hget').
    rewrite Hout in Hmake.
    apply (make_action_field _ _ _ _ _ _ Hmake Hget' (json_stable_text s)). }
  split.
  - apply Hfield. unfold doc. rewrite dict_get_set_other by discriminate.
    apply dict_get_set_same.
  - rewrite Haid. apply Hfield. unfold doc. apply dict_get_set_same.
Qed.

(** What a queued data-source document carries. *)
Lemma data_source_action_spec (index_name index_timestamp : string)
    (row : dict) (a : action) :
  data_source_action str_of truthy index_name index_timestamp row
  = Ok (Some a) ->
  exists raw id_text,
    dict_get row "id" = Some raw /\
    py_str str_of (normalize_id raw) = Ok id_text /\
    a_id a = (id_text ++ "_" ++ index_timestamp)%string /\
    a_index a = index_name /\
    doc_field (a_source a) "indexed_at" = Some (VStr index_timestamp) /\
    doc_field (a_source a) "document_id" = Some (VStr (a_id a)).
Proof.
  unfold data_source_action. intros H.
  bind_ok H raw Hraw. bind_ok H id_text Hid.
  bind_ok H module_id Hmodule. bind_ok H status_id Hstatus.
  bind_ok H void_status_id Hvoid.
  bind_ok H sanitized_doc Hsan.
  rewrite sanitize_document_returns in Hsan.
  apply Ok_inj in Hsan. apply Ok_inj in H. rename H into Hmake.
  subst sanitized_doc.
  apply queued_identity_fields in Hmake;
    [|repeat apply NoDup_keys_dict_set; constructor].
  destruct Hmake as (Haid & Hidx & Hts & Hdoc).
  exists raw, id_text.
  split; [apply row_getitem_Ok; exact Hraw|].
  split; [exact Hid|]. split; [exact Haid|]. split; [exact Hidx|].
  split; [exact Hts | exact Hdoc].
Qed.

End ActionFacts.

(** ** The label grouping *)

Lemma value_eqb_true (a b : value) : value_eqb a b = true -> a = b.
Proof.
  unfold value_eqb. destruct (value_eq_dec a b); [auto | discriminate].
Qed.

Lemma group_get_append_other (g : label_groups) (k k' x : value) :
  k' <> k -> group_get (group_append g k' x) k = group_get g k.
Proof.
  intros Hne. induction g as [|[k0 ls] g IH]; simpl.
  - destruct (value_eqb k' k) eqn:E; [|reflexivity].
    apply value_eqb_true in E. contradiction.
  - destruct (value_eqb k0 k') eqn:E0; simpl.
    + apply value_eqb_true in E0. subst k0.
      destruct (value_eqb k' k) eqn:E; [|reflexivity].
      apply value_eqb_true in E. contradiction.
    + rewrite IH. reflexivity.
Qed.

Lemma add_label_rows_no_match (label_rows : list dict) (g g' : label_groups)
    (k : value) :
  add_label_rows g label_rows = Ok g' ->
  group_get g k = None ->
  Forall
    (fun label_row =>
       forall raw,
         dict_get label_row "ticketId" = Some raw -> normalize_id raw <> k)
    label_rows ->
  group_get g' k = None.
Proof.
  revert g. induction label_rows as [|row label_rows IH]; simpl;
    intros g Hadd Hnone Hrows.
  - apply Ok_inj in Hadd. subst g'. exact Hnone.
  - inversion Hrows as [|? ? Hrow Hrest]; subst.
    bind_ok Hadd g1 Hrow1.
    apply (IH g1 Hadd); [|exact Hrest].
    unfold add_label_row in Hrow1.
    bind_ok Hrow1 raw Hraw.
    destruct (negb (hashable (normalize_id raw))); [discriminate|].
    bind_ok Hrow1 raw_label Hl. bind_ok Hrow1 name Hn.
    bind_ok Hrow1 color Hc. bind_ok Hrow1 present Hp.
    apply Ok_inj in Hrow1. subst g1.
    rewrite group_get_append_other; [exact Hnone|].
    apply Hrow. apply row_getitem_Ok. exact Hraw.
Qed.

Lemma pass_labels_no_match (inp : pass_input) (g : label_groups)
    (ticket_id : value) :
  pass_labels inp = Ok g -> no_label_rows inp ticket_id ->
  group_get g ticket_id = None.
Proof.
  unfold pass_labels, no_label_rows.
  destruct (df_labels inp) as [df|]; intros Hg Hrows.
  - apply (add_label_rows_no_match (rows df) [] g); auto.
  - apply Ok_inj in Hg. subst g. reflexivity.
Qed.

(** ** The batch loop *)

Lemma In_firstn {A : Type} (n : nat) (l : list A) (x : A) :
  In x (firstn n l) -> In x l.
Proof.
  intros H. rewrite <- (firstn_skipn n l). apply in_or_app. left. exact H.
Qed.

Lemma In_skipn {A : Type} (n : nat) (l : list A) (x : A) :
  In x (skipn n l) -> In x l.
Proof.
  intros H. rewrite <- (firstn_skipn n l). apply in_or_app. right. exact H.
Qed.

Lemma map_rows_In (build : dict -> result (option action))
    (batch_df : list dict) (a : action) :
  In a (fst (map_rows build batch_df)) ->
  exists row, In row batch_df /\ build row = Ok (Some a).
Proof.
  induction batch_df as [|row rest IH]; simpl.
  - contradiction.
  - destruct (map_rows build rest) as [acts failed] eqn:E. simpl in IH.
    destruct (build row) as [[a0|]|e] eqn:Eb; simpl; intros Hin.
    + destruct Hin as [<-|Hin].
      * exists row. split; [left; reflexivity | exact Eb].
      * destruct (IH Hin) as (r & Hr & Hb). exists r. split; [right|]; assumption.
    + destruct (IH Hin) as (r & Hr & Hb). exists r. split; [right|]; assumption.
    + destruct (IH Hin) as (r & Hr & Hb). exists r. split; [right|]; assumption.
Qed.

Lemma queued_from_rows (build : dict -> result (option action))
    (all_rows : list dict) (batch_size batch_start : nat) (a : action) :
  In a (queued build all_rows batch_size batch_start) ->
  exists row, In row all_rows /\ build row = Ok (Some a).
Proof.
  unfold queued, batch_rows. intros Hin.
  destruct (map_rows_In _ _ _ Hin) as (row & Hrow & Hb).
  exists row. split; [|exact Hb].
  apply In_skipn with (n := batch_start). apply In_firstn in Hrow. exact Hrow.
Qed.

Section LoopFacts.

Variable es_state : Type.
Variable es_bulk :
  es_state -> list action -> bool -> es_state * result (nat * list value).
Variable build : dict -> result (option action).
Variable all_rows : list dict.
Variable batch_size : nat.

Lemma process_batch_calls (s : pass_state es_state) (batch_start : nat) :
  bulk_calls (process_batch es_bulk build all_rows batch_size s batch_start)
  = bulk_calls s ++ dispatch_of build all_rows batch_size batch_start.
Proof.
  unfold process_batch, dispatch_of, queued, batch_rows.
  destruct (map_rows build _) as [acts failed]. simpl fst.
  destruct acts as [|a acts]; simpl.
  - rewrite app_nil_r. reflexivity.
  - destruct (bulk_index es_bulk _ _ _) as [st' [success items]].
    reflexivity.
Qed.

(** The bulk calls of the loop, batch by batch. *)
Lemma fold_batches_calls (starts : list nat) (s : pass_state es_state) :
  bulk_calls
    (fold_left (process_batch es_bulk build all_rows batch_size) starts s)
  = bulk_calls s ++ flat_map (dispatch_of build all_rows batch_size) starts.
Proof.
  revert s. induction starts as [|b starts IH]; simpl; intros s.
  - rewrite app_nil_r. reflexivity.
  - rewrite IH, process_batch_calls, <- app_assoc. reflexivity.
Qed.

End LoopFacts.

(** ** The batch boundaries *)







(** ** Identity and labels of the queued documents *)

Lemma run_batches_actions (es_state : Type)
    (es_bulk :
       es_state -> list action -> bool -> es_state * result (nat * list value))
    (build : dict -> result (option action)) (all_rows : list dict)
    (configured : option Z) (st : es_state) (s : pass_state es_state)
    (c : bulk_call) (a : action) :
  run_batches es_bulk build all_rows configured st = Ok s ->
  In c (bulk_calls s) -> In a (c_actions c) ->
  exists row, In row all_rows /\ build row = Ok (Some a).
Proof.
  unfold run_batches. intros Hrun Hc Ha.
  bind_ok Hrun starts Hstarts. apply Ok_inj in Hrun. subst s.
  rewrite fold_batches_calls in Hc. simpl in Hc.
  apply in_flat_map in Hc. destruct Hc as (b & _ & Hc).
  unfold dispatch_of in Hc.
  destruct (queued build all_rows _ b) as [|a0 acts] eqn:Eq; [contradiction|].
  destruct Hc as [<-|[]]. change (In a (a0 :: acts)) in Ha.
  rewrite <- Eq in Ha.
  apply (queued_from_rows _ _ _ _ _ Ha).
Qed.

Section PassFacts.

Variable json_loads : string -> result value.
Variable str_of : value -> result string.
Variable truthy : value -> result bool.
Variable es_state : Type.
Variable es_create_index : es_state -> string -> es_state * result unit.
Variable es_bulk :
  es_state -> list action -> bool -> es_state * result (nat * list value).

(** A ticket pass that reached its batches ran them over the rows of the
    ticket frame, with the grouping of the label frame and the clock
    reading of the pass. *)
Lemma sync_denormalized_tickets_Some (inp : pass_input) (st : es_state)
    (s : pass_state es_state) :
  sync_denormalized_tickets json_loads str_of es_create_index es_bulk inp st
  = Ok (Some s) ->
  exists df g st',
    df_main inp = Some df /\ rows df <> [] /\ pass_labels inp = Ok g /\
    run_batches es_bulk
      (ticket_action json_loads str_of
         (index_prefix inp ++ "denormalized_tickets")%string (columns df) g
         (utcnow_isoformat inp))
      (rows df) (configured_batch_size inp) st'
    = Ok s.
Proof.
  unfold sync_denormalized_tickets.
  destruct (es_create_index st _) as [st' created]. intros H.
  bind_ok H u Hcreated.
  destruct (df_main inp) as [df|]; [|discriminate].
  destruct (rows df) as [|row0 rest] eqn:Erows; [discriminate|].
  bind_ok H g Hg. bind_ok H s' Hrun. apply Ok_inj in H.
  injection H as ->.
  exists df, g, st'. rewrite Erows.
  split; [reflexivity|]. split; [discriminate|]. split; [exact Hg|exact Hrun].
Qed.

Lemma sync_data_sources_Some (inp : pass_input) (st : es_state)
    (s : pass_state es_state) :
  sync_data_sources str_of truthy es_create_index es_bulk inp st
  = Ok (Some s) ->
  exists df st',
    df_main inp = Some df /\ rows df <> [] /\
    run_batches es_bulk
      (data_source_action str_of truthy
         (index_prefix inp ++ "data_sources")%string (utcnow_isoformat inp))
      (rows df) (configured_batch_size inp) st'
    = Ok s.
Proof.
  unfold sync_data_sources.
  destruct (es_create_index st _) as [st' created]. intros H.
  bind_ok H u Hcreated.
  destruct (df_main inp) as [df|]; [|discriminate].
  destruct (rows df) as [|row0 rest] eqn:Erows; [discriminate|].
  bind_ok H s' Hrun. apply Ok_inj in H. injection H as ->.
  exists df, st'. rewrite Erows.
  split; [reflexivity|]. split; [discriminate|exact Hrun].
Qed.

End PassFacts.

(** C7. In a historical-append pass the clock is read once, before the
    batches; every document of every bulk request of the pass carries that
    reading as [indexed_at], carries as [document_id] the natural id of its
    row followed by an underscore and the same reading, and is sent under
    an [_id] equal to that [document_id].  Stated for the ticket pass
    ([src/ticket_sync.py]) and the data-source pass ([src/data_sync.py]). *)
Theorem historical_append_identity
    (json_loads : string -> result value)
    (str_of : value -> result string) (truthy : value -> result bool)
    (es_state : Type)
    (es_create_index : es_state -> string -> es_state * result unit)
    (es_bulk :
       es_state -> list action -> bool -> es_state * result (nat * list value))
    (inp : pass_input) (st : es_state) (s : pass_state es_state) :
  (sync_denormalized_tickets json_loads str_of es_create_index es_bulk inp st
   = Ok (Some s) ->
   exists df,
     df_main inp = Some df /\
     Forall
       (fun c =>
          Forall
            (identity_from str_of "ticket_id" (rows df) (utcnow_isoformat inp))
            (c_actions c))
       (bulk_calls s)) /\
  (sync_data_sources str_of truthy es_create_index es_bulk inp st
   = Ok (Some s) ->
   exists df,
     df_main inp = Some df /\
     Forall
       (fun c =>
          Forall (identity_from str_of "id" (rows df) (utcnow_isoformat inp))
            (c_actions c))
       (bulk_calls s)).
Proof.
  split; intros Hpass.
  - destruct (sync_denormalized_tickets_Some _ _ _ _ _ _ _ _ Hpass)
      as (df & g & st' & Hdf & _ & _ & Hrun).
    exists df. split; [exact Hdf|].
    apply Forall_forall. intros c Hc. apply Forall_forall. intros a Ha.
    destruct (run_batches_actions _ _ _ _ _ _ _ _ _ Hrun Hc Ha)
      as (row & Hrow & Hbuild).
    destruct (ticket_action_spec _ _ _ _ _ _ _ _ Hbuild)
      as (raw & id_text & Hraw & Hid & Haid & _ & Hts & Hdoc & _).
    split; [split; assumption|].
    exists row, raw, id_text. repeat split; assumption.
  - destruct (sync_data_sources_Some _ _ _ _ _ _ _ _ Hpass)
      as (df & st' & Hdf & _ & Hrun).
    exists df. split; [exact Hdf|].
    apply Forall_forall. intros c Hc. apply Forall_forall. intros a Ha.
    destruct (run_batches_actions _ _ _ _ _ _ _ _ _ Hrun Hc Ha)
      as (row & Hrow & Hbuild).
    destruct (data_source_action_spec _ _ _ _ _ _ Hbuild)
      as (raw & id_text & Hraw & Hid & Haid & _ & Hts & Hdoc).
    split; [split; assumption|].
    exists row, raw, id_text. repeat split; assumption.
Qed.

(** The sample ticket pass and the sample data-source pass. *)
Lemma historical_append_identity_sample :
  (exists df,
      df_main sample_ticket_input = Some df /\
      Forall
        (fun c =>
           Forall
             (identity_from sample_str_of "ticket_id" (rows df)
                "2024-05-01T10:00:00")
             (c_actions c))
        (bulk_calls sample_ticket_pass)) /\
  (exists df,
      df_main sample_data_source_input = Some df /\
      Forall
        (fun c =>
           Forall
             (identity_from sample_str_of "id" (rows df)
                "2024-05-01T10:00:00")
             (c_actions c))
        (bulk_calls sample_data_source_pass)).
Proof.
  split.
  - apply (proj1 (historical_append_identity sample_json_loads sample_str_of
                    sample_truthy unit sample_create_index accepting_bulk
                    sample_ticket_input tt sample_ticket_pass)).
    vm_compute. reflexivity.
  - apply (proj2 (historical_append_identity sample_json_loads sample_str_of
                    sample_truthy unit sample_create_index accepting_bulk
                    sample_data_source_input tt sample_data_source_pass)).
    vm_compute. reflexivity.
Defined.

(** C9. A ticket that no row of the label frame mentions is queued with a
    [labels] field equal to the empty list, present and not [None]; and the
    documents the ticket pass sends are exactly documents queued this
    way. *)
Theorem unlabelled_ticket_gets_empty_labels
    (json_loads : string -> result value)
    (str_of : value -> result string)
    (es_state : Type)
    (es_create_index : es_state -> string -> es_state * result unit)
    (es_bulk :
       es_state -> list action -> bool -> es_state * result (nat * list value))
    (inp : pass_input) (g : label_groups) :
  pass_labels inp = Ok g ->
  (forall cols row raw a,
      dict_get row "ticket_id" = Some raw ->
      ticket_action json_loads str_of
        (index_prefix inp ++ "denormalized_tickets")%string cols g
        (utcnow_isoformat inp) row
      = Ok (Some a) ->
      no_label_rows inp (normalize_id raw) ->
      doc_field (a_source a) "labels" = Some (VList [])) /\
  (forall st s df,
      df_main inp = Some df ->
      sync_denormalized_tickets json_loads str_of es_create_index es_bulk
        inp st
      = Ok (Some s) ->
      Forall
        (fun c =>
           Forall
             (fun a =>
                exists row,
                  In row (rows df) /\
                  ticket_action json_loads str_of
                    (index_prefix inp ++ "denormalized_tickets")%string
                    (columns df) g (utcnow_isoformat inp) row
                  = Ok (Some a))
             (c_actions c))
        (bulk_calls s)).
Proof.
  intros Hg. split.
  - intros cols row raw a Hraw Hbuild Hnone.
    destruct (ticket_action_spec _ _ _ _ _ _ _ _ Hbuild)
      as (raw' & id_text & Hraw' & _ & _ & _ & _ & _ & Hlabels).
    rewrite Hraw in Hraw'. injection Hraw' as <-.
    apply Hlabels. apply (pass_labels_no_match inp); assumption.
  - intros st s df Hdf Hpass.
    destruct (sync_denormalized_tickets_Some _ _ _ _ _ _ _ _ Hpass)
      as (df' & g' & st' & Hdf' & _ & Hg' & Hrun).
    rewrite Hdf in Hdf'. injection Hdf' as <-.
    rewrite Hg in Hg'. injection Hg' as <-.
    apply Forall_forall. intros c Hc. apply Forall_forall. intros a Ha.
    apply (run_batches_actions _ _ _ _ _ _ _ _ _ Hrun Hc Ha).
Qed.

(** Ticket B of the sample frame has no label row. *)
Lemma unlabelled_ticket_gets_empty_labels_sample :
  doc_field (a_source sample_action_B) "labels" = Some (VList []).
Proof.
  apply (proj1 (unlabelled_ticket_gets_empty_labels sample_json_loads
                  sample_str_of unit sample_create_index accepting_bulk
                  sample_ticket_input sample_label_groups eq_refl)
           (columns sample_tickets) sample_row_B (VStr "B") sample_action_B).
  - reflexivity.
  - vm_compute. reflexivity.
  - unfold no_label_rows. simpl.
    repeat constructor; intros raw [= <-]; discriminate.
Defined.

(** ** A bulk call that raises *)

Lemma bulk_index_swallows_failure (es_state : Type)
    (es_bulk :
       es_state -> list action -> bool -> es_state * result (nat * list value))
    (st st' : es_state) (actions : list action) (refresh : bool) (e : exn) :
  es_bulk st actions refresh = (st', Raise e) ->
  bulk_index es_bulk st actions refresh = (st', (0, [])).
Proof. unfold bulk_index. intros ->. reflexivity. Qed.

(** After a batch whose bulk call raised, the success counter is where it
    was and the failure counter has only grown by the rows that failed to
    map: the queued documents are in neither. *)
Lemma process_batch_after_bulk_failure (es_state : Type)
    (es_bulk :
       es_state -> list action -> bool -> es_state * result (nat * list value))
    (build : dict -> result (option action)) (all_rows : list dict)
    (batch_size batch_start : nat) (s : pass_state es_state)
    (st' : es_state) (e : exn) :
  queued build all_rows batch_size batch_start <> [] ->
  (forall refresh,
      es_bulk (es s) (queued build all_rows batch_size batch_start) refresh
      = (st', Raise e)) ->
  successful_docs
    (process_batch es_bulk build all_rows batch_size s batch_start)
  = successful_docs s /\
  failed_docs (process_batch es_bulk build all_rows batch_size s batch_start)
  = failed_docs s
    + snd (map_rows build (batch_rows all_rows batch_size batch_start)).
Proof.
  unfold process_batch, queued, batch_rows. intros Hq Hraise.
  destruct (map_rows build _) as [acts failed]. simpl in *.
  destruct acts as [|a acts]; [contradiction|].
  unfold bulk_index. rewrite Hraise. simpl. split; lia.
Qed.

(** C3 fails on [src/es_connector.py] and [src/data_sync.py]: with a bulk
    helper whose transport raises, the pass over the two sample data
    sources queues both documents in one bulk call and ends with zero
    successes and zero failures; no document is indexed on its own. *)
Theorem bulk_failure_leaves_batch_uncounted :
  exists s,
    sync_data_sources sample_str_of sample_truthy sample_create_index
      failing_bulk sample_data_source_input tt
    = Ok (Some s) /\
    map (fun c => List.length (c_actions c)) (bulk_calls s) = [2] /\
    successful_docs s = 0 /\
    failed_docs s = 0.
Proof.
  eexists. split; [vm_compute; reflexivity|]. repeat split.
Qed.

(** The older [ticket_sync.py] does what the claim says: its bulk call
    raises, and the fallback loop puts every action of the batch in one of
    the two counters. *)
Lemma index_one_by_one_counts (es_state : Type)
    (es_index : es_state -> action -> es_state * result string)
    (actions : list action) (st : es_state) (successful failed : nat) :
  let '(_, successful', failed') :=
    index_one_by_one es_index st actions successful failed in
  successful' + failed' = successful + failed + List.length actions.
Proof.
  revert st successful failed.
  induction actions as [|a actions IH]; simpl; intros st successful failed.
  - lia.
  - destruct (es_index st a) as [st' [answer|e]].
    + destruct (String.eqb answer "created" || String.eqb answer "updated").
      * specialize (IH st' (S successful) failed).
        destruct (index_one_by_one es_index st' actions (S successful) failed)
          as [[st2 s2] f2]. lia.
      * specialize (IH st' successful (S failed)).
        destruct (index_one_by_one es_index st' actions successful (S failed))
          as [[st2 s2] f2]. lia.
    + specialize (IH st' successful (S failed)).
      destruct (index_one_by_one es_index st' actions successful (S failed))
        as [[st2 s2] f2]. lia.
Qed.

Lemma legacy_dispatch_accounts_for_batch (es_state : Type)
    (es_refresh : es_state -> es_state * result unit)
    (es_index : es_state -> action -> es_state * result string)
    (st : es_state) (actions : list action) (successful failed : nat) :
  let '(_, successful', failed') :=
    legacy_dispatch es_refresh es_index st actions successful failed in
  successful' + failed' = successful + failed + List.length actions.
Proof.
  unfold legacy_dispatch, helpers_bulk.
  destruct actions as [|a actions]; [simpl; lia|].
  apply index_one_by_one_counts.
Qed.

(** ** The orchestrators *)

(** C2 fails on [src/data_sync.py]: when the first pass raises, the single
    [try] of [sync_all_tables] logs the error and none of the four
    remaining passes is entered. *)
Theorem sync_all_tables_stops_at_first_failure :
  attempted (sync_all_tables first_pass_fails tt) = [DataSources] /\
  run_log (sync_all_tables first_pass_fails tt)
  = [LogInfo "Starting data sync"; LogError "Error during data sync" TransportError].
Proof. split; reflexivity. Qed.

(** Whatever the passes, once the first one raises no other is entered. *)
Lemma sync_all_tables_skips_after_raise (world : Type)
    (run_pass : entity_kind -> world -> world * result unit)
    (w w' : world) (e : exn) :
  run_pass DataSources w = (w', Raise e) ->
  attempted (sync_all_tables run_pass w) = [DataSources].
Proof.
  intros Hraise. unfold sync_all_tables, and_then, call_pass, log_info. simpl.
  rewrite Hraise. reflexivity.
Qed.

(** The passes entered are always an initial part of the fixed order. *)
Lemma sync_all_tables_attempted_prefix (world : Type)
    (run_pass : entity_kind -> world -> world * result unit) (w : world) :
  exists n,
    attempted (sync_all_tables run_pass w)
    = firstn n [DataSources; Users; Modules; Statuses; Labels].
Proof.
  unfold sync_all_tables, and_then, call_pass, log_info. simpl.
  repeat match goal with
         | |- context [run_pass ?k ?w0] =>
             destruct (run_pass k w0) as [? [[]|?]]; simpl
         end;
    first [ exists 1; reflexivity | exists 2; reflexivity
          | exists 3; reflexivity | exists 4; reflexivity
          | exists 5; reflexivity ].
Qed.

(** The older [data_lake_sync.py] does what the claim says: its loop
    enters every table, whatever the earlier ones did. *)
Lemma legacy_sync_all_tables_attempts_all (world : Type)
    (sync_table : string -> world -> world * result unit)
    (tables : list string) (w : world) :
  t_attempted (legacy_sync_all_tables sync_table tables w) = tables.
Proof.
  unfold legacy_sync_all_tables.
  assert (H : forall s,
             t_attempted (fold_left (sync_one_table world sync_table) tables s)
             = t_attempted s ++ tables).
  { induction tables as [|t tables IH]; simpl; intros s.
    - rewrite app_nil_r. reflexivity.
    - rewrite IH. unfold sync_one_table.
      destruct (sync_table t (t_world s)) as [w' outcome]. simpl.
      rewrite <- app_assoc. reflexivity. }
  rewrite H. reflexivity.
Qed.

(** ** Latest status per ticket *)

Lemma before_total (a b : LatestStatus) : order_leb a b = false -> before b a.
Proof.
  unfold before, order_leb. intros H.
  apply orb_false_iff in H. destruct H as [Hlt Heq].
  apply Z.ltb_ge in Hlt.
  destruct (Z.eqb (ls_ticketId a) (ls_ticketId b)) eqn:E; simpl in Heq.
  - apply Z.eqb_eq in E. apply Z.leb_gt in Heq.
    apply orb_true_iff. right. apply andb_true_iff. split.
    + apply Z.eqb_eq. lia.
    + apply Z.leb_le. lia.
  - apply Z.eqb_neq in E. apply orb_true_iff. left. apply Z.ltb_lt. lia.
Qed.

Lemma before_trans (a b c : LatestStatus) :
  before a b -> before b c -> before a c.
Proof.
  unfold before, order_leb. intros Hab Hbc.
  apply orb_true_iff in Hab. apply orb_true_iff in Hbc.
  apply orb_true_iff.
  destruct Hab as [Hab|Hab]; destruct Hbc as [Hbc|Hbc];
    try apply Z.ltb_lt in Hab; try apply Z.ltb_lt in Hbc;
    try (apply andb_true_iff in Hab; destruct Hab as [Ha1 Ha2];
         apply Z.eqb_eq in Ha1; apply Z.leb_le in Ha2);
    try (apply andb_true_iff in Hbc; destruct Hbc as [Hb1 Hb2];
         apply Z.eqb_eq in Hb1; apply Z.leb_le in Hb2).
  - left. apply Z.ltb_lt. lia.
  - left. apply Z.ltb_lt. lia.
  - left. apply Z.ltb_lt. lia.
  - right. apply andb_true_iff. split; [apply Z.eqb_eq|apply Z.leb_le]; lia.
Qed.

Lemma insert_row_perm (r : LatestStatus) (l : list LatestStatus) :
  Permutation (insert_row r l) (r :: l).
Proof.
  induction l as [|x l IH]; simpl.
  - apply Permutation_refl.
  - destruct (order_leb r x).
    + apply Permutation_refl.
    + apply perm_trans with (x :: r :: l).
      * apply perm_skip. exact IH.
      * apply perm_swap.
Qed.

Lemma order_by_perm (l : list LatestStatus) : Permutation (order_by l) l.
Proof.
  induction l as [|r l IH]; simpl.
  - apply perm_nil.
  - apply perm_trans with (r :: order_by l).
    + apply insert_row_perm.
    + apply perm_skip. exact IH.
Qed.

Lemma insert_row_sorted (r : LatestStatus) (l : list LatestStatus) :
  StronglySorted before l -> StronglySorted before (insert_row r l).
Proof.
  induction 1 as [|x l Hsorted IH Hall]; simpl.
  - constructor; constructor.
  - destruct (order_leb r x) eqn:E.
    + constructor.
      * constructor; assumption.
      * constructor; [exact E|].
        apply Forall_forall. intros y Hy.
        rewrite Forall_forall in Hall.
        apply (before_trans r x y E (Hall y Hy)).
    + constructor; [exact IH|].
      apply Forall_forall. intros y Hy.
      apply (Permutation_in _ (insert_row_perm r l)) in Hy.
      destruct Hy as [<-|Hy].
      * apply before_total. exact E.
      * rewrite Forall_forall in Hall. apply Hall. exact Hy.
Qed.

Lemma order_by_sorted (l : list LatestStatus) :
  StronglySorted before (order_by l).
Proof.
  induction l as [|r l IH]; simpl.
  - constructor.
  - apply insert_row_sorted. exact IH.
Qed.

(** [DISTINCT ON] keeps, for each ticket, the first of its rows. *)
Lemma distinct_on_ticket_find (l : list LatestStatus) (prev : option Z)
    (ticket : Z) :
  prev <> Some ticket ->
  find (fun ls => Z.eqb (ls_ticketId ls) ticket) (distinct_on_ticket prev l)
  = find (fun ls => Z.eqb (ls_ticketId ls) ticket) l.
Proof.
  revert prev. induction l as [|r l IH]; simpl; intros prev Hprev.
  - reflexivity.
  - assert (Hkeep :
              find (fun ls => Z.eqb (ls_ticketId ls) ticket)
                (r :: distinct_on_ticket (Some (ls_ticketId r)) l)
              = (if Z.eqb (ls_ticketId r) ticket then Some r
                 else find (fun ls => Z.eqb (ls_ticketId ls) ticket) l)).
    { simpl. destruct (Z.eqb (ls_ticketId r) ticket) eqn:E; [reflexivity|].
      apply IH. apply Z.eqb_neq in E. congruence. }
    destruct prev as [t|]; [|exact Hkeep].
    destruct (Z.eqb t (ls_ticketId r)) eqn:Et; [|exact Hkeep].
    apply Z.eqb_eq in Et.
    destruct (Z.eqb (ls_ticketId r) ticket) eqn:E.
    + apply Z.eqb_eq in E. exfalso. apply Hprev. congruence.
    + apply IH. exact Hprev.
Qed.

(** In sorted rows, the first row of a ticket is its newest. *)
Lemma first_of_ticket_is_newest (l : list LatestStatus) (ticket : Z)
    (first r : LatestStatus) :
  StronglySorted before l ->
  find (fun ls => Z.eqb (ls_ticketId ls) ticket) l = Some first ->
  In r l -> ls_ticketId r = ticket ->
  (ls_status_created_at r <= ls_status_created_at first)%Z.
Proof.
  induction 1 as [|x l Hsorted IH Hall]; simpl; intros Hfind Hin Hticket.
  - contradiction.
  - destruct (Z.eqb (ls_ticketId x) ticket) eqn:E.
    + injection Hfind as <-. apply Z.eqb_eq in E.
      destruct Hin as [<-|Hin]; [lia|].
      rewrite Forall_forall in Hall. specialize (Hall r Hin).
      unfold before, order_leb in Hall.
      apply orb_true_iff in Hall. destruct Hall as [Hlt|Heq].
      * apply Z.ltb_lt in Hlt. lia.
      * apply andb_true_iff in Heq. destruct Heq as [_ Hle].
        apply Z.leb_le in Hle. exact Hle.
    + apply Z.eqb_neq in E.
      destruct Hin as [<-|Hin]; [contradiction|].
      apply IH; assumption.
Qed.

Lemma joined_history_In (history : list TicketStatus)
    (statuses : list Status) (r : LatestStatus) :
  In r (joined_history history statuses) <->
  exists ts s,
    In ts history /\ ts_deletedAt ts = None /\
    In s statuses /\ ts_statusId ts = s_id s /\
    r = mkLatest (ts_ticketId ts) (ts_statusId ts) (s_name s)
          (s_isFinalStatus s) (ts_createdAt ts).
Proof.
  unfold joined_history. rewrite in_flat_map. split.
  - intros (ts & Hts & Hr).
    destruct (ts_deletedAt ts) eqn:Edel; [contradiction|].
    apply in_map_iff in Hr. destruct Hr as (s & <- & Hs).
    apply filter_In in Hs. destruct Hs as [Hs Hid]. apply Z.eqb_eq in Hid.
    exists ts, s. repeat split; assumption.
  - intros (ts & s & Hts & Hdel & Hs & Hid & ->).
    exists ts. split; [exact Hts|]. rewrite Hdel.
    apply in_map_iff. exists s. split; [reflexivity|].
    apply filter_In. split; [exact Hs|]. apply Z.eqb_eq. exact Hid.
Qed.

Lemma unique_by_key {A : Type} (key : A -> Z) (l : list A) (a b : A) :
  NoDup (map key l) -> In a l -> In b l -> key a = key b -> a = b.
Proof.
  induction l as [|x l IH]; simpl; intros Hnd Ha Hb Hkey.
  - contradiction.
  - inversion Hnd as [|? ? Hnotin Hnd']; subst.
    destruct Ha as [<-|Ha]; destruct Hb as [<-|Hb].
    + reflexivity.
    + exfalso. apply Hnotin. rewrite Hkey. apply in_map. exact Hb.
    + exfalso. apply Hnotin. rewrite <- Hkey. apply in_map. exact Ha.
    + apply IH; assumption.
Qed.

Lemma distinct_on_ticket_In (l : list LatestStatus) (prev : option Z)
    (r : LatestStatus) :
  In r (distinct_on_ticket prev l) -> In r l.
Proof.
  revert prev. induction l as [|x l IH]; simpl; intros prev Hin.
  - contradiction.
  - destruct prev as [t|].
    + destruct (Z.eqb t (ls_ticketId x)).
      * right. exact (IH _ Hin).
      * destruct Hin as [<-|Hin]; [left; reflexivity | right; exact (IH _ Hin)].
    + destruct Hin as [<-|Hin]; [left; reflexivity | right; exact (IH _ Hin)].
Qed.

Lemma filter_none {A : Type} (f : A -> bool) (l : list A) :
  (forall x, In x l -> f x = false) -> filter f l = [].
Proof.
  induction l as [|x l IH]; simpl; intros H; [reflexivity|].
  rewrite (H x (or_introl eq_refl)). apply IH.
  intros y Hy. apply H. right. exact Hy.
Qed.

(** Once a row of a ticket was kept, [DISTINCT ON] lets no other row of
    that ticket through: in sorted rows they all follow it directly. *)
Lemma distinct_on_ticket_after (l : list LatestStatus) (ticket : Z) :
  StronglySorted before l ->
  Forall (fun r => (ticket <= ls_ticketId r)%Z) l ->
  filter (fun ls => Z.eqb (ls_ticketId ls) ticket)
    (distinct_on_ticket (Some ticket) l)
  = [].
Proof.
  induction 1 as [|x l Hsorted IH Hall]; simpl; intros Hge.
  - reflexivity.
  - inversion Hge as [|? ? Hx Hrest]; subst.
    destruct (Z.eqb ticket (ls_ticketId x)) eqn:E.
    + apply IH. exact Hrest.
    + apply Z.eqb_neq in E. simpl.
      destruct (Z.eqb (ls_ticketId x) ticket) eqn:E'.
      * apply Z.eqb_eq in E'. congruence.
      * apply filter_none. intros y Hy.
        apply distinct_on_ticket_In in Hy.
        rewrite Forall_forall in Hall. specialize (Hall y Hy).
        unfold before, order_leb in Hall.
        apply Z.eqb_neq. apply orb_true_iff in Hall.
        destruct Hall as [Hlt|Heq].
        -- apply Z.ltb_lt in Hlt. lia.
        -- apply andb_true_iff in Heq. destruct Heq as [Heq _].
           apply Z.eqb_eq in Heq. lia.
Qed.

(** [DISTINCT ON] over sorted rows leaves each ticket exactly one row, the
    first of its rows. *)
Lemma distinct_on_ticket_filter (l : list LatestStatus) (prev : option Z)
    (ticket : Z) :
  StronglySorted before l ->
  prev <> Some ticket ->
  filter (fun ls => Z.eqb (ls_ticketId ls) ticket) (distinct_on_ticket prev l)
  = match find (fun ls => Z.eqb (ls_ticketId ls) ticket) l with
    | Some first => [first]
    | None => []
    end.
Proof.
  intros Hsorted. revert prev.
  induction Hsorted as [|x l Hsorted IH Hall]; intros prev Hprev.
  - reflexivity.
  - assert (Hkeep :
              filter (fun ls => Z.eqb (ls_ticketId ls) ticket)
                (x :: distinct_on_ticket (Some (ls_ticketId x)) l)
              = match find (fun ls => Z.eqb (ls_ticketId ls) ticket) (x :: l)
                with
                | Some first => [first]
                | None => []
                end).
    { simpl. destruct (Z.eqb (ls_ticketId x) ticket) eqn:E.
      - apply Z.eqb_eq in E. rewrite E. f_equal.
        apply distinct_on_ticket_after; [exact Hsorted|].
        apply Forall_forall. intros y Hy.
        rewrite Forall_forall in Hall. specialize (Hall y Hy).
        unfold before, order_leb in Hall.
        apply orb_true_iff in Hall. destruct Hall as [Hlt|Heq].
        + apply Z.ltb_lt in Hlt. lia.
        + apply andb_true_iff in Heq. destruct Heq as [Heq _].
          apply Z.eqb_eq in Heq. lia.
      - apply IH. apply Z.eqb_neq in E. congruence. }
    simpl distinct_on_ticket.
    destruct prev as [t|]; [|exact Hkeep].
    destruct (Z.eqb t (ls_ticketId x)) eqn:Et; [|exact Hkeep].
    apply Z.eqb_eq in Et. simpl find.
    destruct (Z.eqb (ls_ticketId x) ticket) eqn:E.
    + apply Z.eqb_eq in E. exfalso. apply Hprev. congruence.
    + apply IH. exact Hprev.
Qed.

(** C6. For a ticket whose three status-history rows carry created
    timestamps T1 < T2 < T3, the [latest_status] query keeps exactly one
    row for the ticket, so the join gives the ticket a single output row,
    and that row is the T3 row with the name and final flag of its status,
    in whatever order the history rows are presented and whatever rows of
    other tickets surround them.  The T3 row is a live row whose status
    exists, status ids being a key of [Status]. *)
Theorem latest_status_selects_newest
    (history : list TicketStatus) (statuses : list Status) (ticket : Z)
    (r1 r2 r3 : TicketStatus) (others : list TicketStatus) (s3 : Status) :
  Permutation history (r1 :: r2 :: r3 :: others) ->
  ts_ticketId r1 = ticket -> ts_ticketId r2 = ticket ->
  ts_ticketId r3 = ticket ->
  Forall (fun r => ts_ticketId r <> ticket) others ->
  (ts_createdAt r1 < ts_createdAt r2)%Z ->
  (ts_createdAt r2 < ts_createdAt r3)%Z ->
  ts_deletedAt r3 = None ->
  NoDup (map s_id statuses) -> In s3 statuses -> s_id s3 = ts_statusId r3 ->
  status_of_ticket history statuses ticket
  = [Some (mkLatest ticket (ts_statusId r3) (s_name s3) (s_isFinalStatus s3)
             (ts_createdAt r3))] /\
  filter (fun ls => Z.eqb (ls_ticketId ls) ticket)
    (latest_status history statuses)
  = [mkLatest ticket (ts_statusId r3) (s_name s3) (s_isFinalStatus s3)
       (ts_createdAt r3)].
Proof.
  intros Hperm Ht1 Ht2 Ht3 Hothers H12 H23 Hlive Hkey Hs3 Hid3.
  assert (Hrows :
            filter (fun ls => Z.eqb (ls_ticketId ls) ticket)
              (latest_status history statuses)
            = [mkLatest ticket (ts_statusId r3) (s_name s3)
                 (s_isFinalStatus s3) (ts_createdAt r3)]).
  { unfold latest_status.
    rewrite distinct_on_ticket_filter
      by (try apply order_by_sorted; discriminate).
    set (joined := joined_history history statuses).
    set (target := mkLatest ticket (ts_statusId r3) (s_name s3)
                     (s_isFinalStatus s3) (ts_createdAt r3)).
    assert (Htarget : In target (order_by joined)).
    { apply (Permutation_in _ (Permutation_sym (order_by_perm joined))).
      apply joined_history_In. exists r3, s3.
      split; [apply (Permutation_in _ (Permutation_sym Hperm));
              simpl; tauto|].
      split; [exact Hlive|]. split; [exact Hs3|]. split; [auto|].
      unfold target. rewrite Ht3. reflexivity. }
    destruct (find (fun ls => Z.eqb (ls_ticketId ls) ticket)
                (order_by joined)) as [first|] eqn:Efind.
    - f_equal.
      assert (Hnewest := first_of_ticket_is_newest _ ticket first target
                           (order_by_sorted joined) Efind Htarget eq_refl).
      simpl in Hnewest.
      apply find_some in Efind. destruct Efind as [Hfirst Hticket].
      apply Z.eqb_eq in Hticket.
      apply (Permutation_in _ (order_by_perm joined)) in Hfirst.
      apply joined_history_In in Hfirst.
      destruct Hfirst as (ts & s & Hts & _ & Hs & Hid & ->).
      simpl in Hticket, Hnewest.
      apply (Permutation_in _ Hperm) in Hts.
      assert (Hrow : ts = r3).
      { destruct Hts as [<-|[<-|[<-|Hts]]]; try reflexivity; try lia.
        rewrite Forall_forall in Hothers. exfalso.
        apply (Hothers ts Hts). exact Hticket. }
      subst ts.
      assert (Hstatus : s = s3)
        by (apply (unique_by_key s_id statuses); congruence).
      subst s. unfold target. rewrite Ht3. reflexivity.
    - exfalso. apply (find_none _ _ Efind) in Htarget.
      simpl in Htarget. rewrite Z.eqb_refl in Htarget. discriminate. }
  split; [|exact Hrows].
  unfold status_of_ticket. rewrite Hrows. reflexivity.
Qed.

(** The history of ticket 7 presented newest row first, another ticket in
    between. *)
Lemma latest_status_selects_newest_sample :
  status_of_ticket [history_T3; history_other; history_T1; history_T2]
    sample_statuses 7
  = [Some (mkLatest 7 3 "Closed" true 300)] /\
  filter (fun ls => Z.eqb (ls_ticketId ls) 7)
    (latest_status [history_T3; history_other; history_T1; history_T2]
       sample_statuses)
  = [mkLatest 7 3 "Closed" true 300].
Proof.
  apply (latest_status_selects_newest
           [history_T3; history_other; history_T1; history_T2]
           sample_statuses 7 history_T1 history_T2 history_T3
           [history_other] (mkStatus 3 "Closed" true)).
  - apply (Permutation_app_comm [history_T3; history_other]
             [history_T1; history_T2]).
  - reflexivity.
  - reflexivity.
  - reflexivity.
  - constructor; [simpl; discriminate | constructor].
  - reflexivity.
  - reflexivity.
  - reflexivity.
  - simpl. repeat (constructor; [simpl; intuition discriminate|]). constructor.
  - simpl. tauto.
  - reflexivity.
Defined.

(** * Further properties *)

(** ** The batch loop: what reaches the index store *)

Lemma batch_rows_tail (all_rows : list dict) (batch_size start : nat) :
  0 < batch_size ->
  batch_rows all_rows batch_size start
  ++ skipn (start + batch_size) all_rows
  = skipn start all_rows.
Proof.
  intros Hpos. unfold batch_rows.
  destruct (Nat.le_gt_cases (start + batch_size) (List.length all_rows))
    as [Hle|Hgt].
  - rewrite Nat.min_l by exact Hle.
    replace (start + batch_size - start) with batch_size by lia.
    rewrite (Nat.add_comm start batch_size), <- skipn_skipn.
    apply firstn_skipn.
  - rewrite Nat.min_r by lia.
    rewrite (skipn_all2 (n := start + batch_size) all_rows) by lia.
    rewrite app_nil_r.
    apply firstn_all2. rewrite length_skipn. lia.
Qed.

Lemma batches_cover_tail (all_rows : list dict) (batch_size : nat)
    (fuel start : nat) :
  0 < batch_size -> List.length all_rows <= start + fuel ->
  flat_map (batch_rows all_rows batch_size)
    (range_from fuel start (List.length all_rows) batch_size)
  = skipn start all_rows.
Proof.
  intros Hpos. revert start.
  induction fuel as [|fuel IH]; simpl; intros start Hfuel.
  - rewrite skipn_all2 by lia. reflexivity.
  - destruct (Nat.ltb start (List.length all_rows)) eqn:E.
    + simpl. rewrite IH by lia. apply batch_rows_tail. exact Hpos.
    + apply Nat.ltb_ge in E. rewrite skipn_all2 by lia. reflexivity.
Qed.

Lemma batch_slices_concat (all_rows : list dict) (batch_size : Z)
    (starts : list nat) :
  (0 < batch_size)%Z ->
  batch_starts (List.length all_rows) batch_size = Ok starts ->
  flat_map (batch_rows all_rows (Z.to_nat batch_size)) starts = all_rows.
Proof.
  intros Hpos Hstarts. unfold batch_starts in Hstarts.
  destruct (Z.eqb batch_size 0) eqn:E0; [apply Z.eqb_eq in E0; lia|].
  destruct (Z.ltb batch_size 0) eqn:E1; [apply Z.ltb_lt in E1; lia|].
  apply Ok_inj in Hstarts. subst starts.
  rewrite batches_cover_tail by lia. reflexivity.
Qed.

(** X1. For a positive batch size the batches of a pass partition the
    rowset: taken in the order of the range, the slices
    [df.iloc[batch_start:batch_end]] put end to end are the frame itself,
    so every row is visited once and in order. *)
Theorem batches_partition_rows (all_rows : list dict) (batch_size : Z)
    (starts : list nat) :
  (0 < batch_size)%Z ->
  batch_starts (List.length all_rows) batch_size = Ok starts ->
  flat_map (batch_rows all_rows (Z.to_nat batch_size)) starts = all_rows.
Proof. exact (batch_slices_concat all_rows batch_size starts). Qed.

(** The sample ticket frame in batches of two. *)
Lemma batches_partition_rows_sample :
  flat_map (batch_rows (rows sample_tickets) 2) [0; 2] = rows sample_tickets.
Proof.
  apply (batches_partition_rows (rows sample_tickets) 2 [0; 2]).
  - reflexivity.
  - reflexivity.
Defined.

Lemma map_rows_app (build : dict -> result (option action))
    (l1 l2 : list dict) :
  fst (map_rows build (l1 ++ l2))
  = fst (map_rows build l1) ++ fst (map_rows build l2) /\
  snd (map_rows build (l1 ++ l2))
  = snd (map_rows build l1) + snd (map_rows build l2).
Proof.
  induction l1 as [|row l1 IH]; simpl.
  - split; reflexivity.
  - destruct (map_rows build (l1 ++ l2)) as [acts failed].
    destruct (map_rows build l1) as [acts1 failed1].
    destruct (map_rows build l2) as [acts2 failed2].
    simpl in IH. destruct IH as [-> ->].
    destruct (build row) as [[a|]|e]; simpl; split; reflexivity.
Qed.

Lemma map_rows_flat_map (build : dict -> result (option action))
    (slices : list (list dict)) :
  fst (map_rows build (List.concat slices))
  = flat_map (fun slice => fst (map_rows build slice)) slices.
Proof.
  induction slices as [|slice slices IH]; simpl.
  - reflexivity.
  - rewrite (proj1 (map_rows_app build slice (List.concat slices))), IH.
    reflexivity.
Qed.

Lemma flat_map_over_map {A B C : Type} (f : B -> list C) (g : A -> B)
    (l : list A) :
  flat_map f (map g l) = flat_map (fun x => f (g x)) l.
Proof.
  induction l as [|x l IH]; simpl; [reflexivity | rewrite IH; reflexivity].
Qed.

Lemma dispatch_of_actions (build : dict -> result (option action))
    (all_rows : list dict) (batch_size : nat) (starts : list nat) :
  flat_map c_actions (flat_map (dispatch_of build all_rows batch_size) starts)
  = flat_map (queued build all_rows batch_size) starts.
Proof.
  induction starts as [|b starts IH]; simpl.
  - reflexivity.
  - rewrite flat_map_app, IH. f_equal.
    unfold dispatch_of.
    destruct (queued build all_rows batch_size b); simpl;
      [reflexivity | rewrite app_nil_r; reflexivity].
Qed.

(** X2. With a positive batch size, the documents of the bulk requests of
    a pass, request after request, are exactly the documents the rows
    queue, in row order: no queued document is dropped, duplicated or
    reordered on its way to the bulk helper. *)
Theorem bulk_calls_carry_queued_documents (es_state : Type)
    (es_bulk :
       es_state -> list action -> bool -> es_state * result (nat * list value))
    (build : dict -> result (option action)) (all_rows : list dict)
    (configured : option Z) (st : es_state) (s : pass_state es_state) :
  (0 < effective_batch_size configured)%Z ->
  run_batches es_bulk build all_rows configured st = Ok s ->
  flat_map c_actions (bulk_calls s) = fst (map_rows build all_rows).
Proof.
  intros Hpos Hrun. unfold run_batches in Hrun.
  bind_ok Hrun starts Hstarts. apply Ok_inj in Hrun. subst s.
  rewrite fold_batches_calls. simpl bulk_calls. simpl app.
  rewrite dispatch_of_actions.
  rewrite <- (batch_slices_concat all_rows _ starts Hpos Hstarts) at 2.
  rewrite (flat_map_concat_map (batch_rows all_rows _) starts).
  rewrite map_rows_flat_map, flat_map_over_map. reflexivity.
Qed.

(** The sample ticket pass sends the three queued tickets. *)
Lemma bulk_calls_carry_queued_documents_sample :
  flat_map c_actions (bulk_calls sample_ticket_pass)
  = fst (map_rows sample_ticket_build (rows sample_tickets)).
Proof.
  apply (bulk_calls_carry_queued_documents unit accepting_bulk
           sample_ticket_build (rows sample_tickets) (Some 2%Z) tt
           sample_ticket_pass).
  - reflexivity.
  - vm_compute. reflexivity.
Defined.

Lemma map_rows_count (build : dict -> result (option action))
    (batch_df : list dict) :
  List.length (fst (map_rows build batch_df)) + snd (map_rows build batch_df)
  = List.length batch_df.
Proof.
  induction batch_df as [|row rest IH]; simpl.
  - reflexivity.
  - destruct (map_rows build rest) as [acts failed]. simpl in IH.
    destruct (build row) as [[a|]|e]; simpl; lia.
Qed.

Lemma process_batch_counts (es_state : Type)
    (es_bulk :
       es_state -> list action -> bool -> es_state * result (nat * list value))
    (build : dict -> result (option action)) (all_rows : list dict)
    (batch_size batch_start : nat) (s : pass_state es_state) :
  answers_every_action es_bulk ->
  successful_docs
    (process_batch es_bulk build all_rows batch_size s batch_start)
  + failed_docs (process_batch es_bulk build all_rows batch_size s batch_start)
  = successful_docs s + failed_docs s
    + List.length (batch_rows all_rows batch_size batch_start).
Proof.
  intros Hbulk. unfold process_batch.
  fold (batch_rows all_rows batch_size batch_start).
  assert (Hcount := map_rows_count build
                      (batch_rows all_rows batch_size batch_start)).
  destruct (map_rows build (batch_rows all_rows batch_size batch_start))
    as [acts failed]. simpl in Hcount.
  destruct acts as [|a acts]; simpl in *; [lia|].
  unfold bulk_index.
  destruct (Hbulk (es s) (a :: acts)
              (Nat.eqb (Nat.min (batch_start + batch_size)
                          (List.length all_rows))
                 (List.length all_rows)))
    as (st' & success & items & -> & Hsum).
  simpl in *. lia.
Qed.

Lemma fold_batches_counts (es_state : Type)
    (es_bulk :
       es_state -> list action -> bool -> es_state * result (nat * list value))
    (build : dict -> result (option action)) (all_rows : list dict)
    (batch_size : nat) (starts : list nat) (s : pass_state es_state) :
  answers_every_action es_bulk ->
  successful_docs
    (fold_left (process_batch es_bulk build all_rows batch_size) starts s)
  + failed_docs
      (fold_left (process_batch es_bulk build all_rows batch_size) starts s)
  = successful_docs s + failed_docs s
    + List.length (flat_map (batch_rows all_rows batch_size) starts).
Proof.
  intros Hbulk. revert s.
  induction starts as [|b starts IH]; simpl; intros s.
  - lia.
  - rewrite IH, (process_batch_counts _ _ _ _ _ _ _ Hbulk), length_app. lia.
Qed.

(** X3. When the bulk helper answers every request and accounts for each
    action it was given, a pass with a positive batch size ends with
    [successful_docs + failed_docs] equal to the number of rows: every row
    is counted exactly once, as indexed or as failed. *)
Theorem counters_account_for_every_row (es_state : Type)
    (es_bulk :
       es_state -> list action -> bool -> es_state * result (nat * list value))
    (build : dict -> result (option action)) (all_rows : list dict)
    (configured : option Z) (st : es_state) (s : pass_state es_state) :
  answers_every_action es_bulk ->
  (0 < effective_batch_size configured)%Z ->
  run_batches es_bulk build all_rows configured st = Ok s ->
  successful_docs s + failed_docs s = List.length all_rows.
Proof.
  intros Hbulk Hpos Hrun. unfold run_batches in Hrun.
  bind_ok Hrun starts Hstarts. apply Ok_inj in Hrun. subst s.
  rewrite (fold_batches_counts _ _ _ _ _ _ _ Hbulk).
  rewrite (batch_slices_concat all_rows _ starts Hpos Hstarts).
  reflexivity.
Qed.

Lemma accepting_bulk_answers : answers_every_action accepting_bulk.
Proof.
  intros st actions refresh. exists st, (List.length actions), [].
  split; [reflexivity | simpl; lia].
Qed.

(** The sample ticket pass counts its three rows. *)
Lemma counters_account_for_every_row_sample :
  successful_docs sample_ticket_pass + failed_docs sample_ticket_pass = 3.
Proof.
  apply (counters_account_for_every_row unit accepting_bulk
           sample_ticket_build (rows sample_tickets) (Some 2%Z) tt
           sample_ticket_pass).
  - exact accepting_bulk_answers.
  - reflexivity.
  - vm_compute. reflexivity.
Defined.

Lemma effective_batch_size_cap (configured : option Z) :
  Z.to_nat (effective_batch_size configured) <= 50.
Proof. unfold effective_batch_size. destruct configured; lia. Qed.

Lemma queued_length (build : dict -> result (option action))
    (all_rows : list dict) (batch_size batch_start : nat) :
  List.length (queued build all_rows batch_size batch_start) <= batch_size.
Proof.
  unfold queued.
  assert (H := map_rows_count build
                 (batch_rows all_rows batch_size batch_start)).
  assert (Hlen :
            List.length (batch_rows all_rows batch_size batch_start)
            <= batch_size).
  { unfold batch_rows. rewrite length_firstn. lia. }
  lia.
Qed.

(** X4. Every bulk request of a pass carries at least one document and at
    most fifty, whatever batch size is configured: an empty batch is not
    sent, and the configured size is capped at 50. *)
Theorem bulk_call_size_bounds (es_state : Type)
    (es_bulk :
       es_state -> list action -> bool -> es_state * result (nat * list value))
    (build : dict -> result (option action)) (all_rows : list dict)
    (configured : option Z) (st : es_state) (s : pass_state es_state) :
  run_batches es_bulk build all_rows configured st = Ok s ->
  Forall (fun c => 1 <= List.length (c_actions c) <= 50) (bulk_calls s).
Proof.
  intros Hrun. unfold run_batches in Hrun.
  bind_ok Hrun starts Hstarts. apply Ok_inj in Hrun. subst s.
  rewrite fold_batches_calls. simpl bulk_calls. simpl app.
  apply Forall_forall. intros c Hc.
  apply in_flat_map in Hc. destruct Hc as (b & _ & Hc).
  unfold dispatch_of in Hc.
  assert (Hlen := queued_length build all_rows
                    (Z.to_nat (effective_batch_size configured)) b).
  assert (Hcap := effective_batch_size_cap configured).
  destruct (queued build all_rows _ b) as [|a acts]; [contradiction|].
  destruct Hc as [<-|[]]. simpl in *. lia.
Qed.

(** The sample data-source pass, configured for batches of a thousand. *)
Lemma bulk_call_size_bounds_sample :
  Forall (fun c => 1 <= List.length (c_actions c) <= 50)
    (bulk_calls
       (pass_result
          (sync_data_sources sample_str_of sample_truthy sample_create_index
             accepting_bulk
             (mkInput (Some sample_data_sources) None (Some 1000%Z)
                "data_lake_" "2024-05-01T10:00:00")
             tt))).
Proof.
  apply (bulk_call_size_bounds unit accepting_bulk
           (data_source_action sample_str_of sample_truthy
              "data_lake_data_sources" "2024-05-01T10:00:00")
           (rows sample_data_sources) (Some 1000%Z) tt).
  vm_compute. reflexivity.
Defined.

(** X5. A configured batch size of zero makes the pass raise [ValueError]
    when it builds its range, before any row is read; a negative one makes
    the range empty: the pass ends normally without sending a request and
    with both counters at zero, whatever the rowset holds. *)
Theorem nonpositive_batch_size (es_state : Type)
    (es_bulk :
       es_state -> list action -> bool -> es_state * result (nat * list value))
    (build : dict -> result (option action)) (all_rows : list dict)
    (batch_size : Z) (st : es_state) :
  (batch_size <= 0)%Z ->
  run_batches es_bulk build all_rows (Some batch_size) st
  = if Z.eqb batch_size 0 then Raise ValueError else Ok (mkPass st 0 0 []).
Proof.
  intros Hle. unfold run_batches, batch_starts, effective_batch_size.
  rewrite Z.min_l by lia.
  destruct (Z.eqb batch_size 0) eqn:E0; [reflexivity|].
  apply Z.eqb_neq in E0.
  destruct (Z.ltb batch_size 0) eqn:E1; [reflexivity|].
  apply Z.ltb_ge in E1. lia.
Qed.

(** A negative batch size on the sample ticket frame. *)
Lemma nonpositive_batch_size_sample :
  run_batches accepting_bulk sample_ticket_build (rows sample_tickets)
    (Some (-5)%Z) tt
  = Ok (mkPass tt 0 0 []).
Proof.
  apply (nonpositive_batch_size unit accepting_bulk sample_ticket_build
           (rows sample_tickets) (-5)%Z tt).
  discriminate.
Defined.

(** ** More on the Value Sanitizer *)

Lemma distinct_strings_NoDup (l : list string) :
  distinct_strings l = true -> NoDup l.
Proof.
  induction l as [|s l IH]; simpl; intros H.
  - constructor.
  - apply andb_true_iff in H. destruct H as [Hnot Hrest].
    constructor; [|apply IH; exact Hrest].
    intros Hin. apply negb_true_iff in Hnot.
    assert (Hex : existsb (String.eqb s) l = true)
      by (apply existsb_exists; exists s; split;
          [exact Hin | apply String.eqb_refl]).
    congruence.
Qed.

Lemma sanitize_fields_of_distinct (coerce : value -> result value)
    (fields : dict) :
  NoDup (keys fields) ->
  sanitize_fields coerce fields []
  = map (fun kv => (fst kv, field_or_none coerce (snd kv))) fields.
Proof.
  intros Hnd. apply (sanitize_fields_fresh coerce fields []). exact Hnd.
Qed.

(** X6. Neither copy of [sanitize_document] drops, adds, renames or
    reorders a field: the result of a dict has the keys of the dict, in
    the same order. *)
Theorem sanitize_document_keeps_keys (fields : dict) :
  NoDup (keys fields) ->
  (exists out,
      DocumentUtils.sanitize_document (VDict fields) = Ok (VDict out) /\
      keys out = keys fields) /\
  (exists out,
      Utils.sanitize_document (VDict fields) = Ok (VDict out) /\
      keys out = keys fields).
Proof.
  intros Hnd. split; eexists; (split; [reflexivity|]);
    rewrite (sanitize_fields_of_distinct _ fields Hnd);
    unfold keys; rewrite map_map; reflexivity.
Qed.

(** The ragged document keeps its four keys in both copies. *)
Lemma sanitize_document_keeps_keys_sample :
  (exists out,
      DocumentUtils.sanitize_document (VDict ragged_fields) = Ok (VDict out) /\
      keys out = keys ragged_fields) /\
  (exists out,
      Utils.sanitize_document (VDict ragged_fields) = Ok (VDict out) /\
      keys out = keys ragged_fields).
Proof.
  apply sanitize_document_keeps_keys. unfold ragged_fields. distinct_keys.
Defined.

Lemma clean_json_field (v : value) :
  clean_json v = true ->
  field_or_none (DocumentUtils.coerce_field DocumentUtils.sanitize_document) v
  = v.
Proof.
  induction v using value_nested_ind; intros Hclean;
    try reflexivity; try discriminate.
  - (* float *)
    simpl in Hclean. apply negb_true_iff in Hclean.
    unfold field_or_none, DocumentUtils.coerce_field. simpl.
    rewrite Hclean. reflexivity.
  - (* dict *)
    simpl in Hclean. apply andb_true_iff in Hclean.
    destruct Hclean as [Hkeys Hvalues].
    rewrite coerce_dict_field. simpl sanitized. f_equal.
    rewrite sanitize_fields_of_distinct
      by (apply distinct_strings_NoDup; exact Hkeys).
    apply map_fixed. intros [k x] Hin. simpl. f_equal.
    rewrite Forall_forall in H. apply (H (k, x) Hin).
    rewrite forallb_forall in Hvalues. apply (Hvalues (k, x) Hin).
  - (* list *)
    rewrite coerce_list_field. f_equal. apply map_fixed. intros x Hx.
    rewrite Forall_forall in H. specialize (H x Hx).
    simpl in Hclean. rewrite forallb_forall in Hclean.
    specialize (Hclean x Hx).
    destruct x; try reflexivity. exact (H Hclean).
Qed.

(** X7. [sanitize_document] of [src/document_utils.py] returns a parsed
    JSON payload as it is: on a value made of [None], booleans, integers,
    floats other than NaN, text, and dicts and lists of such values, the
    result equals the argument. *)
Theorem sanitize_document_fixes_clean_json (v : value) :
  clean_json v = true -> DocumentUtils.sanitize_document v = Ok v.
Proof.
  intros Hclean. rewrite sanitize_document_returns. f_equal.
  destruct v; try reflexivity.
  exact (clean_json_field (VDict fields) Hclean).
Qed.

(** A ticket payload as [json.loads] returns it. *)
Lemma sanitize_document_fixes_clean_json_sample :
  DocumentUtils.sanitize_document
    (VDict [("key", VStr "value1");
            ("steps", VList [VInt 1; VDict [("done", VBool true)]]);
            ("owner", VNone)])
  = Ok (VDict [("key", VStr "value1");
               ("steps", VList [VInt 1; VDict [("done", VBool true)]]);
               ("owner", VNone)]).
Proof.
  apply sanitize_document_fixes_clean_json. reflexivity.
Defined.

Lemma python_native_encodable (v : value) :
  python_native v = true -> json_encodable v = true.
Proof.
  induction v using value_nested_ind; intros Hnative;
    try reflexivity; try discriminate.
  - simpl in *. rewrite forallb_forall in Hnative |- *.
    rewrite Forall_forall in H. intros kv Hin. auto.
  - simpl in *. rewrite forallb_forall in Hnative |- *.
    rewrite Forall_forall in H. intros x Hin. auto.
Qed.

Lemma to_python_native (x : value) :
  np_scalar x = true -> python_native (to_python x) = true.
Proof.
  unfold to_python. destruct x; try discriminate; intros _; simpl;
    try reflexivity.
  destruct (float_is_nan f); reflexivity.
Qed.

Lemma array_element_numeric (x : value) :
  np_scalar x = true -> DocumentUtils.array_element x = Ok (to_python x).
Proof.
  unfold DocumentUtils.array_element, to_python.
  destruct x; try discriminate; intros _; simpl; try reflexivity.
  destruct (float_is_nan f); reflexivity.
Qed.

Lemma numeric_array_conversion (rec : value -> result value) (kind : array_kind)
    (dt : dtype) (elems : list value) :
  numeric_dtype dt = true -> forallb np_scalar elems = true ->
  DocumentUtils.coerce_field rec (VArray kind dt elems)
  = Ok (match elems with
        | [x] => to_python x
        | _ => VList (map to_python elems)
        end).
Proof.
  intros Hdt Hnp. unfold DocumentUtils.coerce_field.
  assert (Hall : forall x, In x elems ->
                   DocumentUtils.array_element x = Ok (to_python x)).
  { intros x Hx. apply array_element_numeric.
    rewrite forallb_forall in Hnp. apply Hnp. exact Hx. }
  destruct elems as [|x [|y rest]].
  - reflexivity.
  - simpl in Hnp. rewrite andb_true_r in Hnp.
    unfold array_item, to_python.
    destruct dt; try discriminate;
      destruct x; try discriminate; simpl; try reflexivity;
      destruct (float_is_nan f); reflexivity.
  - rewrite (map_result_total _ to_python _ Hall). reflexivity.
Qed.

(** X8. A field holding a numeric numpy array or Series is stored by
    [sanitize_document] of [src/document_utils.py] as a list of Python
    scalars of the same length, with [None] in place of each NaN; except
    that an array of exactly one element is stored as that scalar itself
    (or [None]), not as a one-element list. *)
Theorem numeric_array_field (rec : value -> result value) (kind : array_kind)
    (dt : dtype) (elems : list value) :
  numeric_dtype dt = true -> forallb np_scalar elems = true ->
  DocumentUtils.coerce_field rec (VArray kind dt elems)
  = Ok (match elems with
        | [x] => to_python x
        | _ => VList (map to_python elems)
        end).
Proof. exact (numeric_array_conversion rec kind dt elems). Qed.

(** A float array with a NaN in the middle, and a one-element Series. *)
Lemma numeric_array_field_sample :
  DocumentUtils.coerce_field DocumentUtils.sanitize_document
    (VArray NdArray DFloat
       [VNpFloat 4607182418800017408; VNpFloat 9221120237041090560;
        VNpFloat 4611686018427387904])
  = Ok (VList [VFloat 4607182418800017408; VNone;
               VFloat 4611686018427387904]) /\
  DocumentUtils.coerce_field DocumentUtils.sanitize_document
    (VArray Series DInt [VNpInt 7])
  = Ok (VInt 7).
Proof.
  split.
  - rewrite (numeric_array_field DocumentUtils.sanitize_document NdArray
               DFloat
               [VNpFloat 4607182418800017408; VNpFloat 9221120237041090560;
                VNpFloat 4611686018427387904] eq_refl eq_refl).
    vm_compute. reflexivity.
  - rewrite (numeric_array_field DocumentUtils.sanitize_document Series DInt
               [VNpInt 7] eq_refl eq_refl).
    reflexivity.
Defined.

Lemma convertible_field_native (v : value) :
  convertible v = true ->
  python_native
    (field_or_none
       (DocumentUtils.coerce_field DocumentUtils.sanitize_document) v)
  = true.
Proof.
  induction v using value_nested_ind; intros Hconv;
    try reflexivity; try discriminate.
  - (* float *)
    unfold field_or_none, DocumentUtils.coerce_field. simpl.
    destruct (float_is_nan f); reflexivity.
  - (* numpy float *)
    unfold field_or_none, DocumentUtils.coerce_field. simpl.
    destruct (float_is_nan f); reflexivity.
  - (* dict *)
    rewrite coerce_dict_field. simpl.
    apply forallb_forall. intros [k x] Hin. simpl.
    apply sanitize_fields_In in Hin. destruct Hin as [[]|(v & Hv & ->)].
    rewrite Forall_forall in H. apply (H (k, v) Hv).
    simpl in Hconv. rewrite forallb_forall in Hconv. apply (Hconv (k, v) Hv).
  - (* list *)
    rewrite coerce_list_field. simpl.
    apply forallb_forall. intros y Hy.
    apply in_map_iff in Hy. destruct Hy as (x & <- & Hx).
    rewrite Forall_forall in H. specialize (H x Hx).
    simpl in Hconv. rewrite forallb_forall in Hconv.
    specialize (Hconv x Hx).
    destruct x; try exact Hconv. exact (H Hconv).
  - (* array *)
    simpl in Hconv. apply andb_true_iff in Hconv. destruct Hconv as [Hdt Hnp].
    unfold field_or_none.
    rewrite (numeric_array_conversion _ kind dt elems Hdt Hnp).
    destruct elems as [|x [|y rest]].
    + reflexivity.
    + apply to_python_native. simpl in Hnp. rewrite andb_true_r in Hnp.
      exact Hnp.
    + change (forallb python_native (map to_python (x :: y :: rest)) = true).
      apply forallb_forall. intros z Hz.
      apply in_map_iff in Hz. destruct Hz as (w & <- & Hw).
      apply to_python_native. rewrite forallb_forall in Hnp. apply Hnp.
      exact Hw.
Qed.

(** The sanitizer converts the fields of a dict, not the items of a list:
    an item that is not a dict is stored as it is, so a list of numpy
    integers stays one, which [json.dumps] with the project's encoder
    refuses. *)
Lemma list_items_are_not_converted :
  DocumentUtils.sanitize_document (VDict [("counts", VList [VNpInt 1])])
  = Ok (VDict [("counts", VList [VNpInt 1])]) /\
  json_encodable (VDict [("counts", VList [VNpInt 1])]) = false.
Proof. split; reflexivity. Qed.

(** X9. A document whose fields hold only scalars of Python, numpy and
    pandas, UUIDs, timestamps, binary data, numeric arrays, dicts of such
    values, and lists whose items are dicts of such values or are already
    made of Python's own scalars, dicts and lists (the sanitizer converts
    no other item of a list) comes out of [sanitize_document] made of
    Python's own scalars, dicts and lists only; [json.dumps] with the
    project's encoder then succeeds, so the document is queued as
    sanitized and the [default=str] pass is not needed. *)
Theorem sanitized_document_is_json_safe (str_of : value -> result string)
    (index_name document_id : string) (fields : dict) :
  convertible (VDict fields) = true ->
  exists out,
    DocumentUtils.sanitize_document (VDict fields) = Ok out /\
    python_native out = true /\
    json_encodable out = true /\
    make_action str_of index_name document_id out
    = Some (mkAction "index" index_name document_id out).
Proof.
  intros Hconv. exists (sanitized (VDict fields)).
  assert (Hnative : python_native (sanitized (VDict fields)) = true)
    by exact (convertible_field_native (VDict fields) Hconv).
  assert (Henc := python_native_encodable _ Hnative).
  split; [apply sanitize_document_returns|].
  split; [exact Hnative|]. split; [exact Henc|].
  unfold make_action. rewrite Henc. reflexivity.
Qed.

(** The sample record is queued as sanitized. *)
Lemma sanitized_document_is_json_safe_sample :
  exists out,
    DocumentUtils.sanitize_document sample_record = Ok out /\
    python_native out = true /\
    json_encodable out = true /\
    make_action sample_str_of "data_lake_users" "u1" out
    = Some (mkAction "index" "data_lake_users" "u1" out).
Proof.
  apply (sanitized_document_is_json_safe sample_str_of "data_lake_users" "u1").
  reflexivity.
Defined.

(** ** The label grouping *)

Lemma value_eqb_refl (a : value) : value_eqb a a = true.
Proof.
  unfold value_eqb. destruct (value_eq_dec a a); [reflexivity | contradiction].
Qed.

Lemma value_eqb_false (a b : value) : value_eqb a b = false -> a <> b.
Proof.
  unfold value_eqb. destruct (value_eq_dec a b); [discriminate | auto].
Qed.

Lemma group_get_append_same (g : label_groups) (k x : value) :
  group_get (group_append g k x) k
  = Some (match group_get g k with
          | Some ls => ls
          | None => []
          end ++ [x]).
Proof.
  induction g as [|[k0 ls] g IH]; simpl.
  - rewrite value_eqb_refl. reflexivity.
  - destruct (value_eqb k0 k) eqn:E; simpl; rewrite E.
    + reflexivity.
    + exact IH.
Qed.

Lemma add_label_row_inv (g g' : label_groups) (row : dict) :
  add_label_row g row = Ok g' ->
  exists raw d,
    dict_get row "ticketId" = Some raw /\
    label_document row = Ok d /\
    g' = group_append g (normalize_id raw) d.
Proof.
  unfold add_label_row, label_document. intros H.
  bind_ok H raw Hraw.
  destruct (negb (hashable (normalize_id raw))); [discriminate|].
  bind_ok H raw_label Hlabel. bind_ok H name Hname.
  bind_ok H color Hcolor. bind_ok H present Hpresent.
  apply Ok_inj in H.
  exists raw. eexists. split; [apply row_getitem_Ok; exact Hraw|].
  split; [|symmetry; exact H].
  rewrite Hlabel. simpl. rewrite Hname. simpl. rewrite Hcolor. simpl.
  rewrite Hpresent. reflexivity.
Qed.

Lemma add_label_rows_groups (label_rows : list dict) (g0 g : label_groups)
    (k : value) :
  add_label_rows g0 label_rows = Ok g ->
  exists docs,
    map_result label_document (filter (label_row_of k) label_rows) = Ok docs /\
    group_get g k
    = match docs with
      | [] => group_get g0 k
      | _ => Some (match group_get g0 k with
                   | Some ls => ls
                   | None => []
                   end ++ docs)
      end.
Proof.
  revert g0. induction label_rows as [|row label_rows IH]; intros g0 Hadd.
  - apply Ok_inj in Hadd. subst g. exists []. split; reflexivity.
  - simpl in Hadd. bind_ok Hadd g1 Hrow.
    destruct (add_label_row_inv _ _ _ Hrow) as (raw & d & Hraw & Hdoc & ->).
    destruct (IH _ Hadd) as (docs & Hdocs & Hget).
    simpl filter. unfold label_row_of at 1. rewrite Hraw.
    destruct (value_eqb (normalize_id raw) k) eqn:E.
    + apply value_eqb_true in E. subst k.
      exists (d :: docs). split.
      * simpl. rewrite Hdoc. simpl. rewrite Hdocs. reflexivity.
      * rewrite Hget, group_get_append_same.
        destruct docs; [reflexivity|]. rewrite <- app_assoc. reflexivity.
    + apply value_eqb_false in E.
      exists docs. split; [exact Hdocs|].
      rewrite Hget, (group_get_append_other g0 k (normalize_id raw) d E).
      reflexivity.
Qed.

(** X10. [process_ticket_labels] groups by ticket and keeps the row order:
    the list stored for a ticket id holds the label documents of exactly
    the rows of that ticket (UUIDs compared by their text), in the order
    of the rows; a ticket id that no row mentions is not a key. *)
Theorem labels_grouped_in_row_order (df : DataFrame) (g : label_groups)
    (ticket_id : value) :
  process_ticket_labels df = Ok g ->
  exists docs,
    map_result label_document (filter (label_row_of ticket_id) (rows df))
    = Ok docs /\
    group_get g ticket_id
    = match docs with
      | [] => None
      | _ => Some docs
      end.
Proof.
  intros H. exact (add_label_rows_groups (rows df) [] g ticket_id H).
Qed.

(** The two labels of ticket A, in the order of their rows. *)
Lemma labels_grouped_in_row_order_sample :
  exists docs,
    map_result label_document
      (filter (label_row_of (VStr "A")) (rows sample_labels))
    = Ok docs /\
    group_get sample_label_groups (VStr "A")
    = match docs with
      | [] => None
      | _ => Some docs
      end.
Proof.
  apply labels_grouped_in_row_order. reflexivity.
Defined.

Lemma group_append_keys (g : label_groups) (k x : value) :
  map fst (group_append g k x)
  = if existsb (fun kv => value_eqb (fst kv) k) g then map fst g
    else map fst g ++ [k].
Proof.
  induction g as [|[k0 ls] g IH]; simpl.
  - reflexivity.
  - destruct (value_eqb k0 k) eqn:E; simpl.
    + reflexivity.
    + rewrite IH. destruct (existsb _ g); reflexivity.
Qed.

Lemma group_append_NoDup (g : label_groups) (k x : value) :
  NoDup (map fst g) -> NoDup (map fst (group_append g k x)).
Proof.
  intros Hnd. rewrite group_append_keys.
  destruct (existsb (fun kv => value_eqb (fst kv) k) g) eqn:E; [exact Hnd|].
  apply NoDup_app; [exact Hnd | repeat constructor; intros [] |].
  intros y Hy [<-|[]].
  apply in_map_iff in Hy. destruct Hy as (kv & Hkv & Hin).
  assert (Hex : existsb (fun kv => value_eqb (fst kv) k) g = true).
  { apply existsb_exists. exists kv. split; [exact Hin|].
    rewrite Hkv. apply value_eqb_refl. }
  congruence.
Qed.

Lemma group_append_total (g : label_groups) (k x : value) :
  List.length (List.concat (map snd (group_append g k x)))
  = S (List.length (List.concat (map snd g))).
Proof.
  induction g as [|[k0 ls] g IH]; simpl.
  - reflexivity.
  - destruct (value_eqb k0 k); simpl; rewrite !length_app.
    + simpl. lia.
    + rewrite IH. lia.
Qed.

Lemma group_append_nonempty (g : label_groups) (k x : value) :
  Forall (fun kv => snd kv <> []) g ->
  Forall (fun kv => snd kv <> []) (group_append g k x).
Proof.
  induction g as [|[k0 ls] g IH]; simpl; intros H.
  - constructor; [discriminate | constructor].
  - inversion H as [|? ? Hhead Htail]; subst.
    destruct (value_eqb k0 k); constructor; auto.
    simpl. destruct ls; discriminate.
Qed.

Lemma add_label_rows_shape (label_rows : list dict) (g0 g : label_groups) :
  add_label_rows g0 label_rows = Ok g ->
  NoDup (map fst g0) -> Forall (fun kv => snd kv <> []) g0 ->
  NoDup (map fst g) /\
  Forall (fun kv => snd kv <> []) g /\
  List.length (List.concat (map snd g))
  = List.length (List.concat (map snd g0)) + List.length label_rows.
Proof.
  revert g0. induction label_rows as [|row label_rows IH];
    intros g0 Hadd Hnd Hne.
  - apply Ok_inj in Hadd. subst g. simpl. repeat split; auto.
  - simpl in Hadd. bind_ok Hadd g1 Hrow.
    destruct (add_label_row_inv _ _ _ Hrow) as (raw & d & _ & _ & ->).
    destruct (IH _ Hadd (group_append_NoDup _ _ _ Hnd)
                (group_append_nonempty _ _ _ Hne)) as (H1 & H2 & H3).
    repeat split; auto. rewrite H3, group_append_total. simpl. lia.
Qed.

(** X11. When [process_ticket_labels] returns, every label row has gone
    into exactly one group: the ticket ids of the grouping are pairwise
    different, no group is empty, and the groups hold as many label
    documents together as the frame has rows. *)
Theorem label_groups_partition_rows (df : DataFrame) (g : label_groups) :
  process_ticket_labels df = Ok g ->
  NoDup (map fst g) /\
  Forall (fun kv => snd kv <> []) g /\
  List.length (List.concat (map snd g)) = List.length (rows df).
Proof.
  intros H.
  apply (add_label_rows_shape (rows df) [] g H); constructor.
Qed.

(** The sample label frame: two rows, one group of two. *)
Lemma label_groups_partition_rows_sample :
  NoDup (map fst sample_label_groups) /\
  Forall (fun kv => snd kv <> []) sample_label_groups /\
  List.length (List.concat (map snd sample_label_groups))
  = List.length (rows sample_labels).
Proof.
  apply label_groups_partition_rows. reflexivity.
Defined.

Lemma map_result_length {A B : Type} (f : A -> result B) (l : list A)
    (l' : list B) :
  map_result f l = Ok l' -> List.length l' = List.length l.
Proof.
  revert l'. induction l as [|x l IH]; simpl; intros l' H.
  - apply Ok_inj in H. subst l'. reflexivity.
  - bind_ok H y Hy. bind_ok H ys Hys. apply Ok_inj in H. subst l'.
    simpl. f_equal. apply IH. exact Hys.
Qed.

Lemma ticket_action_labels (json_loads : string -> result value)
    (str_of : value -> result string) (index_name : string)
    (cols : list string) (labels_by_ticket : label_groups)
    (index_timestamp : string) (row : dict) (a : action) (raw : value) :
  ticket_action json_loads str_of index_name cols labels_by_ticket
    index_timestamp row = Ok (Some a) ->
  dict_get row "ticket_id" = Some raw ->
  exists entries,
    doc_field (a_source a) "labels" = Some (VList entries) /\
    List.length entries
    = List.length (match group_get labels_by_ticket (normalize_id raw) with
                   | Some ls => ls
                   | None => []
                   end).
Proof.
  unfold ticket_action. intros H Hrow.
  bind_ok H raw' Hraw. apply row_getitem_Ok in Hraw.
  rewrite Hrow in Hraw. injection Hraw as <-.
  bind_ok H doc0 Hcopy. bind_ok H doc1 Hparse.
  bind_ok H labels Hlabels. bind_ok H id_text Hid.
  bind_ok H sanitized_doc Hsan.
  rewrite sanitize_document_returns in Hsan.
  apply Ok_inj in Hsan. apply Ok_inj in H. rename H into Hmake.
  subst sanitized_doc.
  unfold labels_of in Hlabels.
  destruct (negb (hashable (normalize_id raw))); [discriminate|].
  apply Ok_inj in Hlabels.
  pose (ls := match group_get labels_by_ticket (normalize_id raw) with
              | Some ls => ls
              | None => []
              end).
  change (VList ls = labels) in Hlabels. subst labels. fold ls.
  pose (document_id := (id_text ++ "_" ++ index_timestamp)%string).
  pose (doc :=
          dict_set
            (dict_set (dict_set doc1 "labels" (VList ls)) "indexed_at"
               (VStr index_timestamp))
            "document_id" (VStr document_id)).
  change (make_action str_of index_name document_id (sanitized (VDict doc))
          = Some a) in Hmake.
  assert (Hnd : NoDup (keys doc)).
  { unfold doc. repeat apply NoDup_keys_dict_set.
    apply (parse_ticket_data_NoDup json_loads doc0); [|exact Hparse].
    apply (copy_columns_NoDup cols row []); [constructor | exact Hcopy]. }
  assert (Hget : dict_get doc "labels" = Some (VList ls)).
  { unfold doc. rewrite !dict_get_set_other by discriminate.
    apply dict_get_set_same. }
  assert (Hout : dict_get
                   (sanitize_fields
                      (DocumentUtils.coerce_field
                         DocumentUtils.sanitize_document) doc [])
                   "labels"
                 = Some (VList (map sanitized ls))).
  { rewrite (sanitize_fields_of_distinct _ doc Hnd).
    clear - Hget. induction doc as [|[k0 v0] doc IH]; simpl in *.
    - discriminate.
    - destruct (String.eqb k0 "labels").
      + injection Hget as ->. rewrite coerce_list_field. reflexivity.
      + apply IH. exact Hget. }
  change (sanitized (VDict doc))
    with (VDict (sanitize_fields
                   (DocumentUtils.coerce_field DocumentUtils.sanitize_document)
                   doc [])) in Hmake.
  unfold make_action in Hmake.
  destruct (json_encodable _) in Hmake.
  - injection Hmake as <-. simpl.
    exists (map sanitized ls). split; [exact Hout | apply length_map].
  - destruct (json_roundtrip_default_str str_of _) as [r|] eqn:Hr in Hmake;
      [|discriminate].
    injection Hmake as <-. simpl a_source.
    simpl in Hr. bind_ok Hr fs Hfs. apply Ok_inj in Hr. subst r.
    destruct (map_result_fields_get _ _ _ _ _ Hfs Hout) as (y & Hy & Hgety).
    simpl in Hy. bind_ok Hy xs Hxs. apply Ok_inj in Hy. subst y.
    exists xs. split; [exact Hgety|].
    rewrite (map_result_length _ _ _ Hxs). apply length_map.
Qed.

(** X12. A queued ticket document carries one entry in [labels] for each
    label row of its ticket: the number of entries equals the number of
    rows of the label frame whose [ticketId] is the ticket's id (no rows
    at all when the pass has no label frame). *)
Theorem ticket_document_label_count (json_loads : string -> result value)
    (str_of : value -> result string) (index_name : string)
    (cols : list string) (inp : pass_input) (g : label_groups)
    (row : dict) (a : action) (raw : value) :
  pass_labels inp = Ok g ->
  ticket_action json_loads str_of index_name cols g (utcnow_isoformat inp) row
  = Ok (Some a) ->
  dict_get row "ticket_id" = Some raw ->
  exists entries,
    doc_field (a_source a) "labels" = Some (VList entries) /\
    List.length entries
    = List.length
        (filter (label_row_of (normalize_id raw)) (label_rows_of inp)).
Proof.
  intros Hg Hact Hrow.
  destruct (ticket_action_labels _ _ _ _ _ _ _ _ _ Hact Hrow)
    as (entries & Hfield & Hlen).
  exists entries. split; [exact Hfield|]. rewrite Hlen.
  unfold pass_labels, label_rows_of in *.
  destruct (df_labels inp) as [df|].
  - destruct (add_label_rows_groups (rows df) [] g (normalize_id raw) Hg)
      as (docs & Hdocs & Hget).
    rewrite Hget, <- (map_result_length _ _ _ Hdocs).
    destruct docs; reflexivity.
  - apply Ok_inj in Hg. subst g. reflexivity.
Qed.

(** Ticket A of the sample frame carries its two labels. *)
Lemma ticket_document_label_count_sample :
  exists entries,
    doc_field (a_source sample_action_A) "labels" = Some (VList entries) /\
    List.length entries
    = List.length
        (filter (label_row_of (normalize_id (VStr "A")))
           (label_rows_of sample_ticket_input)).
Proof.
  apply (ticket_document_label_count sample_json_loads sample_str_of
           "data_lake_denormalized_tickets" (columns sample_tickets)
           sample_ticket_input sample_label_groups sample_row_A
           sample_action_A (VStr "A")); reflexivity.
Defined.

(** ** The older ticket pass and the orchestrators *)

(** X13. In the older [ticket_sync.py] every batch that queued a document
    goes through the one-by-one loop: the bulk call at line 503 names
    [helpers], which the module never binds, so it raises before the store
    is reached and the [except] indexes the actions one at a time.
    Whatever the refresh would do, the outcome is that of the loop, which
    puts every action of the batch in exactly one of the two counters. *)
Theorem legacy_fallback_counts_every_action (es_state : Type)
    (es_refresh : es_state -> es_state * result unit)
    (es_index : es_state -> action -> es_state * result string)
    (st : es_state) (actions : list action) (successful failed : nat) :
  legacy_dispatch es_refresh es_index st actions successful failed
  = index_one_by_one es_index st actions successful failed /\
  let '(_, successful', failed') :=
    legacy_dispatch es_refresh es_index st actions successful failed in
  successful' + failed' = successful + failed + List.length actions.
Proof.
  assert (Hloop : legacy_dispatch es_refresh es_index st actions successful
                    failed
                  = index_one_by_one es_index st actions successful failed)
    by (destruct actions; reflexivity).
  split; [exact Hloop|]. rewrite Hloop. apply index_one_by_one_counts.
Qed.

(** Two actions and a store that takes each one. *)
Lemma legacy_fallback_counts_every_action_sample :
  legacy_dispatch raising_refresh creating_index tt
    [sample_action_A; sample_action_B] 3 1
  = (tt, 5, 1) /\
  let '(_, successful', failed') :=
    legacy_dispatch raising_refresh creating_index tt
      [sample_action_A; sample_action_B] 3 1 in
  successful' + failed' = 3 + 1 + 2.
Proof.
  exact (legacy_fallback_counts_every_action unit raising_refresh
           creating_index tt [sample_action_A; sample_action_B] 3 1).
Defined.

(** X15. A run of [sync_all_tables] of [src/data_sync.py] ends in one of
    two ways.  Either all five passes were entered, in the fixed order,
    and the log is the start line followed by the completion line; or the
    passes entered are the first [n] of that order ([n] from 1 to 5), the
    last of them raised, and the log is the start line followed by one
    error line.  The completion line and the error line never both
    appear. *)
Theorem sync_all_tables_outcomes (world : Type)
    (run_pass : entity_kind -> world -> world * result unit) (w : world) :
  (attempted (sync_all_tables run_pass w) = pass_order /\
   run_log (sync_all_tables run_pass w)
   = [LogInfo "Starting data sync"; LogInfo "Completed data sync"])
  \/
  (exists n e,
      1 <= n <= 5 /\
      attempted (sync_all_tables run_pass w) = firstn n pass_order /\
      run_log (sync_all_tables run_pass w)
      = [LogInfo "Starting data sync"; LogError "Error during data sync" e]).
Proof.
  unfold sync_all_tables, and_then, call_pass, log_info, pass_order. simpl.
  repeat match goal with
         | |- context [run_pass ?k ?w0] =>
             destruct (run_pass k w0) as [? [[]|?]]; simpl
         end;
    first [ left; split; reflexivity
          | right; exists 1; eexists; split; [lia|split; reflexivity]
          | right; exists 2; eexists; split; [lia|split; reflexivity]
          | right; exists 3; eexists; split; [lia|split; reflexivity]
          | right; exists 4; eexists; split; [lia|split; reflexivity]
          | right; exists 5; eexists; split; [lia|split; reflexivity] ].
Qed.

Lemma sync_one_table_fold (world : Type)
    (sync_table : string -> world -> world * result unit)
    (tables : list string) (s : table_run world) :
  t_attempted (fold_left (sync_one_table world sync_table) tables s)
  = t_attempted s ++ tables /\
  List.length (t_log (fold_left (sync_one_table world sync_table) tables s))
  = List.length (t_log s) + 2 * List.length tables.
Proof.
  revert s. induction tables as [|t tables IH]; simpl; intros s.
  - rewrite app_nil_r. split; [reflexivity | lia].
  - destruct (IH (sync_one_table world sync_table s t)) as [Ha Hl].
    rewrite Ha, Hl. unfold sync_one_table.
    destruct (sync_table t (t_world s)) as [w' [u|e]]; simpl;
      rewrite <- app_assoc, length_app; simpl; split; try reflexivity; lia.
Qed.

(** X16. The loop of the top-level [data_lake_sync.py] has a [try] of its
    own around each table: every table of the list is entered, in order,
    whatever the earlier ones did, and each adds two lines to the log (its
    start line, then its completion or error line). *)
Theorem legacy_sync_all_tables_enters_every_table (world : Type)
    (sync_table : string -> world -> world * result unit)
    (tables : list string) (w : world) :
  t_attempted (legacy_sync_all_tables sync_table tables w) = tables /\
  List.length (t_log (legacy_sync_all_tables sync_table tables w))
  = 1 + 2 * List.length tables.
Proof.
  unfold legacy_sync_all_tables.
  destruct (sync_one_table_fold world sync_table tables
              (mkTableRun w [] [LogInfo "Found tables to sync"])) as [Ha Hl].
  rewrite Ha, Hl. split; reflexivity.
Qed.

(** ** The entity preparation *)

Lemma string_app_inv (p a b : string) :
  (p ++ a)%string = (p ++ b)%string -> a = b.
Proof.
  induction p as [|c p IH]; simpl; intros H.
  - exact H.
  - injection H as H. auto.
Qed.

Lemma dict_get_None_notin (d : dict) (k : string) :
  dict_get d k = None -> ~ In k (keys d).
Proof.
  induction d as [|[k0 v0] d IH]; simpl; [tauto|].
  destruct (String.eqb k0 k) eqn:E; [discriminate|].
  apply String.eqb_neq in E. intros H [Heq|Hin]; [contradiction|].
  exact (IH H Hin).
Qed.

Lemma dict_get_Some_in (d : dict) (k : string) (v : value) :
  dict_get d k = Some v -> In k (keys d).
Proof.
  intros H. apply dict_get_In in H.
  change k with (fst (k, v)). apply in_map. exact H.
Qed.

Lemma set_if_absent_keys (d : dict) (k : string) (v : value) :
  keys (set_if_absent d k v) = keys d ++ (if has_key d k then [] else [k]).
Proof.
  unfold set_if_absent, has_key. destruct (dict_get d k) eqn:E.
  - rewrite app_nil_r. reflexivity.
  - rewrite dict_set_fresh by (apply dict_get_None_notin; exact E).
    unfold keys. rewrite map_app. reflexivity.
Qed.

Lemma set_if_absent_get (d : dict) (k k' : string) (v : value) :
  dict_get (set_if_absent d k v) k'
  = if String.eqb k k'
    then Some (match dict_get d k with
               | Some x => x
               | None => v
               end)
    else dict_get d k'.
Proof.
  unfold set_if_absent. destruct (dict_get d k) eqn:E.
  - destruct (String.eqb k k') eqn:E'; [|reflexivity].
    apply String.eqb_eq in E'. subst k'. exact E.
  - apply dict_get_set.
Qed.

Lemma set_if_absent_get_other (d : dict) (k k' : string) (v : value) :
  k <> k' -> dict_get (set_if_absent d k v) k' = dict_get d k'.
Proof.
  intros Hne. rewrite set_if_absent_get.
  destruct (String.eqb k k') eqn:E; [|reflexivity].
  apply String.eqb_eq in E. contradiction.
Qed.

Lemma set_if_absent_get_same (d : dict) (k : string) (v : value) :
  dict_get (set_if_absent d k v) k
  = Some (match dict_get d k with
          | Some x => x
          | None => v
          end).
Proof. rewrite set_if_absent_get, String.eqb_refl. reflexivity. Qed.

Lemma set_if_absent_NoDup (d : dict) (k : string) (v : value) :
  NoDup (keys d) -> NoDup (keys (set_if_absent d k v)).
Proof.
  intros H. unfold set_if_absent.
  destruct (dict_get d k); [exact H | apply NoDup_keys_dict_set; exact H].
Qed.

Lemma fields_not_in_dict (d : dict) (fields : list string) :
  fields_not_in (VDict d) fields
  = Ok (filter (fun field => negb (has_key d field)) fields).
Proof.
  induction fields as [|field fields IH]; simpl.
  - reflexivity.
  - rewrite IH. simpl. destruct (has_key d field); reflexivity.
Qed.

Lemma utils_sanitize_document_dict (d : dict) :
  Utils.sanitize_document (VDict d)
  = Ok (VDict (sanitize_fields (Utils.coerce_field Utils.sanitize_document)
                 d [])).
Proof. reflexivity. Qed.

Lemma utils_sanitize_document_returns (x : value) :
  exists y, Utils.sanitize_document x = Ok y.
Proof. destruct x; eexists; reflexivity. Qed.

Ltac default_keys_differ :=
  let H := fresh in
  intros H; apply string_app_inv in H; discriminate H.

(** What [complete_entity] leaves in [entity_data]. *)
Lemma complete_entity_shape (json_loads : string -> result value)
    (new_uuid current_time : string) (d : dict) (entity_type : string) :
  NoDup (keys d) ->
  exists d',
    fst (complete_entity json_loads new_uuid current_time d entity_type)
    = VDict d' /\
    NoDup (keys d') /\
    keys d'
    = keys d
      ++ filter (fun k => negb (has_key d k)) (default_fields entity_type) /\
    dict_get d' (entity_type ++ "_id")
    = Some (match dict_get d (entity_type ++ "_id") with
            | Some x => x
            | None => VStr new_uuid
            end) /\
    dict_get d' (entity_type ++ "_createdAt")
    = Some (match dict_get d (entity_type ++ "_createdAt") with
            | Some x => x
            | None => VStr current_time
            end) /\
    dict_get d' (entity_type ++ "_updatedAt")
    = Some (match dict_get d (entity_type ++ "_updatedAt") with
            | Some x => x
            | None => VStr current_time
            end) /\
    (forall k, k <> (entity_type ++ "_data")%string ->
               has_key d' k
               = has_key d k || existsb (String.eqb k)
                                  (default_fields entity_type)) /\
    (snd (complete_entity json_loads new_uuid current_time d entity_type)
     = Ok (Some (VDict (sanitize_fields
                          (Utils.coerce_field Utils.sanitize_document) d' [])),
           []) \/
     exists e,
       snd (complete_entity json_loads new_uuid current_time d entity_type)
       = Raise e) /\
    (data_field_parses json_loads d entity_type ->
     snd (complete_entity json_loads new_uuid current_time d entity_type)
     = Ok (Some (VDict (sanitize_fields
                          (Utils.coerce_field Utils.sanitize_document) d' [])),
           [])).
Proof.
  intros Hnd. unfold complete_entity, data_field_parses.
  pose (d1 := set_if_absent d (entity_type ++ "_id") (VStr new_uuid)).
  pose (d2 := set_if_absent d1 (entity_type ++ "_createdAt")
                (VStr current_time)).
  pose (d3 := set_if_absent d2 (entity_type ++ "_updatedAt")
                (VStr current_time)).
  fold d1. fold d2. fold d3.
  assert (Hnd3 : NoDup (keys d3))
    by (unfold d3, d2, d1; repeat apply set_if_absent_NoDup; exact Hnd).
  assert (Hkeys : keys d3
                  = keys d ++ filter (fun k => negb (has_key d k))
                                (default_fields entity_type)).
  { unfold d3. rewrite set_if_absent_keys. unfold d2 at 1.
    rewrite set_if_absent_keys. unfold d1 at 1. rewrite set_if_absent_keys.
    unfold has_key, d2, d1.
    rewrite !set_if_absent_get_other by default_keys_differ.
    unfold default_fields. simpl. unfold has_key.
    rewrite <- !app_assoc.
    destruct (dict_get d (entity_type ++ "_id"));
      destruct (dict_get d (entity_type ++ "_createdAt"));
      destruct (dict_get d (entity_type ++ "_updatedAt")); reflexivity. }
  assert (Hid : dict_get d3 (entity_type ++ "_id")
                = Some (match dict_get d (entity_type ++ "_id") with
                        | Some x => x
                        | None => VStr new_uuid
                        end)).
  { unfold d3, d2. rewrite !set_if_absent_get_other by default_keys_differ.
    apply set_if_absent_get_same. }
  assert (Hcreated : dict_get d3 (entity_type ++ "_createdAt")
                     = Some (match dict_get d (entity_type ++ "_createdAt")
                             with
                             | Some x => x
                             | None => VStr current_time
                             end)).
  { unfold d3. rewrite set_if_absent_get_other by default_keys_differ.
    unfold d2. rewrite set_if_absent_get_same. unfold d1.
    rewrite set_if_absent_get_other by default_keys_differ. reflexivity. }
  assert (Hupdated : dict_get d3 (entity_type ++ "_updatedAt")
                     = Some (match dict_get d (entity_type ++ "_updatedAt")
                             with
                             | Some x => x
                             | None => VStr current_time
                             end)).
  { unfold d3. rewrite set_if_absent_get_same. unfold d2, d1.
    rewrite !set_if_absent_get_other by default_keys_differ. reflexivity. }
  assert (Hhas : forall k,
             has_key d3 k
             = has_key d k || existsb (String.eqb k)
                                (default_fields entity_type)).
  { intros k. unfold has_key, d3, d2, d1, default_fields. simpl.
    rewrite !set_if_absent_get, !(String.eqb_sym k).
    destruct (String.eqb (entity_type ++ "_id") k);
      destruct (String.eqb (entity_type ++ "_createdAt") k);
      destruct (String.eqb (entity_type ++ "_updatedAt") k);
      destruct (dict_get d k); reflexivity. }
  assert (Hdata : dict_get d3 (entity_type ++ "_data")
                  = dict_get d (entity_type ++ "_data")).
  { unfold d3, d2, d1.
    rewrite !set_if_absent_get_other by default_keys_differ. reflexivity. }
  assert (Hplain :
            exists d',
              fst (sanitized_entity d3) = VDict d' /\
              NoDup (keys d') /\
              keys d'
              = keys d ++ filter (fun k => negb (has_key d k))
                            (default_fields entity_type) /\
              dict_get d' (entity_type ++ "_id")
              = Some (match dict_get d (entity_type ++ "_id") with
                      | Some x => x
                      | None => VStr new_uuid
                      end) /\
              dict_get d' (entity_type ++ "_createdAt")
              = Some (match dict_get d (entity_type ++ "_createdAt") with
                      | Some x => x
                      | None => VStr current_time
                      end) /\
              dict_get d' (entity_type ++ "_updatedAt")
              = Some (match dict_get d (entity_type ++ "_updatedAt") with
                      | Some x => x
                      | None => VStr current_time
                      end) /\
              (forall k, k <> (entity_type ++ "_data")%string ->
                         has_key d' k
                         = has_key d k || existsb (String.eqb k)
                                            (default_fields entity_type)) /\
              snd (sanitized_entity d3)
              = Ok (Some (VDict (sanitize_fields
                                   (Utils.coerce_field
                                      Utils.sanitize_document) d' [])),
                    [])).
  { exists d3. repeat split; auto. }
  rewrite <- Hdata.
  destruct (dict_get d3 (entity_type ++ "_data")) as [x|] eqn:Eget;
    [|destruct Hplain as (d' & H1 & H2 & H3 & H4 & H5 & H6 & H7 & H8);
      exists d'; repeat split; auto].
  destruct x;
    try (destruct Hplain as (d' & H1 & H2 & H3 & H4 & H5 & H6 & H7 & H8);
         exists d'; repeat split; auto; fail).
  destruct (json_loads s) as [parsed|e] eqn:Eloads.
  - destruct (utils_sanitize_document_returns parsed) as (y & Hy).
    rewrite Hy.
    exists (dict_set d3 (entity_type ++ "_data") y).
    assert (Hin : In (entity_type ++ "_data")%string (keys d3))
      by (apply (dict_get_Some_in d3 _ (VStr s)); exact Eget).
    split; [reflexivity|].
    split; [apply NoDup_keys_dict_set; exact Hnd3|].
    split.
    { rewrite keys_dict_set.
      destruct (in_dec String.string_dec _ (keys d3)); [exact Hkeys|].
      contradiction. }
    rewrite !dict_get_set_other
      by (let H := fresh in
          intros H; apply string_app_inv in H; discriminate H).
    split; [exact Hid|]. split; [exact Hcreated|]. split; [exact Hupdated|].
    split; [|split; [left; reflexivity | reflexivity]].
    intros k Hk. rewrite <- Hhas. unfold has_key.
    rewrite dict_get_set_other by (intros Heq; apply Hk; symmetry; exact Heq).
    reflexivity.
  - exists d3.
    assert (Hfst : fst (match e with
                        | JSONDecodeError => sanitized_entity d3
                        | _ => (VDict d3, Raise e)
                        end
                        : value * result (option value * list string))
                   = VDict d3)
      by (destruct e; reflexivity).
    split; [exact Hfst|]. repeat split; auto.
    + destruct e; try (right; eexists; reflexivity). left. reflexivity.
    + intros ->. reflexivity.
Qed.

Lemma filter_absent_nil (d : dict) (fields : list string) :
  (forall f, In f fields -> has_key d f = true) ->
  filter (fun field => negb (has_key d field)) fields = [].
Proof.
  induction fields as [|f fields IH]; simpl; intros H; [reflexivity|].
  rewrite (H f (or_introl eq_refl)). simpl. apply IH.
  intros g Hg. apply H. right. exact Hg.
Qed.

Lemma utils_sanitized_keys (d : dict) :
  NoDup (keys d) ->
  keys (sanitize_fields (Utils.coerce_field Utils.sanitize_document) d [])
  = keys d.
Proof.
  intros Hnd. rewrite (sanitize_fields_of_distinct _ d Hnd).
  unfold keys. rewrite map_map. reflexivity.
Qed.

Lemma utils_sanitized_get (d : dict) (k : string) (v : value) :
  NoDup (keys d) -> dict_get d k = Some v ->
  dict_get (sanitize_fields (Utils.coerce_field Utils.sanitize_document) d [])
    k
  = Some (utils_field_value v).
Proof.
  intros Hnd Hget.
  exact (sanitize_fields_get _ d [] k v Hnd (dict_get_In _ _ _ Hget)).
Qed.

(** X17. Given a dict that has the fields required for its entity type
    (and whose data field, when it is text, [json.loads] parses or
    rejects as invalid JSON), [prepare_entity_data] returns a document and
    no missing field.  The document has the keys of the dict in their
    order, followed by those of [<type>_id], [<type>_createdAt] and
    [<type>_updatedAt] that the dict lacked; a value supplied for one of
    the three is kept (sanitized), and only an absent one gets the new
    UUID or the current time. *)
Theorem prepare_entity_data_fills_defaults
    (json_loads : string -> result value) (new_uuid current_time : string)
    (d : dict) (entity_type : string) :
  NoDup (keys d) ->
  (forall f, In f (entity_required_fields entity_type) -> has_key d f = true) ->
  data_field_parses json_loads d entity_type ->
  exists d' out,
    prepare_entity_data json_loads new_uuid current_time (VDict d) entity_type
    = (VDict d', Ok (Some (VDict out), [])) /\
    keys out
    = keys d
      ++ filter (fun k => negb (has_key d k)) (default_fields entity_type) /\
    dict_get out (entity_type ++ "_id")
    = Some (match dict_get d (entity_type ++ "_id") with
            | Some x => utils_field_value x
            | None => VStr new_uuid
            end) /\
    dict_get out (entity_type ++ "_createdAt")
    = Some (match dict_get d (entity_type ++ "_createdAt") with
            | Some x => utils_field_value x
            | None => VStr current_time
            end) /\
    dict_get out (entity_type ++ "_updatedAt")
    = Some (match dict_get d (entity_type ++ "_updatedAt") with
            | Some x => utils_field_value x
            | None => VStr current_time
            end).
Proof.
  intros Hnd Hrequired Hparses.
  destruct (complete_entity_shape json_loads new_uuid current_time d
              entity_type Hnd)
    as (d' & Hfst & Hnd' & Hkeys & Hid & Hcreated & Hupdated & _ & _ & Hsnd).
  specialize (Hsnd Hparses).
  exists d'. eexists. split.
  - unfold prepare_entity_data.
    rewrite fields_not_in_dict, (filter_absent_nil _ _ Hrequired).
    rewrite (surjective_pairing (complete_entity _ _ _ _ _)), Hfst, Hsnd.
    reflexivity.
  - split; [rewrite (utils_sanitized_keys d' Hnd'); exact Hkeys|].
    rewrite (utils_sanitized_get d' _ _ Hnd' Hid),
      (utils_sanitized_get d' _ _ Hnd' Hcreated),
      (utils_sanitized_get d' _ _ Hnd' Hupdated).
    repeat split; f_equal;
      match goal with
      | |- context [dict_get d ?k] => destruct (dict_get d k); reflexivity
      end.
Qed.

(** The sample payload has its number and no id. *)
Lemma prepare_entity_data_fills_defaults_sample :
  exists d' out,
    prepare_entity_data sample_json_loads (sample_uuid4 0) (sample_now 0)
      (VDict sample_payload) "ticket"
    = (VDict d', Ok (Some (VDict out), [])) /\
    keys out
    = keys sample_payload
      ++ filter (fun k => negb (has_key sample_payload k))
           (default_fields "ticket") /\
    dict_get out ("ticket" ++ "_id")
    = Some (match dict_get sample_payload ("ticket" ++ "_id") with
            | Some x => utils_field_value x
            | None => VStr (sample_uuid4 0)
            end) /\
    dict_get out ("ticket" ++ "_createdAt")
    = Some (match dict_get sample_payload ("ticket" ++ "_createdAt") with
            | Some x => utils_field_value x
            | None => VStr (sample_now 0)
            end) /\
    dict_get out ("ticket" ++ "_updatedAt")
    = Some (match dict_get sample_payload ("ticket" ++ "_updatedAt") with
            | Some x => utils_field_value x
            | None => VStr (sample_now 0)
            end).
Proof.
  apply prepare_entity_data_fills_defaults.
  - unfold sample_payload. distinct_keys.
  - intros f [<-|[]]. reflexivity.
  - vm_compute. exact I.
Defined.

(** X18. Given a dict that lacks a field required for its entity type,
    [prepare_entity_data] returns no document and the list of the required
    fields that are absent, and leaves the dict as it was: no id is
    generated and no timestamp is added. *)
Theorem prepare_entity_data_reports_missing_fields
    (json_loads : string -> result value) (new_uuid current_time : string)
    (d : dict) (entity_type field : string) :
  In field (entity_required_fields entity_type) ->
  has_key d field = false ->
  exists missing,
    prepare_entity_data json_loads new_uuid current_time (VDict d) entity_type
    = (VDict d, Ok (None, missing)) /\
    In field missing /\
    forall f, In f missing <->
              In f (entity_required_fields entity_type) /\ has_key d f = false.
Proof.
  intros Hrequired Habsent.
  pose (missing := filter (fun f => negb (has_key d f))
                     (entity_required_fields entity_type)).
  assert (Hin : In field missing).
  { apply filter_In. split; [exact Hrequired|]. rewrite Habsent. reflexivity. }
  exists missing. split; [|split; [exact Hin|]].
  - unfold prepare_entity_data. rewrite fields_not_in_dict. fold missing.
    destruct missing; [contradiction|reflexivity].
  - intros f. unfold missing. rewrite filter_In, negb_true_iff. tauto.
Qed.

(** A user without an e-mail address. *)
Lemma prepare_entity_data_reports_missing_fields_sample :
  exists missing,
    prepare_entity_data sample_json_loads (sample_uuid4 0) (sample_now 0)
      (VDict [("name", VStr "Ada")]) "user"
    = (VDict [("name", VStr "Ada")], Ok (None, missing)) /\
    In "email"%string missing /\
    forall f, In f missing <->
              In f (entity_required_fields "user") /\
              has_key [("name", VStr "Ada")] f = false.
Proof.
  apply prepare_entity_data_reports_missing_fields.
  - left. reflexivity.
  - reflexivity.
Defined.

(** ** The ticket routes *)

Lemma complete_entity_dict (json_loads : string -> result value)
    (new_uuid current_time : string) (d : dict) (entity_type : string) :
  exists d',
    fst (complete_entity json_loads new_uuid current_time d entity_type)
    = VDict d'.
Proof.
  unfold complete_entity, sanitized_entity.
  destruct (dict_get _ _) as [[]|]; try (eexists; reflexivity).
  destruct (json_loads s) as [parsed|[]]; try (eexists; reflexivity).
  destruct (Utils.sanitize_document parsed); eexists; reflexivity.
Qed.

Lemma prepare_entity_data_dict (json_loads : string -> result value)
    (new_uuid current_time : string) (d : dict) (entity_type : string) :
  exists d',
    fst (prepare_entity_data json_loads new_uuid current_time (VDict d)
           entity_type)
    = VDict d'.
Proof.
  unfold prepare_entity_data.
  destruct (fields_not_in (VDict d) _) as [[|f others]|e];
    try (eexists; reflexivity).
  apply complete_entity_dict.
Qed.

Lemma complete_non_dict_raises (x : value) (entity_type : string) :
  exists e, complete_non_dict x entity_type = Raise e.
Proof.
  unfold complete_non_dict.
  destruct (py_contains x (entity_type ++ "_id")) as [[]|e]; simpl;
    try (eexists; reflexivity).
  destruct (py_contains x (entity_type ++ "_createdAt")) as [[]|e]; simpl;
    try (eexists; reflexivity).
  destruct (py_contains x (entity_type ++ "_updatedAt")) as [[]|e]; simpl;
    eexists; reflexivity.
Qed.

(** What is not a dict never comes back with a document. *)
Lemma prepare_entity_data_non_dict (json_loads : string -> result value)
    (new_uuid current_time : string) (x : value) (entity_type : string) :
  is_dict x = false ->
  exists outcome,
    prepare_entity_data json_loads new_uuid current_time x entity_type
    = (x, outcome) /\
    match outcome with
    | Ok (_, []) => False
    | _ => True
    end.
Proof.
  intros Hx. unfold prepare_entity_data.
  destruct (fields_not_in x _) as [[|f others]|e].
  - destruct (complete_non_dict_raises x entity_type) as (e & He).
    exists (Raise e).
    destruct x; try discriminate; rewrite He; split; auto.
  - eexists. split; [reflexivity|]. exact I.
  - eexists. split; [reflexivity|]. exact I.
Qed.

Section RouteFacts.

Variable json_loads : string -> result value.
Variable uuid4 : nat -> string.
Variable now_isoformat : nat -> string.
Variable str_of_exn : exn -> string.
Variable index_prefix : string.
Variable es_state : Type.
Variable es_index :
  es_state -> string -> value -> value -> es_state * result value.
Variable es_refresh : es_state -> string -> es_state * result unit.

Lemma batch_entry_non_dict (position : nat) (st : es_state) (x : value) :
  is_dict x = false ->
  batch_entry json_loads uuid4 now_isoformat str_of_exn index_prefix es_index
    position st x
  = (st, Raise (OtherError "AttributeError")).
Proof.
  intros Hx. unfold batch_entry.
  destruct (prepare_entity_data_non_dict json_loads (uuid4 position)
              (now_isoformat position) x "ticket" Hx)
    as (outcome & -> & Hout).
  assert (Herr : forall message,
             error_entry x message = Raise (OtherError "AttributeError"))
    by (intros message; destruct x; try discriminate; reflexivity).
  destruct outcome as [[[doc|] [|f others]]|e]; try contradiction;
    rewrite Herr; reflexivity.
Qed.

Lemma batch_entry_dict (position : nat) (st : es_state) (d : dict) :
  exists st' stored entry,
    batch_entry json_loads uuid4 now_isoformat str_of_exn index_prefix
      es_index position st (VDict d)
    = (st', Ok (stored, entry)).
Proof.
  unfold batch_entry.
  destruct (prepare_entity_data_dict json_loads (uuid4 position)
              (now_isoformat position) d "ticket") as (d' & Hd').
  destruct (prepare_entity_data _ _ _ _ _) as [entity_data prepared].
  simpl in Hd'. subst entity_data.
  destruct prepared as [[[doc|] [|f others]]|e];
    try (do 3 eexists; reflexivity).
  destruct (py_getitem doc "ticket_id") as [ticket_id|e];
    try (do 3 eexists; reflexivity).
  destruct (es_index st _ ticket_id doc) as [st' [answer|e]];
    do 3 eexists; reflexivity.
Qed.

Lemma batch_loop_of_dicts (items : list value) (position : nat)
    (st : es_state) (successful failed : nat) (results : list value) :
  forallb is_dict items = true ->
  exists st' successful' failed' results',
    batch_loop json_loads uuid4 now_isoformat str_of_exn index_prefix es_index
      items position st successful failed results
    = (st', Ok (successful', failed', results')) /\
    successful' + failed' = successful + failed + List.length items /\
    List.length results' = List.length results + List.length items.
Proof.
  revert position st successful failed results.
  induction items as [|x items IH]; simpl;
    intros position st successful failed results Hall.
  - do 4 eexists. split; [reflexivity|]. split; lia.
  - apply andb_true_iff in Hall. destruct Hall as [Hx Hall].
    destruct x; try discriminate.
    destruct (batch_entry_dict position st fields)
      as (st' & stored & entry & ->).
    destruct stored.
    + destruct (IH (S position) st' (S successful) failed (results ++ [entry])
                  Hall) as (st2 & s2 & f2 & r2 & -> & Hsum & Hlen).
      do 4 eexists. split; [reflexivity|].
      rewrite length_app in Hlen. simpl in Hlen. split; lia.
    + destruct (IH (S position) st' successful (S failed) (results ++ [entry])
                  Hall) as (st2 & s2 & f2 & r2 & -> & Hsum & Hlen).
      do 4 eexists. split; [reflexivity|].
      rewrite length_app in Hlen. simpl in Hlen. split; lia.
Qed.

Lemma batch_loop_non_dict (items : list value) (position : nat)
    (st : es_state) (successful failed : nat) (results : list value) :
  existsb (fun x => negb (is_dict x)) items = true ->
  exists st',
    batch_loop json_loads uuid4 now_isoformat str_of_exn index_prefix es_index
      items position st successful failed results
    = (st', Raise (OtherError "AttributeError")).
Proof.
  revert position st successful failed results.
  induction items as [|x items IH]; simpl;
    intros position st successful failed results Hex; [discriminate|].
  destruct (is_dict x) eqn:Hx; simpl in Hex.
  - destruct x; try discriminate.
    destruct (batch_entry_dict position st fields)
      as (st' & stored & entry & ->).
    destruct stored; apply IH; exact Hex.
  - rewrite (batch_entry_non_dict position st x Hx).
    eexists. reflexivity.
Qed.

End RouteFacts.

(** X19. [add_tickets_batch] answers a batch of dicts with one entry of
    [results] per ticket and with [successful + failed] equal to the size
    of the batch, provided the final refresh returns; the status is 200
    when no ticket failed and 207 otherwise. *)
Theorem add_tickets_batch_accounts_for_every_ticket
    (json_loads : string -> result value) (uuid4 now_isoformat : nat -> string)
    (str_of_exn : exn -> string) (index_prefix : string) (es_state : Type)
    (es_index : es_state -> string -> value -> value
                -> es_state * result value)
    (es_refresh : es_state -> string -> es_state * result unit)
    (items : list value) (st : es_state) :
  items <> [] ->
  forallb is_dict items = true ->
  (forall st1 index_name,
      exists st2 u, es_refresh st1 index_name = (st2, Ok u)) ->
  exists st' successful failed results,
    add_tickets_batch json_loads uuid4 now_isoformat str_of_exn index_prefix
      es_index es_refresh (VList items) st
    = (st',
       mkResponse (if Nat.eqb failed 0 then 200 else 207)
         (VDict [("status", VStr "completed");
                 ("successful", VInt (Z.of_nat successful));
                 ("failed", VInt (Z.of_nat failed));
                 ("results", VList results)])) /\
    successful + failed = List.length items /\
    List.length results = List.length items.
Proof.
  intros Hne Hall Hrefresh. unfold add_tickets_batch.
  destruct items as [|x items]; [contradiction|].
  change (negb (json_truth (VList (x :: items)))
          || negb (is_list (VList (x :: items)))) with false.
  change (Nat.eqb (List.length (list_items (VList (x :: items)))) 0)
    with false.
  cbv iota. change (list_items (VList (x :: items))) with (x :: items).
  destruct (batch_loop_of_dicts json_loads uuid4 now_isoformat str_of_exn
              index_prefix es_state es_index (x :: items) 0 st 0 0 [] Hall)
    as (st1 & successful & failed & results & -> & Hsum & Hlen).
  destruct (Hrefresh st1 (get_index_name index_prefix "denormalized_tickets"))
    as (st2 & u & ->).
  exists st2, successful, failed, results.
  split; [reflexivity|]. split; [exact Hsum | exact Hlen].
Qed.

(** A batch of two: one ticket stored, one without its number. *)
Lemma add_tickets_batch_accounts_for_every_ticket_sample :
  exists st' successful failed results,
    add_tickets_batch sample_json_loads sample_uuid4 sample_now
      sample_str_of_exn "data_lake_" sample_es_index sample_es_refresh
      (VList sample_batch) tt
    = (st',
       mkResponse (if Nat.eqb failed 0 then 200 else 207)
         (VDict [("status", VStr "completed");
                 ("successful", VInt (Z.of_nat successful));
                 ("failed", VInt (Z.of_nat failed));
                 ("results", VList results)])) /\
    successful + failed = List.length sample_batch /\
    List.length results = List.length sample_batch.
Proof.
  apply add_tickets_batch_accounts_for_every_ticket.
  - discriminate.
  - reflexivity.
  - intros st1 index_name. exists st1, tt. reflexivity.
Defined.

(** X20. One entry that is not a dict makes [add_tickets_batch] answer 500
    for the whole batch: the [except] clause of the loop calls
    [ticket_data.get], which such an entry does not have, so the
    [AttributeError] leaves the loop. *)
Theorem add_tickets_batch_rejects_non_dict_entry
    (json_loads : string -> result value) (uuid4 now_isoformat : nat -> string)
    (str_of_exn : exn -> string) (index_prefix : string) (es_state : Type)
    (es_index : es_state -> string -> value -> value
                -> es_state * result value)
    (es_refresh : es_state -> string -> es_state * result unit)
    (items : list value) (st : es_state) :
  existsb (fun x => negb (is_dict x)) items = true ->
  exists st',
    add_tickets_batch json_loads uuid4 now_isoformat str_of_exn index_prefix
      es_index es_refresh (VList items) st
    = (st',
       mkResponse 500
         (VDict [("error", VStr (str_of_exn (OtherError "AttributeError")))])).
Proof.
  intros Hex. unfold add_tickets_batch.
  destruct items as [|x items]; [discriminate|].
  change (negb (json_truth (VList (x :: items)))
          || negb (is_list (VList (x :: items)))) with false.
  change (Nat.eqb (List.length (list_items (VList (x :: items)))) 0)
    with false.
  cbv iota. change (list_items (VList (x :: items))) with (x :: items).
  destruct (batch_loop_non_dict json_loads uuid4 now_isoformat str_of_exn
              index_prefix es_state es_index (x :: items) 0 st 0 0 [] Hex)
    as (st1 & ->).
  exists st1. reflexivity.
Qed.

(** A ticket followed by a number. *)
Lemma add_tickets_batch_rejects_non_dict_entry_sample :
  exists st',
    add_tickets_batch sample_json_loads sample_uuid4 sample_now
      sample_str_of_exn "data_lake_" sample_es_index sample_es_refresh
      (VList [VDict sample_payload; VInt 7]) tt
    = (st',
       mkResponse 500
         (VDict [("error",
                  VStr (sample_str_of_exn (OtherError "AttributeError")))])).
Proof.
  apply add_tickets_batch_rejects_non_dict_entry. reflexivity.
Defined.

(** X21. [add_tickets_batch] never answers with the empty-batch success
    [{"status": "success", "count": 0}]: an empty list is falsy, so it is
    refused with 400 by the test before, like every body that is not a
    list, and the store is not touched. *)
Theorem add_tickets_batch_never_reports_empty_batch
    (json_loads : string -> result value) (uuid4 now_isoformat : nat -> string)
    (str_of_exn : exn -> string) (index_prefix : string) (es_state : Type)
    (es_index : es_state -> string -> value -> value
                -> es_state * result value)
    (es_refresh : es_state -> string -> es_state * result unit)
    (batch_data : value) (st : es_state) :
  body (snd (add_tickets_batch json_loads uuid4 now_isoformat str_of_exn
               index_prefix es_index es_refresh batch_data st))
  <> VDict [("status", VStr "success"); ("count", VInt 0)] /\
  add_tickets_batch json_loads uuid4 now_isoformat str_of_exn index_prefix
    es_index es_refresh (VList []) st
  = (st,
     mkResponse 400
       (VDict [("error",
                VStr "Invalid batch format - must be a list of ticket objects")])).
Proof.
  unfold add_tickets_batch. split.
  - destruct (negb (json_truth batch_data) || negb (is_list batch_data))
      eqn:Hguard; [simpl; discriminate|].
    apply orb_false_iff in Hguard. destruct Hguard as [Htruth Hlist].
    destruct batch_data; try discriminate.
    destruct items as [|x items]; [discriminate|].
    change (Nat.eqb (List.length (list_items (VList (x :: items)))) 0)
      with false.
    cbv iota.
    destruct (batch_loop _ _ _ _ _ _ _ _ _ _ _ _) as [st1 [[[s f] r]|e]].
    + destruct (es_refresh st1 _) as [st2 [u|e]]; simpl; try discriminate.
      destruct e; simpl; discriminate.
    + destruct e; simpl; discriminate.
  - reflexivity.
Qed.

(** X22. [add_ticket] answers 201 only for a payload that has its
    [ticket_number], and the [ticket_id] it reports is the one the payload
    supplied (as sanitized), or the UUID generated during the call when
    the payload had none. *)
Theorem add_ticket_created_reports_id
    (json_loads : string -> result value) (uuid4 now_isoformat : nat -> string)
    (str_of_exn : exn -> string) (index_prefix : string) (es_state : Type)
    (es_index : es_state -> string -> value -> value
                -> es_state * result value)
    (d : dict) (st st' : es_state) (answer : value) :
  NoDup (keys d) ->
  add_ticket json_loads uuid4 now_isoformat str_of_exn index_prefix es_index
    (VDict d) st
  = (st', mkResponse 201 answer) ->
  has_key d "ticket_number" = true /\
  doc_field answer "status" = Some (VStr "success") /\
  doc_field answer "ticket_id"
  = Some (match dict_get d "ticket_id" with
          | Some x => utils_field_value x
          | None => VStr (uuid4 0)
          end).
Proof.
  intros Hnd. unfold add_ticket.
  destruct (negb (json_truth (VDict d))); [discriminate|].
  unfold prepare_entity_data. rewrite fields_not_in_dict.
  change (entity_required_fields "ticket") with ["ticket_number"%string].
  simpl filter.
  destruct (has_key d "ticket_number"); simpl negb; cbv iota;
    [|discriminate].
  destruct (complete_entity_shape json_loads (uuid4 0) (now_isoformat 0) d
              "ticket" Hnd)
    as (d' & Hfst & Hnd' & _ & Hid & _ & _ & _ & Hsnd & _).
  destruct (complete_entity json_loads (uuid4 0) (now_isoformat 0) d "ticket")
    as [entity_data prepared].
  simpl in Hfst, Hsnd. subst entity_data.
  destruct Hsnd as [->|(e & ->)].
  - unfold py_getitem, row_getitem.
    change ("ticket" ++ "_id")%string with "ticket_id"%string in Hid.
    rewrite (utils_sanitized_get d' _ _ Hnd' Hid).
    destruct (es_index st _ _ _) as [st1 [result|e]].
    + intros H. injection H as _ <-. split; [reflexivity|].
      split; [reflexivity|]. simpl. f_equal.
      destruct (dict_get d "ticket_id"); reflexivity.
    + destruct e; discriminate.
  - destruct e; discriminate.
Qed.

(** The sample payload has no id: the answer carries the generated one. *)
Lemma add_ticket_created_reports_id_sample :
  has_key sample_payload "ticket_number" = true /\
  doc_field (body sample_add_ticket_response) "status"
  = Some (VStr "success") /\
  doc_field (body sample_add_ticket_response) "ticket_id"
  = Some (match dict_get sample_payload "ticket_id" with
          | Some x => utils_field_value x
          | None => VStr (sample_uuid4 0)
          end).
Proof.
  apply (add_ticket_created_reports_id sample_json_loads sample_uuid4
           sample_now sample_str_of_exn "data_lake_" unit sample_es_index
           sample_payload tt tt).
  - unfold sample_payload. distinct_keys.
  - reflexivity.
Defined.

(** X23. [add_ticket] refuses a payload without [ticket_number] with 400
    and the list of the missing fields, before anything is generated or
    stored. *)
Theorem add_ticket_requires_ticket_number
    (json_loads : string -> result value) (uuid4 now_isoformat : nat -> string)
    (str_of_exn : exn -> string) (index_prefix : string) (es_state : Type)
    (es_index : es_state -> string -> value -> value
                -> es_state * result value)
    (d : dict) (st : es_state) :
  d <> [] ->
  has_key d "ticket_number" = false ->
  add_ticket json_loads uuid4 now_isoformat str_of_exn index_prefix es_index
    (VDict d) st
  = (st,
     mkResponse 400
       (VDict [("error",
                VStr "Missing required fields: ['ticket_number']")])).
Proof.
  intros Hne Hnum. unfold add_ticket.
  destruct d as [|kv d]; [contradiction|].
  change (negb (json_truth (VDict (kv :: d)))) with false. cbv iota.
  unfold prepare_entity_data. rewrite fields_not_in_dict.
  change (entity_required_fields "ticket") with ["ticket_number"%string].
  simpl filter. rewrite Hnum. reflexivity.
Qed.

(** The payload without its number. *)
Lemma add_ticket_requires_ticket_number_sample :
  add_ticket sample_json_loads sample_uuid4 sample_now sample_str_of_exn
    "data_lake_" sample_es_index (VDict sample_payload_without_number) tt
  = (tt,
     mkResponse 400
       (VDict [("error",
                VStr "Missing required fields: ['ticket_number']")])).
Proof.
  apply add_ticket_requires_ticket_number.
  - discriminate.
  - reflexivity.
Defined.

(** ** The other passes of [src/data_sync.py] *)

Section EntityPassFacts.

Variable str_of : value -> result string.
Variable truthy : value -> result bool.
Variable es_state : Type.
Variable es_create_index : es_state -> string -> es_state * result unit.
Variable es_bulk :
  es_state -> list action -> bool -> es_state * result (nat * list value).
Variable select_by_id : list dict -> value -> result (list dict).

Lemma finish_document_spec (index_name index_timestamp id_text : string)
    (doc : dict) (a : action) :
  NoDup (keys doc) ->
  finish_document str_of index_name index_timestamp id_text doc
  = Ok (Some a) ->
  a_id a = (id_text ++ "_" ++ index_timestamp)%string /\
  a_index a = index_name /\
  historical_identity index_timestamp a.
Proof.
  unfold finish_document. intros Hnd H.
  bind_ok H sanitized_doc Hsan.
  rewrite sanitize_document_returns in Hsan.
  apply Ok_inj in Hsan. apply Ok_inj in H. subst sanitized_doc.
  apply queued_identity_fields in H; [|exact Hnd].
  destruct H as (Haid & Hidx & Hts & Hdoc).
  split; [exact Haid|]. split; [exact Hidx|]. split; assumption.
Qed.

Ltac fresh_document := repeat apply NoDup_keys_dict_set; constructor.

Lemma user_action_identity (index_name index_timestamp : string)
    (all_rows : list dict) (row : dict) (a : action) :
  In row all_rows ->
  user_action str_of index_name index_timestamp row = Ok (Some a) ->
  identity_from str_of "id" all_rows index_timestamp a.
Proof.
  unfold user_action. intros Hin H.
  bind_ok H raw Hraw. bind_ok H id_text Hid.
  apply finish_document_spec in H; [|fresh_document].
  destruct H as (Haid & _ & Hident).
  split; [exact Hident|]. exists row, raw, id_text.
  split; [exact Hin|]. split; [apply row_getitem_Ok; exact Hraw|].
  split; assumption.
Qed.

Lemma status_action_identity (index_name index_timestamp : string)
    (all_rows : list dict) (row : dict) (a : action) :
  In row all_rows ->
  status_action str_of truthy index_name index_timestamp row = Ok (Some a) ->
  identity_from str_of "id" all_rows index_timestamp a.
Proof.
  unfold status_action. intros Hin H.
  bind_ok H raw Hraw. bind_ok H id_text Hid. bind_ok H module_id Hmodule.
  apply finish_document_spec in H; [|fresh_document].
  destruct H as (Haid & _ & Hident).
  split; [exact Hident|]. exists row, raw, id_text.
  split; [exact Hin|]. split; [apply row_getitem_Ok; exact Hraw|].
  split; assumption.
Qed.

Lemma label_action_identity (index_name index_timestamp : string)
    (all_rows : list dict) (row : dict) (a : action) :
  In row all_rows ->
  label_action str_of truthy index_name index_timestamp row = Ok (Some a) ->
  identity_from str_of "id" all_rows index_timestamp a.
Proof.
  unfold label_action. intros Hin H.
  bind_ok H raw Hraw. bind_ok H id_text Hid. bind_ok H module_id Hmodule.
  apply finish_document_spec in H; [|fresh_document].
  destruct H as (Haid & _ & Hident).
  split; [exact Hident|]. exists row, raw, id_text.
  split; [exact Hin|]. split; [apply row_getitem_Ok; exact Hraw|].
  split; assumption.
Qed.

Lemma add_parent_module_NoDup (modules : list dict) (row doc doc' : dict) :
  add_parent_module str_of truthy select_by_id modules row doc = Ok doc' ->
  NoDup (keys doc) -> NoDup (keys doc').
Proof.
  unfold add_parent_module. intros H Hnd.
  bind_ok H t Ht. destruct t; [|apply Ok_inj in H; subst doc'; exact Hnd].
  bind_ok H parent_module Hsel.
  destruct parent_module as [|parent others];
    [apply Ok_inj in H; subst doc'; exact Hnd|].
  bind_ok H parent_text Htext. bind_ok H parent_name Hname.
  apply Ok_inj in H. subst doc'.
  repeat apply NoDup_keys_dict_set. exact Hnd.
Qed.

Lemma module_action_identity (modules : list dict)
    (statuses_by_module labels_by_module data_sources_by_module : label_groups)
    (index_name index_timestamp : string)
    (all_rows : list dict) (row : dict) (a : action) :
  In row all_rows ->
  module_action str_of truthy select_by_id modules statuses_by_module
    labels_by_module data_sources_by_module index_name index_timestamp row
  = Ok (Some a) ->
  identity_from str_of "id" all_rows index_timestamp a.
Proof.
  unfold module_action. intros Hin H.
  bind_ok H raw Hraw. bind_ok H id_text Hid.
  bind_ok H statuses Hstatuses. bind_ok H labels Hlabels.
  bind_ok H data_sources Hsources. bind_ok H doc Hparent.
  apply finish_document_spec in H;
    [|apply (add_parent_module_NoDup _ _ _ _ Hparent); fresh_document].
  destruct H as (Haid & _ & Hident).
  split; [exact Hident|]. exists row, raw, id_text.
  split; [exact Hin|]. split; [apply row_getitem_Ok; exact Hraw|].
  split; assumption.
Qed.

Lemma entity_pass_Some (suffix : string)
    (build : string -> string -> dict -> result (option action))
    (inp : pass_input) (st : es_state) (s : pass_state es_state) :
  entity_pass es_create_index es_bulk suffix build inp st = Ok (Some s) ->
  exists df st',
    df_main inp = Some df /\ rows df <> [] /\
    run_batches es_bulk
      (build (index_prefix inp ++ suffix)%string (utcnow_isoformat inp))
      (rows df) (configured_batch_size inp) st'
    = Ok s.
Proof.
  unfold entity_pass.
  destruct (es_create_index st _) as [st' created]. intros H.
  bind_ok H u Hcreated.
  destruct (df_main inp) as [df|]; [|discriminate].
  destruct (rows df) as [|row0 rest] eqn:Erows; [discriminate|].
  bind_ok H s' Hrun. apply Ok_inj in H. injection H as ->.
  exists df, st'. rewrite Erows.
  split; [reflexivity|]. split; [discriminate|exact Hrun].
Qed.

Lemma sync_modules_Some (inp : pass_input)
    (df_statuses df_data_sources : option DataFrame) (st : es_state)
    (s : pass_state es_state) :
  sync_modules str_of truthy es_create_index es_bulk select_by_id inp
    df_statuses df_data_sources st
  = Ok (Some s) ->
  exists df st' statuses_by_module labels_by_module data_sources_by_module,
    df_main inp = Some df /\ rows df <> [] /\
    related_by_module truthy df_statuses = Ok statuses_by_module /\
    related_by_module truthy (df_labels inp) = Ok labels_by_module /\
    related_by_module truthy df_data_sources = Ok data_sources_by_module /\
    run_batches es_bulk
      (module_action str_of truthy select_by_id (rows df) statuses_by_module
         labels_by_module data_sources_by_module
         (index_prefix inp ++ "modules")%string (utcnow_isoformat inp))
      (rows df) (configured_batch_size inp) st'
    = Ok s.
Proof.
  unfold sync_modules.
  destruct (es_create_index st _) as [st' created]. intros H.
  bind_ok H u Hcreated.
  destruct (df_main inp) as [df|]; [|discriminate].
  destruct (rows df) as [|row0 rest] eqn:Erows; [discriminate|].
  bind_ok H g1 Hg1. bind_ok H g2 Hg2. bind_ok H g3 Hg3.
  bind_ok H s' Hrun. apply Ok_inj in H. injection H as ->.
  exists df, st', g1, g2, g3. rewrite Erows.
  split; [reflexivity|]. split; [discriminate|].
  repeat split; assumption.
Qed.

End EntityPassFacts.

(** X24. The user, status, label and module passes of [src/data_sync.py]
    stamp their documents like the ticket and data-source passes: every
    document of every bulk request carries the one clock reading of the
    pass as [indexed_at], carries as [document_id] the text of the [id] of
    one of the rows followed by an underscore and that reading, and is sent
    under an [_id] equal to its [document_id]. *)
Theorem entity_passes_historical_identity
    (str_of : value -> result string) (truthy : value -> result bool)
    (es_state : Type)
    (es_create_index : es_state -> string -> es_state * result unit)
    (es_bulk :
       es_state -> list action -> bool -> es_state * result (nat * list value))
    (select_by_id : list dict -> value -> result (list dict))
    (df_statuses df_data_sources : option DataFrame)
    (inp : pass_input) (st : es_state) (s : pass_state es_state) :
  sync_users str_of es_create_index es_bulk inp st = Ok (Some s) \/
  sync_statuses str_of truthy es_create_index es_bulk inp st = Ok (Some s) \/
  sync_labels str_of truthy es_create_index es_bulk inp st = Ok (Some s) \/
  sync_modules str_of truthy es_create_index es_bulk select_by_id inp
    df_statuses df_data_sources st = Ok (Some s) ->
  exists df,
    df_main inp = Some df /\
    Forall
      (fun c =>
         Forall (identity_from str_of "id" (rows df) (utcnow_isoformat inp))
           (c_actions c))
      (bulk_calls s).
Proof.
  intros [Hpass|[Hpass|[Hpass|Hpass]]].
  - destruct (entity_pass_Some _ _ _ _ _ _ _ _ Hpass)
      as (df & st' & Hdf & _ & Hrun).
    exists df. split; [exact Hdf|].
    apply Forall_forall. intros c Hc. apply Forall_forall. intros a Ha.
    destruct (run_batches_actions _ _ _ _ _ _ _ _ _ Hrun Hc Ha)
      as (row & Hrow & Hbuild).
    exact (user_action_identity _ _ _ _ _ _ Hrow Hbuild).
  - destruct (entity_pass_Some _ _ _ _ _ _ _ _ Hpass)
      as (df & st' & Hdf & _ & Hrun).
    exists df. split; [exact Hdf|].
    apply Forall_forall. intros c Hc. apply Forall_forall. intros a Ha.
    destruct (run_batches_actions _ _ _ _ _ _ _ _ _ Hrun Hc Ha)
      as (row & Hrow & Hbuild).
    exact (status_action_identity _ _ _ _ _ _ _ Hrow Hbuild).
  - destruct (entity_pass_Some _ _ _ _ _ _ _ _ Hpass)
      as (df & st' & Hdf & _ & Hrun).
    exists df. split; [exact Hdf|].
    apply Forall_forall. intros c Hc. apply Forall_forall. intros a Ha.
    destruct (run_batches_actions _ _ _ _ _ _ _ _ _ Hrun Hc Ha)
      as (row & Hrow & Hbuild).
    exact (label_action_identity _ _ _ _ _ _ _ Hrow Hbuild).
  - destruct (sync_modules_Some _ _ _ _ _ _ _ _ _ _ _ Hpass)
      as (df & st' & g1 & g2 & g3 & Hdf & _ & _ & _ & _ & Hrun).
    exists df. split; [exact Hdf|].
    apply Forall_forall. intros c Hc. apply Forall_forall. intros a Ha.
    destruct (run_batches_actions _ _ _ _ _ _ _ _ _ Hrun Hc Ha)
      as (row & Hrow & Hbuild).
    exact (module_action_identity _ _ _ _ _ _ _ _ _ _ _ _ Hrow Hbuild).
Qed.

(** The sample module pass. *)
Lemma entity_passes_historical_identity_sample :
  exists df,
    df_main sample_modules_input = Some df /\
    Forall
      (fun c =>
         Forall
           (identity_from sample_str_of "id" (rows df)
              (utcnow_isoformat sample_modules_input))
           (c_actions c))
      (bulk_calls sample_modules_pass).
Proof.
  apply (entity_passes_historical_identity sample_str_of sample_truthy unit
           sample_create_index accepting_bulk sample_select_by_id
           (Some sample_module_statuses) None sample_modules_input tt
           sample_modules_pass).
  right. right. right. vm_compute. reflexivity.
Defined.

Section ModuleRelations.

Variable str_of : value -> result string.
Variable truthy : value -> result bool.
Variable select_by_id : list dict -> value -> result (list dict).

Lemma add_related_rows_groups (related : list dict) (g0 g : label_groups)
    (k : value) :
  add_related_rows truthy g0 related = Ok g ->
  group_get g k
  = match filter (related_row_of truthy k) related with
    | [] => group_get g0 k
    | matching =>
        Some (match group_get g0 k with
              | Some ls => ls
              | None => []
              end ++ map VDict matching)
    end.
Proof.
  revert g0. induction related as [|row related IH]; intros g0 Hadd.
  - apply Ok_inj in Hadd. subst g. reflexivity.
  - simpl in Hadd. bind_ok Hadd g1 Hrow.
    rewrite (IH _ Hadd). clear IH Hadd.
    unfold add_related_row in Hrow. bind_ok Hrow t Ht.
    simpl filter. unfold related_row_of at 2. rewrite Ht.
    destruct t.
    + destruct (negb (hashable (row_get row "moduleId"))); [discriminate|].
      apply Ok_inj in Hrow. subst g1.
      destruct (value_eqb (row_get row "moduleId") k) eqn:E.
      * apply value_eqb_true in E. rewrite <- E.
        rewrite group_get_append_same.
        destruct (filter _ related); simpl; [reflexivity|].
        rewrite <- app_assoc. reflexivity.
      * apply value_eqb_false in E.
        rewrite (group_get_append_other g0 k _ _ E). reflexivity.
    + apply Ok_inj in Hrow. subst g1. reflexivity.
Qed.

Lemma related_by_module_count (df : option DataFrame) (g : label_groups)
    (k : value) :
  related_by_module truthy df = Ok g ->
  List.length (match group_get g k with
               | Some ls => ls
               | None => []
               end)
  = List.length (filter (related_row_of truthy k) (frame_rows df)).
Proof.
  unfold related_by_module, frame_rows. destruct df as [df|]; intros H.
  - rewrite (add_related_rows_groups _ _ _ k H).
    destruct (filter _ (rows df)); [reflexivity|].
    simpl. rewrite length_map. reflexivity.
  - apply Ok_inj in H. subst g. reflexivity.
Qed.

Lemma add_parent_module_get (modules : list dict) (row doc doc' : dict)
    (k : string) :
  add_parent_module str_of truthy select_by_id modules row doc = Ok doc' ->
  k <> "parent_module_id"%string -> k <> "parent_module_name"%string ->
  dict_get doc' k = dict_get doc k.
Proof.
  unfold add_parent_module. intros H Hid Hname.
  bind_ok H t Ht. destruct t; [|apply Ok_inj in H; subst doc'; reflexivity].
  bind_ok H parent_module Hsel.
  destruct parent_module as [|parent others];
    [apply Ok_inj in H; subst doc'; reflexivity|].
  bind_ok H parent_text Htext. bind_ok H parent_name Hpname.
  apply Ok_inj in H. subst doc'.
  rewrite !dict_get_set_other by (intros Heq; symmetry in Heq; contradiction).
  reflexivity.
Qed.

Lemma sanitized_list_field (doc : dict) (k : string) (ls : list value) :
  NoDup (keys doc) -> dict_get doc k = Some (VList ls) ->
  dict_get
    (sanitize_fields
       (DocumentUtils.coerce_field DocumentUtils.sanitize_document) doc [])
    k
  = Some (VList (map sanitized ls)).
Proof.
  intros Hnd Hget.
  rewrite (sanitize_fields_get _ doc [] k _ Hnd (dict_get_In _ _ _ Hget)).
  rewrite coerce_list_field. reflexivity.
Qed.

Lemma finish_document_list_field (index_name index_timestamp id_text : string)
    (doc : dict) (k : string) (ls : list value) (a : action) :
  NoDup (keys doc) -> dict_get doc k = Some (VList ls) ->
  k <> "indexed_at"%string -> k <> "document_id"%string ->
  finish_document str_of index_name index_timestamp id_text doc
  = Ok (Some a) ->
  exists entries,
    doc_field (a_source a) k = Some (VList entries) /\
    List.length entries = List.length ls.
Proof.
  unfold finish_document. intros Hnd Hget Hts Hdoc H.
  bind_ok H sanitized_doc Hsan.
  rewrite sanitize_document_returns in Hsan.
  apply Ok_inj in Hsan. apply Ok_inj in H. subst sanitized_doc.
  pose (full := dict_set (dict_set doc "indexed_at" (VStr index_timestamp))
                  "document_id"
                  (VStr (id_text ++ "_" ++ index_timestamp))).
  assert (Hout : dict_get
                   (sanitize_fields
                      (DocumentUtils.coerce_field
                         DocumentUtils.sanitize_document) full [])
                   k
                 = Some (VList (map sanitized ls))).
  { apply sanitized_list_field.
    - unfold full. repeat apply NoDup_keys_dict_set. exact Hnd.
    - unfold full.
      rewrite !dict_get_set_other
        by (intros Heq; symmetry in Heq; contradiction).
      exact Hget. }
  change (make_action str_of index_name (id_text ++ "_" ++ index_timestamp)
            (VDict (sanitize_fields
                      (DocumentUtils.coerce_field
                         DocumentUtils.sanitize_document) full []))
          = Some a) in H.
  unfold make_action in H.
  destruct (json_encodable _) in H.
  - injection H as <-. simpl.
    exists (map sanitized ls). split; [exact Hout | apply length_map].
  - destruct (json_roundtrip_default_str str_of _) as [r|] eqn:Hr in H;
      [|discriminate].
    injection H as <-. simpl a_source.
    simpl in Hr. bind_ok Hr fs Hfs. apply Ok_inj in Hr. subst r.
    destruct (map_result_fields_get _ _ _ _ _ Hfs Hout) as (y & Hy & Hgety).
    simpl in Hy. bind_ok Hy xs Hxs. apply Ok_inj in Hy. subst y.
    exists xs. split; [exact Hgety|].
    rewrite (map_result_length _ _ _ Hxs). apply length_map.
Qed.

Lemma labels_of_Ok (g : label_groups) (k x : value) :
  labels_of g k = Ok x ->
  x = VList (match group_get g k with
             | Some ls => ls
             | None => []
             end).
Proof.
  unfold labels_of. destruct (negb (hashable k)); [discriminate|].
  intros H. apply Ok_inj in H. symmetry. exact H.
Qed.

(** The three relation lists of a queued module document. *)
Lemma module_action_relations (modules : list dict)
    (statuses_by_module labels_by_module data_sources_by_module : label_groups)
    (index_name index_timestamp : string) (row : dict) (a : action)
    (raw : value) :
  module_action str_of truthy select_by_id modules statuses_by_module
    labels_by_module data_sources_by_module index_name index_timestamp row
  = Ok (Some a) ->
  dict_get row "id" = Some raw ->
  forall k g,
    (k, g) = ("statuses"%string, statuses_by_module) \/
    (k, g) = ("labels"%string, labels_by_module) \/
    (k, g) = ("data_sources"%string, data_sources_by_module) ->
    exists entries,
      doc_field (a_source a) k = Some (VList entries) /\
      List.length entries
      = List.length (match group_get g (normalize_id raw) with
                     | Some ls => ls
                     | None => []
                     end).
Proof.
  unfold module_action. intros H Hrow k g Hk.
  bind_ok H raw' Hraw. apply row_getitem_Ok in Hraw.
  rewrite Hrow in Hraw. injection Hraw as <-.
  bind_ok H id_text Hid.
  bind_ok H statuses Hstatuses. apply labels_of_Ok in Hstatuses.
  bind_ok H labels Hlabels. apply labels_of_Ok in Hlabels.
  bind_ok H data_sources Hsources. apply labels_of_Ok in Hsources.
  bind_ok H doc Hparent.
  assert (Hnd : NoDup (keys doc)).
  { apply (add_parent_module_NoDup _ _ _ _ _ _ _ Hparent).
    repeat apply NoDup_keys_dict_set. constructor. }
  apply (finish_document_list_field index_name index_timestamp id_text doc k
           (match group_get g (normalize_id raw) with
            | Some ls => ls
            | None => []
            end) a Hnd);
    try (destruct Hk as [Hk|[Hk|Hk]]; injection Hk as -> _; discriminate);
    [|exact H].
  rewrite (add_parent_module_get _ _ _ _ k Hparent)
    by (destruct Hk as [Hk|[Hk|Hk]]; injection Hk as -> _; discriminate).
  destruct Hk as [Hk|[Hk|Hk]]; injection Hk as -> ->.
  - rewrite !dict_get_set_other by discriminate.
    rewrite dict_get_set_same. exact (f_equal Some Hstatuses).
  - rewrite !dict_get_set_other by discriminate.
    rewrite dict_get_set_same. exact (f_equal Some Hlabels).
  - rewrite dict_get_set_same. exact (f_equal Some Hsources).
Qed.

Lemma uuid_rows_never_match (canon : string) (related : list dict) :
  Forall (fun r => is_uuid (row_get r "moduleId") = true
                   \/ row_get r "moduleId" = VNone) related ->
  filter (related_row_of truthy (VStr canon)) related = [].
Proof.
  induction 1 as [|r related Hr _ IH]; simpl; [reflexivity|].
  rewrite IH. unfold related_row_of.
  destruct (truthy (row_get r "moduleId")) as [[]|]; try reflexivity.
  destruct Hr as [Hr|Hr].
  - destruct (row_get r "moduleId"); try discriminate. reflexivity.
  - rewrite Hr. reflexivity.
Qed.

End ModuleRelations.

(** X25. A queued module document lists, under [statuses], [labels] and
    [data_sources], one entry for each row of the matching frame whose
    [moduleId] is truthy and equal to the id under which the module is
    looked up, which is the text of the module's id when the id is a UUID
    object. *)
Theorem module_document_relations
    (str_of : value -> result string) (truthy : value -> result bool)
    (select_by_id : list dict -> value -> result (list dict))
    (modules : list dict)
    (df_statuses df_module_labels df_data_sources : option DataFrame)
    (statuses_by_module labels_by_module data_sources_by_module : label_groups)
    (index_name index_timestamp : string) (row : dict) (a : action)
    (raw : value) :
  related_by_module truthy df_statuses = Ok statuses_by_module ->
  related_by_module truthy df_module_labels = Ok labels_by_module ->
  related_by_module truthy df_data_sources = Ok data_sources_by_module ->
  module_action str_of truthy select_by_id modules statuses_by_module
    labels_by_module data_sources_by_module index_name index_timestamp row
  = Ok (Some a) ->
  dict_get row "id" = Some raw ->
  exists statuses labels data_sources,
    doc_field (a_source a) "statuses" = Some (VList statuses) /\
    doc_field (a_source a) "labels" = Some (VList labels) /\
    doc_field (a_source a) "data_sources" = Some (VList data_sources) /\
    List.length statuses
    = List.length (filter (related_row_of truthy (normalize_id raw))
                     (frame_rows df_statuses)) /\
    List.length labels
    = List.length (filter (related_row_of truthy (normalize_id raw))
                     (frame_rows df_module_labels)) /\
    List.length data_sources
    = List.length (filter (related_row_of truthy (normalize_id raw))
                     (frame_rows df_data_sources)).
Proof.
  intros Hs Hl Hd Hact Hrow.
  pose proof (module_action_relations str_of truthy select_by_id _ _ _ _ _ _
                _ _ _ Hact Hrow) as Hrel.
  destruct (Hrel _ _ (or_introl eq_refl)) as (statuses & Hf1 & Hn1).
  destruct (Hrel _ _ (or_intror (or_introl eq_refl))) as (labels & Hf2 & Hn2).
  destruct (Hrel _ _ (or_intror (or_intror eq_refl)))
    as (data_sources & Hf3 & Hn3).
  exists statuses, labels, data_sources.
  rewrite Hn1, Hn2, Hn3.
  rewrite (related_by_module_count truthy _ _ _ Hs),
    (related_by_module_count truthy _ _ _ Hl),
    (related_by_module_count truthy _ _ _ Hd).
  repeat split; assumption.
Qed.

(** Module [m1] of the text-id frames: two of the three statuses, one of
    the two labels, no data source. *)
Lemma module_document_relations_sample :
  exists statuses labels data_sources,
    doc_field (a_source sample_text_module_action) "statuses"
    = Some (VList statuses) /\
    doc_field (a_source sample_text_module_action) "labels"
    = Some (VList labels) /\
    doc_field (a_source sample_text_module_action) "data_sources"
    = Some (VList data_sources) /\
    List.length statuses = 2 /\
    List.length labels = 1 /\
    List.length data_sources = 0.
Proof.
  exact (module_document_relations sample_str_of sample_truthy
           sample_select_by_id [sample_text_module_row]
           (Some sample_text_statuses) (Some sample_text_labels) None
           sample_text_status_groups sample_text_label_groups []
           "data_lake_modules" "2024-05-01T10:00:00" sample_text_module_row
           sample_text_module_action (VStr "m1")
           eq_refl eq_refl eq_refl eq_refl eq_refl).
Defined.

(** X26. When the database returns ids as UUID objects, the module pass
    never finds the relations of a module: the groups are keyed by the
    [moduleId] objects of the related rows, the lookup uses the text of the
    module's id, and a text is never equal to a UUID object.  The queued
    document then has empty [statuses], [labels] and [data_sources],
    whatever the three frames hold. *)
Theorem module_relations_empty_for_uuid_ids
    (str_of : value -> result string) (truthy : value -> result bool)
    (select_by_id : list dict -> value -> result (list dict))
    (modules : list dict)
    (df_statuses df_module_labels df_data_sources : option DataFrame)
    (statuses_by_module labels_by_module data_sources_by_module : label_groups)
    (index_name index_timestamp : string) (row : dict) (a : action)
    (canon : string) :
  related_by_module truthy df_statuses = Ok statuses_by_module ->
  related_by_module truthy df_module_labels = Ok labels_by_module ->
  related_by_module truthy df_data_sources = Ok data_sources_by_module ->
  module_action str_of truthy select_by_id modules statuses_by_module
    labels_by_module data_sources_by_module index_name index_timestamp row
  = Ok (Some a) ->
  dict_get row "id" = Some (VUuid canon) ->
  Forall (fun r => is_uuid (row_get r "moduleId") = true
                   \/ row_get r "moduleId" = VNone)
    (frame_rows df_statuses ++ frame_rows df_module_labels
     ++ frame_rows df_data_sources) ->
  doc_field (a_source a) "statuses" = Some (VList []) /\
  doc_field (a_source a) "labels" = Some (VList []) /\
  doc_field (a_source a) "data_sources" = Some (VList []).
Proof.
  intros Hs Hl Hd Hact Hrow Hall.
  apply Forall_app in Hall. destruct Hall as [Hall1 Hall].
  apply Forall_app in Hall. destruct Hall as [Hall2 Hall3].
  pose proof (module_action_relations str_of truthy select_by_id _ _ _ _ _ _
                _ _ _ Hact Hrow) as Hrel.
  destruct (Hrel _ _ (or_introl eq_refl)) as (statuses & Hf1 & Hn1).
  destruct (Hrel _ _ (or_intror (or_introl eq_refl))) as (labels & Hf2 & Hn2).
  destruct (Hrel _ _ (or_intror (or_intror eq_refl)))
    as (data_sources & Hf3 & Hn3).
  rewrite (related_by_module_count truthy _ _ _ Hs) in Hn1.
  rewrite (related_by_module_count truthy _ _ _ Hl) in Hn2.
  rewrite (related_by_module_count truthy _ _ _ Hd) in Hn3.
  simpl normalize_id in Hn1, Hn2, Hn3.
  rewrite (uuid_rows_never_match truthy canon _ Hall1) in Hn1.
  rewrite (uuid_rows_never_match truthy canon _ Hall2) in Hn2.
  rewrite (uuid_rows_never_match truthy canon _ Hall3) in Hn3.
  destruct statuses; [|discriminate].
  destruct labels; [|discriminate].
  destruct data_sources; [|discriminate].
  repeat split; assumption.
Qed.

(** The sample module has two statuses in the frame and none in its
    document. *)
Lemma module_relations_empty_for_uuid_ids_sample :
  doc_field (a_source sample_module_action) "statuses" = Some (VList []) /\
  doc_field (a_source sample_module_action) "labels" = Some (VList []) /\
  doc_field (a_source sample_module_action) "data_sources" = Some (VList []).
Proof.
  apply (module_relations_empty_for_uuid_ids sample_str_of sample_truthy
           sample_select_by_id (rows sample_modules)
           (Some sample_module_statuses) None None sample_module_groups [] []
           "data_lake_modules" "2024-05-01T10:00:00" sample_module_row
           sample_module_action "aaaaaaaa-0000-4000-8000-000000000001");
    try reflexivity.
  repeat constructor.
Defined.

(** ** The sync route of the tickets and the user route *)

Lemma string_app_assoc (a b c : string) :
  ((a ++ b) ++ c)%string = (a ++ (b ++ c))%string.
Proof.
  induction a as [|x a IH]; simpl; [reflexivity|]. rewrite IH. reflexivity.
Qed.

Lemma process_ticket_data_labels (json_loads : string -> result value)
    (df_tickets df_labels : DataFrame) (doc : value) :
  process_ticket_data json_loads df_tickets (Some df_labels) = Ok doc ->
  exists labels,
    doc_field doc "labels" = Some (VList labels) /\
    List.length labels
    = if frame_empty df_labels then 0 else List.length (rows df_labels).
Proof.
  unfold process_ticket_data.
  destruct (rows df_tickets) as [|row others]; [discriminate|].
  intros H. bind_ok H doc0 Hcopy. bind_ok H doc1 Hparse.
  bind_ok H labels Hlabels.
  rewrite sanitize_document_returns in H. apply Ok_inj in H. subst doc.
  exists (map sanitized labels). split.
  - apply sanitized_list_field; [|apply dict_get_set_same].
    apply NoDup_keys_dict_set.
    apply (parse_ticket_data_NoDup json_loads doc0); [|exact Hparse].
    apply (copy_columns_NoDup (columns df_tickets) row []);
      [constructor | exact Hcopy].
  - rewrite length_map. destruct (frame_empty df_labels).
    + apply Ok_inj in Hlabels. subst labels. reflexivity.
    + apply (map_result_length _ _ _ Hlabels).
Qed.

(** X27. When [sync_db_ticket] answers 200, the store was asked exactly
    once: to index, in the denormalized-ticket index and under the
    [ticket_id] of the request, the document that [process_ticket_data]
    built from the frames of that ticket; the document has a [labels] list
    with one entry per row of the label frame. *)
Theorem sync_db_ticket_stores_requested_ticket
    (json_loads : string -> result value) (str_of : value -> result string)
    (str_of_exn : exn -> string) (index_prefix : string)
    (get_tickets_and_labels :
       value -> result (option DataFrame * option DataFrame))
    (answer : string -> value -> value -> result value)
    (data : value) (calls calls' : list index_call) (resp : response) :
  sync_db_ticket json_loads str_of str_of_exn index_prefix
    get_tickets_and_labels (recording_index answer) data calls
  = (calls', resp) ->
  status_code resp = 200 ->
  exists ticket_id df_tickets df_labels doc labels,
    py_getitem data "ticket_id" = Ok ticket_id /\
    get_tickets_and_labels ticket_id = Ok (Some df_tickets, Some df_labels) /\
    process_ticket_data json_loads df_tickets (Some df_labels) = Ok doc /\
    calls'
    = calls ++ [((index_prefix ++ "denormalized_tickets")%string,
                 ticket_id, doc)] /\
    doc_field doc "labels" = Some (VList labels) /\
    List.length labels
    = (if frame_empty df_labels then 0 else List.length (rows df_labels)) /\
    doc_field (body resp) "ticket_id" = Some ticket_id.
Proof.
  unfold sync_db_ticket, sync_db_ticket_body. intros H Hcode.
  destruct (negb (json_truth data));
    [injection H as _ <-; discriminate Hcode|].
  destruct (py_contains data "ticket_id") as [[]|e];
    try (injection H as _ <-; discriminate Hcode).
  destruct (py_getitem data "ticket_id") as [ticket_id|e]; simpl in H;
    [|injection H as _ <-; discriminate Hcode].
  destruct (py_str str_of ticket_id) as [ticket_text|e]; simpl in H;
    [|injection H as _ <-; discriminate Hcode].
  destruct (get_tickets_and_labels ticket_id)
    as [[[df_tickets|] df_labels]|e] eqn:Hframes; simpl in H;
    try (injection H as _ <-; discriminate Hcode).
  destruct (process_ticket_data json_loads df_tickets df_labels)
    as [doc|e] eqn:Hdoc;
    [|injection H as _ <-; discriminate Hcode].
  destruct df_labels as [df_labels|].
  2:{ unfold process_ticket_data in Hdoc.
      destruct (rows df_tickets); [discriminate|].
      bind_ok Hdoc d0 H0. bind_ok Hdoc d1 H1. discriminate Hdoc. }
  destruct (process_ticket_data_labels _ _ _ _ Hdoc) as (labels & Hl & Hn).
  unfold recording_index, get_index_name in H.
  destruct (answer _ ticket_id doc) as [es_result|e];
    [|injection H as _ <-; discriminate Hcode].
  exists ticket_id, df_tickets, df_labels, doc, labels.
  destruct (stored es_result) as [[]|e]; injection H as <- <-;
    try discriminate Hcode; repeat split; auto.
Qed.

(** The request for ticket A. *)
Lemma sync_db_ticket_stores_requested_ticket_sample :
  exists ticket_id df_tickets df_labels doc labels,
    py_getitem sample_sync_request "ticket_id" = Ok ticket_id /\
    sample_get_tickets_and_labels ticket_id
    = Ok (Some df_tickets, Some df_labels) /\
    process_ticket_data sample_json_loads df_tickets (Some df_labels)
    = Ok doc /\
    fst sample_sync_outcome
    = [] ++ [(("data_lake_" ++ "denormalized_tickets")%string,
              ticket_id, doc)] /\
    doc_field doc "labels" = Some (VList labels) /\
    List.length labels
    = (if frame_empty df_labels then 0 else List.length (rows df_labels)) /\
    doc_field (body (snd sample_sync_outcome)) "ticket_id" = Some ticket_id.
Proof.
  apply (sync_db_ticket_stores_requested_ticket sample_json_loads
           sample_str_of sample_str_of_exn "data_lake_"
           sample_get_tickets_and_labels sample_answer sample_sync_request
           [] (fst sample_sync_outcome) (snd sample_sync_outcome));
    reflexivity.
Defined.

(** X28. When [add_user] answers 201, the store was asked exactly once, to
    index the sanitized payload under its [id]; the index is the prefix
    followed by [denormalized_ticketsusers] (the route appends [users] to
    the default index name), which is never the index [<prefix>users]
    that the user pass of [src/data_sync.py] fills. *)
Theorem add_user_index_name
    (str_of_exn : exn -> string) (index_prefix : string)
    (answer : string -> value -> value -> result value)
    (user_data : value) (calls calls' : list index_call) (resp : response) :
  add_user str_of_exn index_prefix (recording_index answer) user_data calls
  = (calls', resp) ->
  status_code resp = 201 ->
  exists doc user_id,
    DocumentUtils.sanitize_document user_data = Ok doc /\
    py_getitem doc "id" = Ok user_id /\
    calls'
    = calls ++ [((index_prefix ++ "denormalized_ticketsusers")%string,
                 user_id, doc)] /\
    (index_prefix ++ "denormalized_ticketsusers")%string
    <> (index_prefix ++ "users")%string.
Proof.
  unfold add_user. intros H Hcode.
  destruct (negb (json_truth user_data));
    [injection H as _ <-; discriminate Hcode|].
  rewrite sanitize_document_returns in H. simpl in H.
  destruct (py_getitem (sanitized user_data) "id") as [user_id|e] eqn:Hid;
    simpl in H;
    [|injection H as _ <-; destruct e; discriminate Hcode].
  unfold recording_index, get_index_name in H.
  rewrite string_app_assoc in H. simpl append in H.
  destruct (answer _ user_id (sanitized user_data)) as [es_result|e];
    [|injection H as _ <-; destruct e; discriminate Hcode].
  injection H as <- <-.
  exists (sanitized user_data), user_id.
  split; [apply sanitize_document_returns|]. split; [exact Hid|].
  split; [reflexivity|].
  intros Heq. apply string_app_inv in Heq. discriminate Heq.
Qed.

(** The sample user. *)
Lemma add_user_index_name_sample :
  exists doc user_id,
    DocumentUtils.sanitize_document sample_user_payload = Ok doc /\
    py_getitem doc "id" = Ok user_id /\
    fst sample_add_user_outcome
    = [] ++ [(("data_lake_" ++ "denormalized_ticketsusers")%string,
              user_id, doc)] /\
    ("data_lake_" ++ "denormalized_ticketsusers")%string
    <> ("data_lake_" ++ "users")%string.
Proof.
  apply (add_user_index_name sample_str_of_exn "data_lake_" sample_answer
           sample_user_payload [] (fst sample_add_user_outcome)
           (snd sample_add_user_outcome));
    reflexivity.
Defined.

(** ** The index mappings *)

(** X29. The two tables of [src/utils.py] agree: for each of the six
    entity types that [prepare_entity_data] knows, the mapping built by
    [create_index_mapping] declares every required field, declares the
    generated [<type>_id] as a keyword and the two generated timestamps as
    dates, and declares the parsed [<type>_data] as an object. *)
Theorem prepared_fields_are_mapped (refresh_interval : value)
    (entity_type : string) :
  In entity_type (map fst required_fields) ->
  (forall field,
      In field (entity_required_fields entity_type) ->
      mapped_type (create_index_mapping refresh_interval entity_type) field
      <> None) /\
  mapped_type (create_index_mapping refresh_interval entity_type)
    (entity_type ++ "_id") = Some "keyword"%string /\
  mapped_type (create_index_mapping refresh_interval entity_type)
    (entity_type ++ "_createdAt") = Some "date"%string /\
  mapped_type (create_index_mapping refresh_interval entity_type)
    (entity_type ++ "_updatedAt") = Some "date"%string /\
  mapped_type (create_index_mapping refresh_interval entity_type)
    (entity_type ++ "_data") = Some "object"%string.
Proof.
  intros Hknown. simpl in Hknown.
  repeat (destruct Hknown as [<-|Hknown];
          [split; [intros field [<-|[]]; discriminate
                  | repeat split; reflexivity]|]).
  contradiction.
Qed.

(** The user type. *)
Lemma prepared_fields_are_mapped_sample :
  (forall field,
      In field (entity_required_fields "user") ->
      mapped_type (create_index_mapping (VStr "1s") "user") field <> None) /\
  mapped_type (create_index_mapping (VStr "1s") "user") ("user" ++ "_id")
  = Some "keyword"%string /\
  mapped_type (create_index_mapping (VStr "1s") "user")
    ("user" ++ "_createdAt") = Some "date"%string /\
  mapped_type (create_index_mapping (VStr "1s") "user")
    ("user" ++ "_updatedAt") = Some "date"%string /\
  mapped_type (create_index_mapping (VStr "1s") "user") ("user" ++ "_data")
  = Some "object"%string.
Proof.
  apply prepared_fields_are_mapped.
  simpl. right. right. right. right. right. left. reflexivity.
Defined.
